(** * PantryFlow food tracker: reminder sweep, price ledger and spending queries

    A shallow embedding of [server.js] and of the schema it runs against.

    Conventions of the model.
    - The MySQL tables are lists of rows in storage order; every SQL statement
      the server issues is a function on the [database] record.
    - A [DATE] is the number of days since 1970-01-01, a [TIMESTAMP] and a
      JavaScript [Date] are milliseconds since the epoch.  The Node process
      and the MySQL server share one time zone, carried by the clock: a
      [DATE] read by the driver is the instant of that day's local midnight,
      [CURDATE()] and [setMonth] work on the local calendar, [toISOString]
      on the UTC one.
    - A [DECIMAL(10,2)] price is an integer number of hundredths; prices
      are taken to be given in whole hundredths and within the column's
      range, and their sums and differences are exact.
    - Dates in a request are written YYYY-MM-DD.
    - Strings are compared byte for byte.
    - Every call to [pool.execute] or to [fs.unlink] may throw; whether it
      does is decided by a fault schedule carried by the [world]. *)

From Stdlib Require Import ZArith List String Bool Lia.
From Stdlib Require Import DecimalString.
From Stdlib Require Import Permutation.
Import ListNotations.
Local Open Scope string_scope.
Local Open Scope list_scope.
Local Open Scope Z_scope.

(* ------------------------------------------------------------------ *)
(** ** JavaScript values reaching the brand parameters *)

Inductive jsval : Type :=
| JUndefined
| JNull
| JStr (s : string).

Definition jsval_eqb (a b : jsval) : bool :=
  match a, b with
  | JUndefined, JUndefined => true
  | JNull, JNull => true
  | JStr s, JStr t => String.eqb s t
  | _, _ => false
  end.

(** [!v] for the values above. *)
Definition js_not (v : jsval) : bool :=
  match v with
  | JUndefined | JNull => true
  | JStr s => String.eqb s ""
  end.

(** A bound SQL parameter: [None] is SQL NULL. *)
Definition sqlstr := option string.

(** MySQL's [a <=> b]: NULL-safe equality. *)
Definition null_safe_eqb (a b : sqlstr) : bool :=
  match a, b with
  | None, None => true
  | Some s, Some t => String.eqb s t
  | _, _ => false
  end.

(** MySQL's [a = b] as a WHERE condition: unknown (NULL) counts as false. *)
Definition sql_eqb (a b : sqlstr) : bool :=
  match a, b with
  | Some s, Some t => String.eqb s t
  | _, _ => false
  end.

(* ------------------------------------------------------------------ *)
(** ** Calendar arithmetic (proleptic Gregorian) *)

Module Calendar.

Definition msPerDay : Z := 1000 * 60 * 60 * 24.

(** Day number of the civil date [y]-[m]-[d], [m] in 1..12; [d] may
    overflow the month, as in ECMAScript's MakeDay. *)
Definition days_from_civil (y m d : Z) : Z :=
  let y' := if m <=? 2 then y - 1 else y in
  let era := y' / 400 in
  let yoe := y' - era * 400 in
  let mp := if m <=? 2 then m + 9 else m - 3 in
  let doy := (153 * mp + 2) / 5 + d - 1 in
  let doe := yoe * 365 + yoe / 4 - yoe / 100 + doy in
  era * 146097 + doe - 719468.

(** Civil date (year, month 1..12, day 1..31) of a day number. *)
Definition civil_from_days (z : Z) : Z * Z * Z :=
  let z' := z + 719468 in
  let era := z' / 146097 in
  let doe := z' - era * 146097 in
  let yoe := (doe - doe / 1460 + doe / 36524 - doe / 146096) / 365 in
  let doy := doe - (365 * yoe + yoe / 4 - yoe / 100) in
  let mp := (5 * doy + 2) / 153 in
  let d := doy - (153 * mp + 2) / 5 + 1 in
  let m := if mp <? 10 then mp + 3 else mp - 9 in
  let y := yoe + era * 400 in
  (if m <=? 2 then y + 1 else y, m, d).

Definition year_of (z : Z) : Z := fst (fst (civil_from_days z)).

Definition is_leap (y : Z) : bool :=
  ((y mod 4 =? 0) && negb (y mod 100 =? 0)) || (y mod 400 =? 0).

Definition days_in_month (y m : Z) : Z :=
  if m =? 2 then (if is_leap y then 29 else 28)
  else if (m =? 4) || (m =? 6) || (m =? 9) || (m =? 11) then 30
  else 31.

(** MySQL [DATE_SUB(d, INTERVAL n MONTH)]: the day of the month is clamped
    to the length of the resulting month. *)
Definition date_sub_months (z n : Z) : Z :=
  let '(y, m, d) := civil_from_days z in
  let k := y * 12 + (m - 1) - n in
  let y' := k / 12 in
  let m' := k mod 12 + 1 in
  days_from_civil y' m' (Z.min d (days_in_month y' m')).

(** A time zone: what the local wall clock shows at an instant, and the
    instant at which it shows a given reading (both in milliseconds). *)
Record zone : Type := mkZone {
  to_local : Z -> Z;
  of_local : Z -> Z
}.

(** A zone that is always [offset] milliseconds ahead of UTC. *)
Definition fixed_zone (offset : Z) : zone :=
  mkZone (fun t => t + offset) (fun l => l - offset).

Definition UTC : zone := fixed_zone 0.

(** What the clock reads: an instant, in the time zone of the process and
    of the server. *)
Record moment : Type := at_zone {
  instant : Z;
  tz : zone
}.

(** [CURDATE()] at [now]: the local date. *)
Definition curdate (now : moment) : Z :=
  to_local (tz now) (instant now) / msPerDay.

(** [new Date(d)] for a [DATE] value [d] handed over by the driver: the
    instant of local midnight. *)
Definition date_to_instant (z : zone) (d : Z) : Z := of_local z (d * msPerDay).

(** Whether the local day of the month at [now] exists in the month
    before. *)
Definition day_fits_previous_month (now : moment) : bool :=
  let '(y, m, d) := civil_from_days (curdate now) in
  let k := y * 12 + (m - 1) - 1 in
  d <=? days_in_month (k / 12) (k mod 12 + 1).

(** [t.setMonth(t.getMonth() - 1)] and then [t.getTime()]:
    UTC(MakeDate(MakeDay(y, m - 1, d), time)) on the local date and time. *)
Definition set_month_back (now : moment) : Z :=
  let local := to_local (tz now) (instant now) in
  let day := local / msPerDay in
  let time := local mod msPerDay in
  let '(y, m, d) := civil_from_days day in
  let k := y * 12 + (m - 1) - 1 in
  of_local (tz now)
           ((days_from_civil (k / 12) (k mod 12 + 1) d) * msPerDay + time).

(** The instant one calendar month before [now], as [DATE_SUB(..., INTERVAL
    1 MONTH)] counts months: same local time on the same day of the previous
    month, or on its last day when it is shorter. *)
Definition one_month_before (now : moment) : Z :=
  let local := to_local (tz now) (instant now) in
  of_local (tz now)
           (date_sub_months (local / msPerDay) 1 * msPerDay
            + local mod msPerDay).

Definition digits (n : Z) : string :=
  NilZero.string_of_int (Z.to_int n).

Definition pad2 (n : Z) : string :=
  if n <? 10 then ("0" ++ digits n)%string else digits n.

Definition pad4 (n : Z) : string :=
  if n <? 10 then ("000" ++ digits n)%string
  else if n <? 100 then ("00" ++ digits n)%string
  else if n <? 1000 then ("0" ++ digits n)%string
  else digits n.

(** YYYY-MM-DD of a day number. *)
Definition iso_date (z : Z) : string :=
  let '(y, m, d) := civil_from_days z in
  (pad4 y ++ "-" ++ pad2 m ++ "-" ++ pad2 d)%string.

(** [t.toISOString().split('T')[0]]: the UTC date of an instant. *)
Definition utc_date (t : Z) : string := iso_date (t / msPerDay).

(** [Math.ceil(x / y)] on integers, [y] positive. *)
Definition ceil_div (x y : Z) : Z := - ((- x) / y).

End Calendar.

(* ------------------------------------------------------------------ *)
(** ** The schema *)

Inductive location : Type := Pantry | Fridge | Freezer.

Definition location_eqb (a b : location) : bool :=
  match a, b with
  | Pantry, Pantry | Fridge, Fridge | Freezer, Freezer => true
  | _, _ => false
  end.

(** The ENUM('Pantry', 'Fridge', 'Freezer') column: other strings are
    rejected by the server. *)
Definition location_of_string (s : string) : option location :=
  if String.eqb s "Pantry" then Some Pantry
  else if String.eqb s "Fridge" then Some Fridge
  else if String.eqb s "Freezer" then Some Freezer
  else None.

Module Items.
Record row : Type := mk {
  id : Z;
  name : string;
  brand : sqlstr;
  location : location;
  purchase_date : Z;
  best_by_date : Z;
  price : Z;
  image_path : sqlstr;
  is_spoiled : bool;
  created_at : Z
}.
End Items.

Module Reminders.
Record row : Type := mk {
  id : Z;
  item_id : option Z;
  item_name : string;
  message : string;
  is_closed : bool;
  created_at : Z
}.
End Reminders.

Module PriceHistory.
Record row : Type := mk {
  id : Z;
  item_name : string;
  item_brand : sqlstr;
  price : Z;
  recorded_at : Z
}.

Definition with_price (p : Z) (r : row) : row :=
  mk (id r) (item_name r) (item_brand r) p (recorded_at r).
End PriceHistory.

Record database : Type := mkDatabase {
  items : list Items.row;
  reminders : list Reminders.row;
  price_history : list PriceHistory.row;
  (* AUTO_INCREMENT counters *)
  next_item : Z;
  next_reminder : Z;
  next_price : Z
}.

Definition set_items (f : list Items.row -> list Items.row) (n : Z -> Z)
  (d : database) : database :=
  mkDatabase (f (items d)) (reminders d) (price_history d)
             (n (next_item d)) (next_reminder d) (next_price d).

Definition set_reminders (f : list Reminders.row -> list Reminders.row)
  (n : Z -> Z) (d : database) : database :=
  mkDatabase (items d) (f (reminders d)) (price_history d)
             (next_item d) (n (next_reminder d)) (next_price d).

Definition set_price_history
  (f : list PriceHistory.row -> list PriceHistory.row) (n : Z -> Z)
  (d : database) : database :=
  mkDatabase (items d) (reminders d) (f (price_history d))
             (next_item d) (next_reminder d) (n (next_price d)).

(** [CURRENT_TIMESTAMP] of a [TIMESTAMP] column: whole seconds. *)
Definition current_timestamp (now : Calendar.moment) : Z :=
  Calendar.instant now / 1000 * 1000.

(* ------------------------------------------------------------------ *)
(** ** The SQL statements of [server.js]

    A statement receives the server clock and the database, and gives its
    result and the new database, or [None] when the server rejects it. *)

Definition statement (A : Type) : Type :=
  Calendar.moment -> database -> option (A * database).

Module Sql.

Definition sum_prices (l : list Z) : Z := fold_right Z.add 0 l.

(** [SUM(...)]: NULL over no rows. *)
Definition SUM (l : list Z) : option Z :=
  match l with
  | [] => None
  | _ => Some (sum_prices l)
  end.

(** DELETE FROM reminders WHERE is_closed = TRUE AND created_at < ? *)
Definition purge_cond (bound : Z) (r : Reminders.row) : bool :=
  Reminders.is_closed r && (Reminders.created_at r <? bound).

Definition delete_closed_before (bound : Z) : statement unit :=
  fun _ d =>
    Some (tt, set_reminders (filter (fun r => negb (purge_cond bound r)))
                            (fun n => n) d).

(** SELECT id, name, best_by_date FROM items
    WHERE DATEDIFF(best_by_date, CURDATE()) <= ? *)
Definition expiring_cond (threshold today : Z) (it : Items.row) : bool :=
  Items.best_by_date it - today <=? threshold.

Definition select_expiring (threshold : Z) : statement (list Items.row) :=
  fun now d =>
    Some (filter (expiring_cond threshold (Calendar.curdate now)) (items d), d).

(** SELECT id FROM reminders
    WHERE item_id = ? AND message = ? AND is_closed = FALSE *)
Definition open_match (item : Z) (msg : string) (r : Reminders.row) : bool :=
  match Reminders.item_id r with
  | Some i => i =? item
  | None => false
  end
  && String.eqb (Reminders.message r) msg
  && negb (Reminders.is_closed r).

Definition select_open_reminders (item : Z) (msg : string)
  : statement (list Z) :=
  fun _ d =>
    Some (map Reminders.id (filter (open_match item msg) (reminders d)), d).

(** INSERT INTO reminders (item_id, item_name, message) VALUES (?, ?, ?) *)
Definition new_reminder (now : Calendar.moment) (d : database) (item : Z)
  (item_name msg : string) : Reminders.row :=
  Reminders.mk (next_reminder d) (Some item) item_name msg false
               (current_timestamp now).

Definition insert_reminder (item : Z) (item_name msg : string)
  : statement unit :=
  fun now d =>
    Some (tt, set_reminders
                (fun l => l ++ [new_reminder now d item item_name msg])
                Z.succ d).

(** The UNIQUE KEY unique_price_entry (item_name, item_brand, recorded_at):
    a row conflicts with the values being inserted when all three columns
    are equal; a NULL brand is equal to nothing, itself included. *)
Definition unique_conflict (name : string) (brand : sqlstr) (day : Z)
  (r : PriceHistory.row) : bool :=
  String.eqb (PriceHistory.item_name r) name
  && sql_eqb (PriceHistory.item_brand r) brand
  && (PriceHistory.recorded_at r =? day).

Fixpoint update_first (name : string) (brand : sqlstr) (day price : Z)
  (l : list PriceHistory.row) : list PriceHistory.row :=
  match l with
  | [] => []
  | r :: rest =>
      if unique_conflict name brand day r
      then PriceHistory.with_price price r :: rest
      else r :: update_first name brand day price rest
  end.

(** INSERT INTO price_history (item_name, item_brand, price, recorded_at)
    VALUES (?, ?, ?, ?) ON DUPLICATE KEY UPDATE price = VALUES(price) *)
Definition upsert_price (name : string) (brand : sqlstr) (price day : Z)
  : statement unit :=
  fun _ d =>
    if existsb (unique_conflict name brand day) (price_history d)
    then Some (tt, set_price_history (update_first name brand day price)
                                     (fun n => n) d)
    else Some (tt, set_price_history
                     (fun l => l ++ [PriceHistory.mk (next_price d) name brand
                                                     price day])
                     Z.succ d).

(** INSERT INTO items (name, brand, location, purchase_date, best_by_date,
    price, image_path) VALUES (?, ?, ?, ?, ?, ?, ?); gives insertId. *)
Definition insert_item (name : string) (brand : sqlstr) (loc : string)
  (purchase_date best_by_date price : Z) (image_path : sqlstr)
  : statement Z :=
  fun now d =>
    match location_of_string loc with
    | None => None
    | Some l =>
        Some (next_item d,
              set_items
                (fun its => its ++ [Items.mk (next_item d) name brand l
                                            purchase_date best_by_date price
                                            image_path false
                                            (current_timestamp now)])
                Z.succ d)
    end.

(** UPDATE items SET name=?, brand=?, location=?, purchase_date=?,
    best_by_date=?, price=?, image_path=? WHERE id=? *)
Definition update_item (name : string) (brand : sqlstr) (loc : string)
  (purchase_date best_by_date price : Z) (image_path : sqlstr) (item : Z)
  : statement unit :=
  fun _ d =>
    match location_of_string loc with
    | None => if existsb (fun it => Items.id it =? item) (items d)
              then None else Some (tt, d)
    | Some l =>
        Some (tt,
              set_items
                (map (fun it =>
                        if Items.id it =? item
                        then Items.mk (Items.id it) name brand l purchase_date
                                      best_by_date price image_path
                                      (Items.is_spoiled it)
                                      (Items.created_at it)
                        else it))
                (fun n => n) d)
    end.

(** SELECT image_path FROM items WHERE id = ? *)
Definition select_image_path (item : Z) : statement (list sqlstr) :=
  fun _ d =>
    Some (map Items.image_path
              (filter (fun it => Items.id it =? item) (items d)), d).

(** SELECT SUM(price) AS totalSpent FROM price_history ph
    [WHERE ph.recorded_at >= <bound>] *)
Definition in_window (bound : option Z) (day : Z) : bool :=
  match bound with
  | None => true
  | Some b => b <=? day
  end.

Definition select_total_spent (since : option (Z -> Z)) : statement (option Z) :=
  fun now d =>
    let bound := option_map (fun f => f (Calendar.curdate now)) since in
    Some (SUM (map PriceHistory.price
                   (filter (fun r => in_window bound (PriceHistory.recorded_at r))
                           (price_history d))), d).

(** SELECT SUM(CASE WHEN location = 'Pantry' THEN price ELSE 0 END), ...
    FROM items i WHERE i.price > 0 [AND purchase_date >= <bound>] *)
Definition case_location (l : location) (it : Items.row) : Z :=
  if location_eqb (Items.location it) l then Items.price it else 0.

Definition select_location_spent (since : option (Z -> Z))
  : statement (option Z * option Z * option Z) :=
  fun now d =>
    let bound := option_map (fun f => f (Calendar.curdate now)) since in
    let rows := filter (fun it => (0 <? Items.price it)
                                  && in_window bound (Items.purchase_date it))
                       (items d) in
    Some ((SUM (map (case_location Pantry) rows),
           SUM (map (case_location Fridge) rows),
           SUM (map (case_location Freezer) rows)), d).

Fixpoint insert_desc (y : Z) (l : list Z) : list Z :=
  match l with
  | [] => [y]
  | x :: rest => if x <? y then y :: l
                 else if x =? y then l
                 else x :: insert_desc y rest
  end.

(** SELECT YEAR(recorded_at) AS year, SUM(price) AS total_spent
    FROM price_history GROUP BY year ORDER BY year DESC *)
Definition select_annual : statement (list (Z * Z)) :=
  fun _ d =>
    let year r := Calendar.year_of (PriceHistory.recorded_at r) in
    let years := fold_right insert_desc [] (map year (price_history d)) in
    Some (map (fun y =>
                 (y, sum_prices
                       (map PriceHistory.price
                            (filter (fun r => year r =? y) (price_history d)))))
              years, d).

(** SELECT price, recorded_at FROM price_history
    WHERE item_name = ? AND item_brand <=> ? AND recorded_at <= ?
    ORDER BY recorded_at DESC LIMIT 1.
    Among rows of the same latest day the server may give any one; the
    model gives the first in storage order. *)
Definition closest_cond (name : string) (brand : sqlstr) (target : Z)
  (r : PriceHistory.row) : bool :=
  String.eqb (PriceHistory.item_name r) name
  && null_safe_eqb (PriceHistory.item_brand r) brand
  && (PriceHistory.recorded_at r <=? target).

Fixpoint latest (best : PriceHistory.row) (l : list PriceHistory.row)
  : PriceHistory.row :=
  match l with
  | [] => best
  | r :: rest =>
      if PriceHistory.recorded_at best <? PriceHistory.recorded_at r
      then latest r rest else latest best rest
  end.

Definition select_closest (name : string) (brand : sqlstr) (target : Z)
  : statement (list PriceHistory.row) :=
  fun _ d =>
    Some (match filter (closest_cond name brand target) (price_history d) with
          | [] => []
          | r :: rest => [latest r rest]
          end, d).

End Sql.

(* ------------------------------------------------------------------ *)
(** ** The process: database, clock, uploaded files, console, faults *)

Record world : Type := mkWorld {
  db : database;
  clock : Calendar.moment;  (* what [new Date()] and the server clock read *)
  files : list string;      (* paths below [__dirname] that exist *)
  console : list string;    (* lines written by [console.error], latest first *)
  faults : list bool        (* [true]: the next store or file call throws *)
}.

Inductive completion (A : Type) : Type :=
| Normal (a : A)
| Throw (e : string).
Arguments Normal {A} a.
Arguments Throw {A} e.

(** An [async] computation run to completion. *)
Definition js (A : Type) : Type := world -> completion A * world.

Definition ret {A : Type} (a : A) : js A := fun w => (Normal a, w).

Definition throw {A : Type} (e : string) : js A := fun w => (Throw e, w).

Definition bind {A B : Type} (m : js A) (k : A -> js B) : js B :=
  fun w =>
    match m w with
    | (Normal a, w') => k a w'
    | (Throw e, w') => (Throw e, w')
    end.

(** [try { body } catch (error) { handler(error) }] *)
Definition try_catch {A : Type} (body : js A) (handler : string -> js A) : js A :=
  fun w =>
    match body w with
    | (Normal a, w') => (Normal a, w')
    | (Throw e, w') => handler e w'
    end.

Declare Scope js_scope.
Delimit Scope js_scope with js.
Notation "x <- m ;; k" := (bind m (fun x => k))
  (at level 61, m at next level, right associativity) : js_scope.
Notation "m ;;; k" := (bind m (fun _ => k))
  (at level 61, right associativity) : js_scope.
Local Open Scope js_scope.

Definition new_Date : js Calendar.moment := fun w => (Normal (clock w), w).

Definition console_error (line : string) : js unit :=
  fun w => (Normal tt,
            mkWorld (db w) (clock w) (files w) (line :: console w) (faults w)).

(** Takes the next entry of the fault schedule; an exhausted schedule means
    no further fault. *)
Definition next_fault (w : world) : bool * world :=
  match faults w with
  | [] => (false, w)
  | f :: rest => (f, mkWorld (db w) (clock w) (files w) (console w) rest)
  end.

Definition set_db (d : database) (w : world) : world :=
  mkWorld d (clock w) (files w) (console w) (faults w).

(** [await pool.execute(stmt)] *)
Definition execute {A : Type} (stmt : statement A) : js A :=
  fun w =>
    let (f, w1) := next_fault w in
    if f then (Throw "ER_STORE", w1)
    else match stmt (clock w1) (db w1) with
         | Some (a, d) => (Normal a, set_db d w1)
         | None => (Throw "ER_REJECTED", w1)
         end.

(** A JavaScript value as a bound parameter of [pool.execute]: the driver
    throws on [undefined]. *)
Definition bind_param (v : jsval) : js sqlstr :=
  match v with
  | JUndefined => throw "Bind parameters must not contain undefined"
  | JNull => ret None
  | JStr s => ret (Some s)
  end.

Fixpoint remove_file (p : string) (l : list string) : list string :=
  match l with
  | [] => []
  | q :: rest => if String.eqb p q then rest else q :: remove_file p rest
  end.

(** [await fs.unlink(p)] *)
Definition unlink (p : string) : js unit :=
  fun w =>
    let (f, w1) := next_fault w in
    if f then (Throw "EIO", w1)
    else if existsb (String.eqb p) (files w1)
         then (Normal tt, mkWorld (db w1) (clock w1) (remove_file p (files w1))
                                  (console w1) (faults w1))
         else (Throw "ENOENT", w1).

(** [await Promise.all(ps)] for promises that touch disjoint rows: every
    one settles, and the first rejection, if any, is raised. *)
Fixpoint Promise_all (ps : list (js unit)) : js unit :=
  match ps with
  | [] => ret tt
  | p :: rest =>
      fun w =>
        let (r, w1) := p w in
        let (rs, w2) := Promise_all rest w1 in
        (match r with
         | Throw e => Throw e
         | Normal _ => rs
         end, w2)
  end.

(* ------------------------------------------------------------------ *)
(** ** Expiration check and reminder logic *)

Definition DAYS_THRESHOLD : Z := 3.

Definition ALERT : string := "üö® ALERT: ".
Definition WARNING : string := "‚ö†Ô∏è WARNING: ".

(** [Math.ceil((bestBy.getTime() - new Date().getTime()) / (1000*60*60*24))]
    for the instants [bestBy] and [now]. *)
Definition diffDays (bestBy now : Z) : Z :=
  Calendar.ceil_div (bestBy - now) Calendar.msPerDay.

(** The [if (diffDays < 0) ... else if (diffDays === 0) ... else ...] chain;
    [bestBy] is the [Date] the driver made of [item.best_by_date]. *)
Definition message_of (item : Items.row) (bestBy diffDays : Z) : string :=
  if diffDays <? 0 then
    (ALERT ++ Items.name item ++ " is PAST its best-by date ("
       ++ Calendar.utc_date bestBy ++ ").")%string
  else if diffDays =? 0 then
    (WARNING ++ Items.name item ++ " expires TODAY!")%string
  else
    (WARNING ++ Items.name item ++ " expires in " ++ Calendar.digits diffDays
       ++ " day(s).")%string.

Definition reminder_message (item : Items.row) (now : Calendar.moment)
  : string :=
  let bestBy := Calendar.date_to_instant (Calendar.tz now)
                                         (Items.best_by_date item) in
  message_of item bestBy (diffDays bestBy (Calendar.instant now)).

(** The body of [expiringItems.map(async (item) => ...)]. *)
Definition remind (item : Items.row) : js unit :=
  now <- new_Date ;;
  let message := reminder_message item now in
  existingReminders <- execute (Sql.select_open_reminders (Items.id item) message) ;;
  if (Z.of_nat (List.length existingReminders) =? 0)
  then execute (Sql.insert_reminder (Items.id item) (Items.name item) message)
  else ret tt.

Definition checkExpirationAndGenerateReminders : js unit :=
  now <- new_Date ;;
  let ONE_MONTH_AGO := Calendar.set_month_back now in
  try_catch
    (execute (Sql.delete_closed_before ONE_MONTH_AGO) ;;;
     expiringItems <- execute (Sql.select_expiring DAYS_THRESHOLD) ;;
     Promise_all (map remind expiringItems))
    (fun error =>
       console_error ("Error in expiration check/reminder logic: " ++ error)%string).

(* ------------------------------------------------------------------ *)
(** ** Price history logic *)

(** [(brand === undefined || brand === '') ? null : brand] *)
Definition dbBrand_of (brand : jsval) : jsval :=
  if jsval_eqb brand JUndefined || jsval_eqb brand (JStr "") then JNull
  else brand.

(** [price] is the number handed over by the item routes, in hundredths. *)
Definition logPriceHistory (name : string) (brand : jsval) (price : Z)
  (purchase_date : Z) : js unit :=
  if price <=? 0 then ret tt
  else
    let dbBrand := dbBrand_of brand in
    try_catch
      (b <- bind_param dbBrand ;;
       execute (Sql.upsert_price name b price purchase_date))
      (fun error =>
         console_error ("Error logging price history: " ++ error)%string).

(* ------------------------------------------------------------------ *)
(** ** API routes *)

(** What a route hands to [res.status(...).json(...)]. *)
Inductive response : Type :=
| Error (status : Z) (error : string)
| ItemAdded (id : Z) (image_path : jsval)          (* 201 *)
| ItemUpdated (image_path : jsval)                 (* 200 *)
| Spending (totalSpent pantrySpent fridgeSpent freezerSpent : Z)
| AnnualSummary (annualSummary : list (Z * Z))
| Difference (name : string) (brand : jsval) (startDate endDate : Z)
             (startPrice endPrice difference : Z).

Definition status (r : response) : Z :=
  match r with
  | Error s _ => s
  | ItemAdded _ _ => 201
  | _ => 200
  end.

(** The multipart form of the item routes.  [None] for a date is an absent
    or empty field; [body_price] is [parseFloat(req.body.price)], [None] for
    NaN. *)
Record item_form : Type := mkForm {
  body_name : jsval;
  body_brand : jsval;
  body_location : jsval;
  body_purchase_date : option Z;
  body_best_by_date : option Z;
  body_price : option Z;
  current_image_path : jsval;
  file : option string          (* [req.file.filename] *)
}.

Definition uploaded (filename : string) : string :=
  ("/uploads/" ++ filename)%string.

(** [!name || !location || !purchase_date || !best_by_date]; the fields when
    the check passes. *)
Definition required_fields (f : item_form)
  : option (string * string * Z * Z) :=
  match body_name f, body_location f, body_purchase_date f,
        body_best_by_date f with
  | JStr n, JStr l, Some p, Some b =>
      if String.eqb n "" || String.eqb l "" then None
      else Some (n, l, p, b)
  | _, _, _, _ => None
  end.

(** [parseFloat(req.body.price) || 0.00] *)
Definition price_of (f : item_form) : Z :=
  match body_price f with
  | Some p => p
  | None => 0
  end.

(** [if (req.file) await fs.unlink(req.file.path)] *)
Definition unlink_upload (f : item_form) : js unit :=
  match file f with
  | Some filename => unlink (uploaded filename)
  | None => ret tt
  end.

(** POST /api/items *)
Definition post_item (f : item_form) : js response :=
  try_catch
    (let price := price_of f in
     let imagePath := match file f with
                      | Some filename => JStr (uploaded filename)
                      | None => JNull
                      end in
     let dbBrand := dbBrand_of (body_brand f) in
     match required_fields f with
     | None =>
         unlink_upload f ;;;
         ret (Error 400 "Missing required fields (Name, Location, Dates).")
     | Some (name, location, purchase_date, best_by_date) =>
         b <- bind_param dbBrand ;;
         img <- bind_param imagePath ;;
         insertId <- execute (Sql.insert_item name b location purchase_date
                                              best_by_date price img) ;;
         logPriceHistory name dbBrand price purchase_date ;;;
         checkExpirationAndGenerateReminders ;;;
         ret (ItemAdded insertId imagePath)
     end)
    (fun error =>
       console_error ("Error adding item: " ++ error)%string ;;;
       unlink_upload f ;;;
       ret (Error 500 "Failed to add item to database.")).

(** [if (fileToDelete) await fs.unlink(fileToDelete).catch(...)] *)
Definition unlink_old (fileToDelete : option string) : js unit :=
  match fileToDelete with
  | Some p =>
      try_catch (unlink p)
        (fun err =>
           console_error ("Failed to delete old image file: " ++ p)%string)
  | None => ret tt
  end.

(** Steps 1 and 2 of the update route: the new image path and the file to
    delete. *)
Definition image_change (itemId : Z) (f : item_form)
  : js (jsval * option string) :=
  let currentImagePath := current_image_path f in
  match file f with
  | Some filename =>
      ret (JStr (uploaded filename),
           if negb (js_not currentImagePath)
              && negb (jsval_eqb currentImagePath (JStr "DELETE_FLAG"))
           then match currentImagePath with
                | JStr p => Some p
                | _ => None
                end
           else None)
  | None =>
      if jsval_eqb currentImagePath (JStr "DELETE_FLAG") then
        rows <- execute (Sql.select_image_path itemId) ;;
        ret (JNull,
             match rows with
             | Some p :: _ => if String.eqb p "" then None else Some p
             | _ => None
             end)
      else ret (currentImagePath, None)
  end.

(** PUT /api/items/:id *)
Definition put_item (itemId : Z) (f : item_form) : js response :=
  try_catch
    (let price := price_of f in
     let dbBrand := dbBrand_of (body_brand f) in
     change <- image_change itemId f ;;
     let (newImagePath, fileToDelete) := change in
     match required_fields f with
     | None =>
         ret (Error 400 "Missing required fields (Name, Location, Dates).")
     | Some (name, location, purchase_date, best_by_date) =>
         b <- bind_param dbBrand ;;
         img <- bind_param newImagePath ;;
         execute (Sql.update_item name b location purchase_date best_by_date
                                  price img itemId) ;;;
         unlink_old fileToDelete ;;;
         logPriceHistory name dbBrand price purchase_date ;;;
         checkExpirationAndGenerateReminders ;;;
         ret (ItemUpdated newImagePath)
     end)
    (fun error =>
       console_error ("Error updating item: " ++ error)%string ;;;
       unlink_upload f ;;;
       ret (Error 500 "Failed to update item in database.")).

(** The [switch (period)] of the statistics route: the lower bound of the
    date filter as a function of [CURDATE()], or [None] for the annual
    branch. *)
Inductive period_case : Type :=
| Since (bound : option (Z -> Z))
| Annual.

Definition dateFilterClause (period : jsval) : period_case :=
  match period with
  | JStr p =>
      if String.eqb p "week" then Since (Some (fun today => today - 7))
      else if String.eqb p "month"
           then Since (Some (fun today => Calendar.date_sub_months today 1))
      else if String.eqb p "year"
           then Since (Some (fun today => Calendar.date_sub_months today 12))
      else if String.eqb p "annual" then Annual
      else Since None
  | _ => Since None
  end.

Definition or_zero (v : option Z) : Z :=
  match v with
  | Some x => x
  | None => 0
  end.

(** GET /api/stats/spending?period= *)
Definition get_spending (period : jsval) : js response :=
  match dateFilterClause period with
  | Annual =>
      try_catch
        (annualResults <- execute Sql.select_annual ;;
         ret (AnnualSummary annualResults))
        (fun error =>
           console_error ("Error fetching annual spending stats: " ++ error)%string ;;;
           ret (Error 500 "Failed to fetch annual spending stats"))
  | Since clause =>
      try_catch
        (totalResults <- execute (Sql.select_total_spent clause) ;;
         let totalSpent := or_zero totalResults in
         let locationFilterClause :=
           if negb (jsval_eqb period (JStr "all")) then clause else None in
         locationResults <- execute (Sql.select_location_spent locationFilterClause) ;;
         let '(pantrySpent, fridgeSpent, freezerSpent) := locationResults in
         ret (Spending totalSpent (or_zero pantrySpent) (or_zero fridgeSpent)
                       (or_zero freezerSpent)))
        (fun error =>
           console_error ("Error fetching spending stats: " ++ error)%string ;;;
           ret (Error 500 "Failed to fetch spending statistics"))
  end.

(** [brand === 'null' || brand === '' ? null : brand], as applied to the
    query parameter and again inside [findClosestPrice]. *)
Definition null_if_blank (brand : jsval) : jsval :=
  if jsval_eqb brand (JStr "null") || jsval_eqb brand (JStr "") then JNull
  else brand.

Definition findClosestPrice (name : string) (brand : jsval) (targetDate : Z)
  : js (option PriceHistory.row) :=
  let dbBrand := null_if_blank brand in
  b <- bind_param dbBrand ;;
  rows <- execute (Sql.select_closest name b targetDate) ;;
  ret (match rows with
       | r :: _ => Some r
       | [] => None
       end).

Definition not_found (name boundary : string) (date : Z) : response :=
  Error 404 ("No price history found for '" ++ name ++ "' on or before "
               ++ boundary ++ " date (" ++ Calendar.iso_date date ++ ").")%string.

(** GET /api/price-tracker/difference?name=&brand=&startDate=&endDate= *)
Definition get_difference (name brandQuery : jsval) (startDate endDate : option Z)
  : js response :=
  match name, startDate, endDate with
  | JStr name, Some startDate, Some endDate =>
      if String.eqb name "" then
        ret (Error 400 "Missing required parameters (Item, Start Date, End Date).")
      else
        let brand := null_if_blank brandQuery in
        try_catch
          (priceStart <- findClosestPrice name brand startDate ;;
           priceEnd <- findClosestPrice name brand endDate ;;
           match priceStart, priceEnd with
           | None, _ => ret (not_found name "start" startDate)
           | Some _, None => ret (not_found name "end" endDate)
           | Some priceStart, Some priceEnd =>
               let startPrice := PriceHistory.price priceStart in
               let endPrice := PriceHistory.price priceEnd in
               let difference := endPrice - startPrice in
               ret (Difference name brand
                               (PriceHistory.recorded_at priceStart)
                               (PriceHistory.recorded_at priceEnd)
                               startPrice endPrice difference)
           end)
          (fun error =>
             console_error ("Error calculating price difference: " ++ error)%string ;;;
             ret (Error 500 "Failed to calculate price difference due to a server error."))
  | _, _, _ =>
      ret (Error 400 "Missing required parameters (Item, Start Date, End Date).")
  end.

(* ------------------------------------------------------------------ *)
(** ** What a sweep does to the database when nothing throws

    These are the denotations the proofs below relate the routes to. *)

Definition purge_db (bound : Z) (d : database) : database :=
  set_reminders (filter (fun r => negb (Sql.purge_cond bound r))) (fun n => n) d.

Definition remind_db (now : Calendar.moment) (d : database) (item : Items.row)
  : database :=
  let message := reminder_message item now in
  if existsb (Sql.open_match (Items.id item) message) (reminders d)
  then d
  else set_reminders
         (fun l => l ++ [Sql.new_reminder now d (Items.id item)
                                          (Items.name item) message])
         Z.succ d.

Definition expiring (now : Calendar.moment) (d : database) : list Items.row :=
  filter (Sql.expiring_cond DAYS_THRESHOLD (Calendar.curdate now)) (items d).

(** The message a day difference [n] stands for: the past-due alert quoting
    the item's best-by date when it is negative, the expires-today warning
    when it is zero, the expires-in-[n]-day(s) warning when it is positive. *)
Definition day_difference_message (item : Items.row) (n : Z) : string :=
  if n <? 0 then
    (ALERT ++ Items.name item ++ " is PAST its best-by date ("
       ++ Calendar.iso_date (Items.best_by_date item) ++ ").")%string
  else if n =? 0 then
    (WARNING ++ Items.name item ++ " expires TODAY!")%string
  else
    (WARNING ++ Items.name item ++ " expires in " ++ Calendar.digits n
       ++ " day(s).")%string.

Definition sweep_db (now : Calendar.moment) (d : database) : database :=
  fold_left (remind_db now) (expiring now d)
            (purge_db (Calendar.set_month_back now) d).

Definition is_open (r : Reminders.row) : bool := negb (Reminders.is_closed r).

(** What the per-item promises of one sweep can leave behind when some of
    their store calls throw: each item is either handled as in [remind_db]
    or leaves the database alone. *)
Inductive partial_reminds (now : Calendar.moment)
  : list Items.row -> database -> database -> Prop :=
| reminds_nil : forall d, partial_reminds now [] d d
| reminds_skip : forall it its d d',
    partial_reminds now its d d' ->
    partial_reminds now (it :: its) d d'
| reminds_step : forall it its d d',
    partial_reminds now its (remind_db now d it) d' ->
    partial_reminds now (it :: its) d d'.

(** A bound parameter that is known not to be [undefined]. *)
Definition to_sql (v : jsval) : sqlstr :=
  match v with
  | JStr s => Some s
  | _ => None
  end.

(** The total the specification describes for the week period: the prices
    of the ledger rows recorded in the closed window [today - 7, today]. *)
Definition week_window_total (w : world) : Z :=
  let today := Calendar.curdate (clock w) in
  Sql.sum_prices
    (map PriceHistory.price
         (filter (fun r => (today - 7 <=? PriceHistory.recorded_at r)
                           && (PriceHistory.recorded_at r <=? today))
                 (price_history (db w)))).

(** The total the route computes for the week period: no upper bound. *)
Definition week_since_total (w : world) : Z :=
  let today := Calendar.curdate (clock w) in
  Sql.sum_prices
    (map PriceHistory.price
         (filter (fun r => today - 7 <=? PriceHistory.recorded_at r)
                 (price_history (db w)))).

(** A reminder a sweep at [now] may add for one of [its], given the
    reminders [before] found when the sweep began to scan. *)
Definition added_for (now : Calendar.moment) (its : list Items.row)
  (before : list Reminders.row) (r : Reminders.row) : Prop :=
  Reminders.is_closed r = false
  /\ exists it,
       In it its
       /\ Reminders.item_id r = Some (Items.id it)
       /\ Reminders.item_name r = Items.name it
       /\ Reminders.message r = reminder_message it now
       /\ existsb (Sql.open_match (Items.id it) (reminder_message it now)) before
          = false.

(** The [imagePath] of the create route. *)
Definition post_image_path (f : item_form) : jsval :=
  match file f with
  | Some filename => JStr (uploaded filename)
  | None => JNull
  end.

(** The ledger rows carrying the unique key (name, brand, day). *)
Definition key_rows (name : string) (brand : sqlstr) (day : Z)
  (ledger : list PriceHistory.row) : list PriceHistory.row :=
  filter (Sql.unique_conflict name brand day) ledger.

(** What [findClosestPrice] gives when nothing throws. *)
Definition closest (name : string) (brand : sqlstr) (target : Z)
  (ledger : list PriceHistory.row) : option PriceHistory.row :=
  match filter (Sql.closest_cond name brand target) ledger with
  | [] => None
  | r :: rest => Some (Sql.latest r rest)
  end.

(** A ledger row for (name, brand) recorded on or before [target]. *)
Definition entry_on_or_before (ledger : list PriceHistory.row) (name : string)
  (brand : sqlstr) (target : Z) (r : PriceHistory.row) : Prop :=
  In r ledger
  /\ PriceHistory.item_name r = name
  /\ PriceHistory.item_brand r = brand
  /\ PriceHistory.recorded_at r <= target.

(* ------------------------------------------------------------------ *)
(** ** Sample data *)

Module Sample.

(** 2024-06-10, 01:00:00 UTC. *)
Definition today : Z := 19884.
Definition now : Calendar.moment :=
  Calendar.at_zone (today * Calendar.msPerDay + 3600000) Calendar.UTC.

Definition empty_db : database := mkDatabase [] [] [] 1 1 1.

Definition empty_world : world := mkWorld empty_db now [] [] [].

Definition milk : Items.row :=
  Items.mk 1 "Milk" None Fridge (today - 2) (today + 2) 250 None false 0.
Definition eggs : Items.row :=
  Items.mk 2 "Eggs" (Some "Acme") Fridge (today - 9) (today - 1) 399 None false 0.
Definition rice : Items.row :=
  Items.mk 3 "Rice" None Pantry (today - 40) (today + 200) 120 None false 0.
Definition soup : Items.row :=
  Items.mk 4 "Soup" None Pantry (today - 1) today 199 None false 0.

Definition old_closed : Reminders.row :=
  Reminders.mk 1 (Some 2) "Eggs" "stale" true
               (Calendar.set_month_back now - 1000).
Definition boundary_closed : Reminders.row :=
  Reminders.mk 2 (Some 2) "Eggs" "boundary" true (Calendar.set_month_back now).
Definition old_open : Reminders.row :=
  Reminders.mk 3 (Some 3) "Rice" "kept" false 0.
Definition closed_same_text : Reminders.row :=
  Reminders.mk 4 (Some 4) "Soup" (reminder_message soup now) true
               (Calendar.instant now).

Definition ledger : list PriceHistory.row :=
  [ PriceHistory.mk 1 "Eggs" (Some "Acme") 350 (today - 30);
    PriceHistory.mk 2 "Eggs" (Some "Acme") 399 (today - 9);
    PriceHistory.mk 3 "Milk" None 250 (today - 2);
    PriceHistory.mk 4 "Rice" None 120 (today - 40) ].

Definition pantry_db : database :=
  mkDatabase [milk; eggs; rice; soup]
             [old_closed; boundary_closed; old_open; closed_same_text]
             ledger 5 5 5.

Definition pantry : world := mkWorld pantry_db now [] [] [].

(** The same pantry with every side effect of a mutation failing after
    the item write itself went through. *)
Definition flaky_pantry : world :=
  mkWorld pantry_db now [] [] [false; true; true; true; true].

(** A ledger holding a purchase dated tomorrow. *)
Definition preorder : world :=
  mkWorld (mkDatabase [] []
             [ PriceHistory.mk 1 "Milk" None 250 (today - 2);
               PriceHistory.mk 2 "Cake" None 500 (today + 1) ]
             1 1 3)
          now [] [] [].

Definition form : item_form :=
  mkForm (JStr "Milk") (JStr "") (JStr "Fridge") (Some today)
         (Some (today + 2)) (Some 275) (JStr "") None.

(** The instant of a date and time of day in UTC. *)
Definition utc (y m d h mi s : Z) : Z :=
  Calendar.days_from_civil y m d * Calendar.msPerDay
  + ((h * 60 + mi) * 60 + s) * 1000.

(** Japan Standard Time: nine hours ahead of UTC all year. *)
Definition tokyo : Calendar.zone := Calendar.fixed_zone (9 * 3600000).

(** The four items in Tokyo, at 10:00 on 2024-06-10 (01:00 UTC). *)
Definition tokyo_pantry : world :=
  mkWorld (mkDatabase [milk; eggs; rice; soup] [] [] 5 1 1)
          (Calendar.at_zone (utc 2024 6 10 1 0 0) tokyo) [] [] [].

(** Peru Time: five hours behind UTC all year. *)
Definition lima : Calendar.zone := Calendar.fixed_zone (- (5 * 3600000)).

(** The four items in Lima, at 20:00 on 2024-06-10 (01:00 UTC the next
    day). *)
Definition lima_pantry : world :=
  mkWorld (mkDatabase [milk; eggs; rice; soup] [] [] 5 1 1)
          (Calendar.at_zone (utc 2024 6 11 1 0 0) lima) [] [] [].

(** Eastern Time in 2024: five hours behind UTC, four from 2024-03-10
    07:00 UTC until 2024-11-03 06:00 UTC.  A wall-clock reading that occurs
    twice, or never, is taken with the offset in force before the change. *)
Definition new_york : Calendar.zone :=
  Calendar.mkZone
    (fun t => if (utc 2024 3 10 7 0 0 <=? t) && (t <? utc 2024 11 3 6 0 0)
              then t - 4 * 3600000 else t - 5 * 3600000)
    (fun l => if (utc 2024 3 10 3 0 0 <=? l) && (l <? utc 2024 11 3 2 0 0)
              then l + 4 * 3600000 else l + 5 * 3600000).

Definition cider : Items.row :=
  Items.mk 1 "Cider" None Fridge (Calendar.days_from_civil 2024 10 30)
           (Calendar.days_from_civil 2024 11 4) 450 None false 0.

(** One item in New York, at 00:30 on 2024-11-01 (04:30 UTC); the clocks go
    back on 2024-11-03. *)
Definition autumn_pantry : world :=
  mkWorld (mkDatabase [cider] [] [] 2 1 1)
          (Calendar.at_zone (utc 2024 11 1 4 30 0) new_york) [] [] [].

Definition closed_april : Reminders.row :=
  Reminders.mk 1 None "Jam" "seen" true (utc 2024 4 30 18 0 0).
Definition closed_may_early : Reminders.row :=
  Reminders.mk 2 None "Jam" "seen" true (utc 2024 5 1 11 59 59).
Definition closed_may_noon : Reminders.row :=
  Reminders.mk 3 None "Jam" "seen" true (utc 2024 5 1 12 0 0).

(** Three closed reminders at noon UTC on 2024-05-31. *)
Definition month_end : world :=
  mkWorld (mkDatabase [] [closed_april; closed_may_early; closed_may_noon] []
                      1 4 1)
          (Calendar.at_zone (utc 2024 5 31 12 0 0) Calendar.UTC) [] [] [].

Definition soup_open : Reminders.row :=
  Reminders.mk 5 (Some 4) "Soup" (reminder_message soup now) false
               (Calendar.instant now).

(** The pantry with Soup's reminder open. *)
Definition reminded_pantry : world :=
  mkWorld (mkDatabase [milk; eggs; rice; soup] [old_open; soup_open] ledger
                      5 6 5)
          now [] [] [].

End Sample.

(* ------------------------------------------------------------------ *)
(** ** The remaining statements and routes *)

(** [ORDER BY key ASC], keeping rows of equal key in storage order. *)
Fixpoint insert_by {A : Type} (key : A -> Z) (x : A) (l : list A) : list A :=
  match l with
  | [] => [x]
  | y :: rest => if key x <=? key y then x :: l else y :: insert_by key x rest
  end.

Definition order_asc {A : Type} (key : A -> Z) (l : list A) : list A :=
  fold_right (insert_by key) [] l.

(** [ORDER BY key DESC] *)
Definition order_desc {A : Type} (key : A -> Z) (l : list A) : list A :=
  order_asc (fun x => - key x) l.

Module Crud.

(** SELECT * FROM items ORDER BY id DESC *)
Definition select_items : statement (list Items.row) :=
  fun _ d => Some (order_desc Items.id (items d), d).

Definition references (item : Z) (r : Reminders.row) : bool :=
  match Reminders.item_id r with
  | Some i => i =? item
  | None => false
  end.

(** DELETE FROM items WHERE id = ?; gives affectedRows.  The deletion of an
    item row cascades to the reminders whose item_id references it. *)
Definition delete_item (item : Z) : statement Z :=
  fun _ d =>
    let hit := fun it => Items.id it =? item in
    if existsb hit (items d)
    then Some (Z.of_nat (List.length (filter hit (items d))),
               mkDatabase (filter (fun it => negb (hit it)) (items d))
                          (filter (fun r => negb (references item r))
                                  (reminders d))
                          (price_history d)
                          (next_item d) (next_reminder d) (next_price d))
    else Some (0, d).

(** SELECT * FROM reminders WHERE is_closed = FALSE ORDER BY created_at ASC *)
Definition select_active : statement (list Reminders.row) :=
  fun _ d =>
    Some (order_asc Reminders.created_at
                    (filter (fun r => negb (Reminders.is_closed r)) (reminders d)),
          d).

(** SELECT * FROM reminders WHERE is_closed = TRUE ORDER BY created_at DESC *)
Definition select_closed : statement (list Reminders.row) :=
  fun _ d =>
    Some (order_desc Reminders.created_at
                     (filter Reminders.is_closed (reminders d)), d).

Definition closed_copy (r : Reminders.row) : Reminders.row :=
  Reminders.mk (Reminders.id r) (Reminders.item_id r) (Reminders.item_name r)
               (Reminders.message r) true (Reminders.created_at r).

(** UPDATE reminders SET is_closed = TRUE WHERE id = ?; gives affectedRows,
    which the driver reports as the number of rows matched. *)
Definition close_reminder (reminder : Z) : statement Z :=
  fun _ d =>
    let hit := fun r => Reminders.id r =? reminder in
    Some (Z.of_nat (List.length (filter hit (reminders d))),
          set_reminders (map (fun r => if hit r then closed_copy r else r))
                        (fun n => n) d).

(** DELETE FROM reminders WHERE id = ? AND is_closed = FALSE *)
Definition delete_active (reminder : Z) : statement Z :=
  fun _ d =>
    let hit := fun r => (Reminders.id r =? reminder)
                        && negb (Reminders.is_closed r) in
    Some (Z.of_nat (List.length (filter hit (reminders d))),
          set_reminders (filter (fun r => negb (hit r))) (fun n => n) d).

(** DELETE FROM reminders WHERE is_closed = TRUE *)
Definition delete_closed : statement unit :=
  fun _ d =>
    Some (tt, set_reminders (filter (fun r => negb (Reminders.is_closed r)))
                            (fun n => n) d).

End Crud.

(** What the listing, deletion and reminder routes hand to [res.json]. *)
Inductive reply : Type :=
| Failed (status : Z) (error : string)
| Done (message : string)
| ItemRows (rows : list Items.row)
| ReminderRows (active closed : list Reminders.row).

(** GET /api/items *)
Definition get_items : js reply :=
  try_catch
    (rows <- execute Crud.select_items ;;
     ret (ItemRows rows))
    (fun error =>
       console_error ("Error fetching items: " ++ error)%string ;;;
       ret (Failed 500 "Failed to fetch items")).

(** [if (imagePath) await fs.unlink(fullPath).catch(...)] *)
Definition unlink_image (imagePath : sqlstr) : js unit :=
  match imagePath with
  | Some p =>
      if String.eqb p "" then ret tt
      else try_catch (unlink p)
             (fun err =>
                console_error
                  ("Failed to delete physical image file: " ++ p)%string)
  | None => ret tt
  end.

(** DELETE /api/items/:id *)
Definition delete_item (itemId : Z) : js reply :=
  try_catch
    (rows <- execute (Sql.select_image_path itemId) ;;
     let imagePath := match rows with
                      | p :: _ => p
                      | [] => None
                      end in
     affectedRows <- execute (Crud.delete_item itemId) ;;
     if affectedRows =? 0 then ret (Failed 404 "Item not found")
     else
       unlink_image imagePath ;;;
       ret (Done "Item deleted successfully"))
    (fun error =>
       console_error ("Error deleting item: " ++ error)%string ;;;
       ret (Failed 500 "Failed to delete item")).

(** GET /api/reminders *)
Definition get_reminders : js reply :=
  try_catch
    (active <- execute Crud.select_active ;;
     closed <- execute Crud.select_closed ;;
     ret (ReminderRows active closed))
    (fun error =>
       console_error ("Error fetching reminders: " ++ error)%string ;;;
       ret (Failed 500 "Failed to fetch reminders")).

(** PUT /api/reminders/close/:id *)
Definition put_reminder_close (reminderId : Z) : js reply :=
  try_catch
    (affectedRows <- execute (Crud.close_reminder reminderId) ;;
     if affectedRows =? 0 then ret (Failed 404 "Reminder not found")
     else ret (Done "Reminder closed successfully"))
    (fun error =>
       console_error ("Error closing reminder: " ++ error)%string ;;;
       ret (Failed 500 "Failed to close reminder")).

(** DELETE /api/reminders/active/:id *)
Definition delete_reminder_active (reminderId : Z) : js reply :=
  try_catch
    (affectedRows <- execute (Crud.delete_active reminderId) ;;
     if affectedRows =? 0 then ret (Failed 404 "Active reminder not found")
     else ret (Done "Active reminder deleted successfully"))
    (fun error =>
       console_error ("Error deleting active reminder: " ++ error)%string ;;;
       ret (Failed 500 "Failed to delete active reminder")).

(** DELETE /api/reminders/closed/clear *)
Definition delete_reminders_closed : js reply :=
  try_catch
    (execute Crud.delete_closed ;;;
     ret (Done "Closed reminder history cleared successfully"))
    (fun error =>
       console_error ("Error clearing closed reminders: " ++ error)%string ;;;
       ret (Failed 500 "Failed to clear closed reminder history")).

(* ------------------------------------------------------------------ *)
(** ** Notions used to state the further properties *)

(** What [logPriceHistory] does to the database when nothing throws. *)
Definition log_db (name : string) (brand : sqlstr) (price day : Z)
  (d : database) : database :=
  if price <=? 0 then d
  else if existsb (Sql.unique_conflict name brand day) (price_history d)
       then set_price_history (Sql.update_first name brand day price)
                              (fun n => n) d
       else set_price_history
              (fun l => l ++ [PriceHistory.mk (next_price d) name brand price day])
              Z.succ d.

(** No two ledger rows share a key whose brand is present. *)
Definition ledger_keyed (ledger : list PriceHistory.row) : Prop :=
  forall name b day,
    (List.length (key_rows name (Some b) day ledger) <= 1)%nat.

(** No ledger row carries a negative price. *)
Definition ledger_nonnegative (ledger : list PriceHistory.row) : Prop :=
  forall r, In r ledger -> 0 <= PriceHistory.price r.

(** Sequences of keys in the order a listing gives them. *)
Fixpoint ascending (l : list Z) : Prop :=
  match l with
  | [] => True
  | x :: rest => (forall y, In y rest -> x <= y) /\ ascending rest
  end.

Fixpoint descending (l : list Z) : Prop :=
  match l with
  | [] => True
  | x :: rest => (forall y, In y rest -> y <= x) /\ descending rest
  end.

Fixpoint strictly_descending (l : list Z) : Prop :=
  match l with
  | [] => True
  | x :: rest => (forall y, In y rest -> y < x) /\ strictly_descending rest
  end.

(* ================================================================== *)
(** * Properties *)

Lemma next_fault_none (w : world) :
  faults w = [] -> next_fault w = (false, w).
Proof. unfold next_fault; intros ->; reflexivity. Qed.

Lemma execute_no_fault {A : Type} (stmt : statement A) (w : world) :
  faults w = [] ->
  execute stmt w =
    match stmt (clock w) (db w) with
    | Some (a, d) => (Normal a, set_db d w)
    | None => (Throw "ER_REJECTED", w)
    end.
Proof. intros H; unfold execute; rewrite (next_fault_none w H); reflexivity. Qed.

(* ------------------------------------------------------------------ *)
(** ** Price history logger *)

(** C9. Whatever the name, brand and day, [logPriceHistory] called with a
    price that is zero or negative returns at once: the ledger, and indeed
    the whole state of the process, is left exactly as it was, so no row is
    inserted and no row is modified. *)
Theorem logPriceHistory_nonpositive_noop :
  forall (name : string) (brand : jsval) (price day : Z) (w : world),
    price <= 0 ->
    logPriceHistory name brand price day w = (Normal tt, w).
Proof.
  intros name brand price day w Hle.
  unfold logPriceHistory.
  destruct (price <=? 0) eqn:E; [reflexivity | apply Z.leb_gt in E; lia].
Qed.

Lemma logPriceHistory_nonpositive_noop_witness :
  0 <= 0
  /\ logPriceHistory "Milk" (JStr "") 0 Sample.today Sample.pantry
     = (Normal tt, Sample.pantry)
  /\ price_history (db (snd (logPriceHistory "Eggs" (JStr "Acme") (-5)
                                             (Sample.today - 9) Sample.pantry)))
     = Sample.ledger.
Proof.
  split; [lia | split].
  - apply (logPriceHistory_nonpositive_noop "Milk" (JStr "") 0 Sample.today
             Sample.pantry); lia.
  - rewrite (logPriceHistory_nonpositive_noop "Eggs" (JStr "Acme") (-5)
               (Sample.today - 9) Sample.pantry); [reflexivity | lia].
Defined.

(** C1 (fails for an absent brand). Two calls of [logPriceHistory] for the
    same name, no brand and the same day, with prices 2.50 and then 3.00,
    leave two ledger rows for that key, the first still at 2.50: the unique
    key does not see a NULL brand as equal to a NULL brand, so the second
    call inserts instead of overwriting. *)
Theorem logPriceHistory_twice_without_brand :
  price_history
    (db (snd ((logPriceHistory "Milk" (JStr "") 250 Sample.today ;;;
               logPriceHistory "Milk" (JStr "") 300 Sample.today)
                Sample.empty_world)))
  = [ PriceHistory.mk 1 "Milk" None 250 Sample.today;
      PriceHistory.mk 2 "Milk" None 300 Sample.today ].
Proof. vm_compute. reflexivity. Qed.

(* ------------------------------------------------------------------ *)
(** ** The reminder sweep, step by step *)

Lemma set_db_same (w : world) : set_db (db w) w = w.
Proof. destruct w; reflexivity. Qed.

Lemma select_open_empty (f : Reminders.row -> bool) (l : list Reminders.row) :
  (Z.of_nat (List.length (map Reminders.id (filter f l))) =? 0) = negb (existsb f l).
Proof.
  induction l as [|r l IH]; simpl; [reflexivity|].
  destruct (f r); simpl; [reflexivity | exact IH].
Qed.

Lemma remind_no_fault (it : Items.row) (w : world) :
  faults w = [] ->
  remind it w = (Normal tt, set_db (remind_db (clock w) (db w) it) w).
Proof.
  intros Hf. unfold remind, remind_db, bind, new_Date.
  rewrite (execute_no_fault _ w Hf). simpl.
  rewrite select_open_empty.
  destruct (existsb _ _); simpl.
  - reflexivity.
  - rewrite execute_no_fault by (destruct w; exact Hf).
    destruct w; reflexivity.
Qed.

Lemma Promise_all_no_fault (its : list Items.row) :
  forall w : world,
    faults w = [] ->
    Promise_all (map remind its) w
    = (Normal tt, set_db (fold_left (remind_db (clock w)) its (db w)) w).
Proof.
  induction its as [|it its IH]; intros w Hf; simpl.
  - unfold ret. now rewrite set_db_same.
  - rewrite (remind_no_fault it w Hf).
    rewrite IH by (destruct w; exact Hf).
    destruct w; reflexivity.
Qed.

Lemma sweep_no_fault (w : world) :
  faults w = [] ->
  checkExpirationAndGenerateReminders w
  = (Normal tt, set_db (sweep_db (clock w) (db w)) w).
Proof.
  intros Hf.
  unfold checkExpirationAndGenerateReminders, bind, new_Date, try_catch.
  rewrite (execute_no_fault _ w Hf). simpl.
  rewrite execute_no_fault by (destruct w; exact Hf). simpl.
  rewrite Promise_all_no_fault by (destruct w; exact Hf).
  destruct w; reflexivity.
Qed.

Lemma remind_outcome (it : Items.row) (w : world) :
  exists r w',
    remind it w = (r, w')
    /\ clock w' = clock w
    /\ (db w' = db w \/ db w' = remind_db (clock w) (db w) it).
Proof.
  destruct w as [d c fl co fs].
  unfold remind, remind_db, bind, new_Date, execute, next_fault, ret, set_db.
  simpl.
  destruct fs as [|[|] fs]; simpl; rewrite ?select_open_empty.
  - destruct (existsb _ _); simpl; do 2 eexists; (split; [reflexivity | simpl; auto]).
  - do 2 eexists; (split; [reflexivity | simpl; auto]).
  - destruct (existsb _ _); simpl.
    + do 2 eexists; (split; [reflexivity | simpl; auto]).
    + destruct fs as [|[|] fs]; simpl;
        do 2 eexists; (split; [reflexivity | simpl; auto]).
Qed.

Lemma Promise_all_outcome (its : list Items.row) :
  forall w : world,
  exists r w',
    Promise_all (map remind its) w = (r, w')
    /\ clock w' = clock w
    /\ partial_reminds (clock w) its (db w) (db w').
Proof.
  induction its as [|it its IH]; intros w; simpl.
  - exists (Normal tt), w. repeat split. constructor.
  - destruct (remind_outcome it w) as (r1 & w1 & E1 & C1 & D1).
    destruct (IH w1) as (r2 & w2 & E2 & C2 & D2).
    rewrite E1, E2. do 2 eexists. split; [reflexivity|].
    split; [congruence|].
    rewrite C1 in D2.
    destruct D1 as [D1 | D1]; rewrite D1 in D2.
    + now apply reminds_skip.
    + now apply reminds_step.
Qed.

Lemma partial_reminds_refl (now : Calendar.moment) (its : list Items.row) (d : database) :
  partial_reminds now its d d.
Proof. induction its; constructor; assumption. Qed.

Lemma partial_reminds_all (now : Calendar.moment) (its : list Items.row) :
  forall d, partial_reminds now its d (fold_left (remind_db now) its d).
Proof.
  induction its as [|it its IH]; intros d; simpl.
  - constructor.
  - apply reminds_step, IH.
Qed.

Lemma expiring_purge_db (now : Calendar.moment) (bound : Z) (d : database) :
  expiring now (purge_db bound d) = expiring now d.
Proof. reflexivity. Qed.

Lemma sweep_body_outcome (bound : Z) (w : world) :
  exists r w',
    (execute (Sql.delete_closed_before bound) ;;;
     expiringItems <- execute (Sql.select_expiring DAYS_THRESHOLD) ;;
     Promise_all (map remind expiringItems)) w = (r, w')
    /\ clock w' = clock w
    /\ (db w' = db w
        \/ partial_reminds (clock w) (expiring (clock w) (db w))
                           (purge_db bound (db w)) (db w')).
Proof.
  destruct w as [d c fl co fs].
  unfold bind, execute, next_fault, set_db. simpl.
  assert (Hskip : partial_reminds c (expiring c d) (purge_db bound d)
                                  (purge_db bound d))
    by apply partial_reminds_refl.
  assert (Hrun : forall fs',
             exists r w',
               Promise_all
                 (map remind
                      (filter (Sql.expiring_cond DAYS_THRESHOLD (Calendar.curdate c))
                              (items d)))
                 (mkWorld (purge_db bound d) c fl co fs') = (r, w')
               /\ clock w' = c
               /\ partial_reminds c (expiring c d) (purge_db bound d) (db w')).
  { intros fs'.
    destruct (Promise_all_outcome
                (expiring c (purge_db bound d))
                (mkWorld (purge_db bound d) c fl co fs'))
      as (r & w' & E & C & D).
    exists r, w'. auto. }
  destruct fs as [|[|] fs]; simpl.
  - destruct (Hrun []) as (r & w' & E & C & D).
    exists r, w'. split; [exact E | auto].
  - do 2 eexists. split; [reflexivity | simpl; auto].
  - destruct fs as [|[|] fs]; simpl.
    + destruct (Hrun []) as (r & w' & E & C & D).
      exists r, w'. split; [exact E | auto].
    + do 2 eexists. split; [reflexivity | simpl; auto].
    + destruct (Hrun fs) as (r & w' & E & C & D).
      exists r, w'. split; [exact E | auto].
Qed.

(** Whatever throws, a sweep returns normally, and either leaves the
    database alone or purges it and handles some of the expiring items. *)
Lemma sweep_outcome (w : world) :
  exists w',
    checkExpirationAndGenerateReminders w = (Normal tt, w')
    /\ clock w' = clock w
    /\ (db w' = db w
        \/ partial_reminds (clock w) (expiring (clock w) (db w))
                           (purge_db (Calendar.set_month_back (clock w)) (db w))
                           (db w')).
Proof.
  unfold checkExpirationAndGenerateReminders.
  unfold bind at 1. unfold new_Date at 1. unfold try_catch.
  destruct (sweep_body_outcome (Calendar.set_month_back (clock w)) w)
    as (r & w' & E & C & D).
  rewrite E. destruct r as [[]|e].
  - exists w'. auto.
  - unfold console_error. eexists. split; [reflexivity | simpl; auto].
Qed.

Lemma added_for_weaken (now : Calendar.moment) (it : Items.row) (its : list Items.row)
  (before extra : list Reminders.row) (r : Reminders.row) :
  added_for now its (before ++ extra) r ->
  added_for now (it :: its) before r.
Proof.
  intros [Hopen (i & Hin & Hid & Hname & Hmsg & Hnone)].
  split; [exact Hopen|].
  exists i. repeat split; auto.
  - now right.
  - rewrite existsb_app in Hnone. now apply orb_false_iff in Hnone.
Qed.

Lemma partial_reminds_shape (now : Calendar.moment) (its : list Items.row) (d d' : database) :
  partial_reminds now its d d' ->
  items d' = items d
  /\ price_history d' = price_history d
  /\ exists added,
       reminders d' = reminders d ++ added
       /\ Forall (added_for now its (reminders d)) added.
Proof.
  induction 1 as [d | it its d d' _ IH | it its d d' _ IH].
  - repeat split. exists []. split; [now rewrite app_nil_r | constructor].
  - destruct IH as (Hi & Hp & added & Hr & Hall).
    repeat split; auto. exists added. split; [exact Hr|].
    eapply Forall_impl; [|exact Hall].
    intros r Hr'. apply (added_for_weaken now it its (reminders d) []).
    now rewrite app_nil_r.
  - destruct IH as (Hi & Hp & added & Hr & Hall).
    unfold remind_db in *.
    destruct (existsb _ (reminders d)) eqn:Hex.
    + repeat split; auto. exists added. split; [exact Hr|].
      eapply Forall_impl; [|exact Hall].
      intros r Hr'. apply (added_for_weaken now it its (reminders d) []).
      now rewrite app_nil_r.
    + simpl in *. repeat split; auto.
      eexists (_ :: added). split.
      * rewrite Hr, <- app_assoc. reflexivity.
      * constructor.
        -- split; [reflexivity|].
           exists it. simpl. repeat split; auto using in_eq.
        -- eapply Forall_impl; [|exact Hall].
           intros r Hr'. eapply added_for_weaken; exact Hr'.
Qed.

Lemma purge_keeps_open (bound : Z) (r : Reminders.row) :
  Reminders.is_closed r = false -> negb (Sql.purge_cond bound r) = true.
Proof. unfold Sql.purge_cond; intros ->; reflexivity. Qed.

Lemma filter_open_purged (bound : Z) (l : list Reminders.row) :
  filter is_open (filter (fun r => negb (Sql.purge_cond bound r)) l)
  = filter is_open l.
Proof.
  induction l as [|r l IH]; simpl; [reflexivity|].
  unfold is_open at 2, Sql.purge_cond at 1.
  destruct (Reminders.is_closed r) eqn:Hc; simpl.
  - destruct (Reminders.created_at r <? bound); simpl; [exact IH|].
    unfold is_open at 1. rewrite Hc. simpl. exact IH.
  - unfold is_open at 1. rewrite Hc. simpl. now rewrite IH.
Qed.

Lemma added_all_open (now : Calendar.moment) (its : list Items.row)
  (before added : list Reminders.row) :
  Forall (added_for now its before) added ->
  Forall (fun r => Reminders.is_closed r = false) added.
Proof. apply Forall_impl. now intros r [H _]. Qed.

Lemma filter_open_all (l : list Reminders.row) :
  Forall (fun r => Reminders.is_closed r = false) l -> filter is_open l = l.
Proof.
  induction 1 as [|r l Hr _ IH]; simpl; [reflexivity|].
  unfold is_open at 1. rewrite Hr. simpl. now rewrite IH.
Qed.

(** The reminders after a sweep, whatever threw: those before it, or those
    that survive the purge followed by additions that are all open. *)
Lemma sweep_reminders (w : world) :
  let before := reminders (db w) in
  let after := reminders (db (snd (checkExpirationAndGenerateReminders w))) in
  let bound := Calendar.set_month_back (clock w) in
  after = before
  \/ exists added,
       after = filter (fun r => negb (Sql.purge_cond bound r)) before ++ added
       /\ Forall (added_for (clock w) (expiring (clock w) (db w))
                            (filter (fun r => negb (Sql.purge_cond bound r)) before))
                 added.
Proof.
  simpl.
  destruct (sweep_outcome w) as (w' & E & C & D).
  rewrite E. simpl.
  destruct D as [D | D].
  - left. now rewrite D.
  - right. apply partial_reminds_shape in D.
    destruct D as (_ & _ & added & Hr & Hall).
    exists added. split; [exact Hr | exact Hall].
Qed.

(** C10. A sweep, whether or not any of its store calls throws, never
    deletes or alters an open reminder: every reminder that is open before
    the sweep is a row of the table after it, unchanged; the open reminders
    before the sweep are, in order, the first open reminders after it; and
    any row the sweep removed was a closed one. *)
Theorem sweep_keeps_open_reminders :
  forall (w : world),
    let before := reminders (db w) in
    let after := reminders (db (snd (checkExpirationAndGenerateReminders w))) in
    (forall r, In r before -> Reminders.is_closed r = false -> In r after)
    /\ (exists added, filter is_open after = filter is_open before ++ added)
    /\ (forall r, In r before -> ~ In r after -> Reminders.is_closed r = true).
Proof.
  intros w before after.
  assert (Hkeep : forall r, In r before -> Reminders.is_closed r = false ->
                            In r after).
  { intros r Hin Hopen.
    destruct (sweep_reminders w) as [E | (added & E & _)];
      fold before after in E; rewrite E; [exact Hin|].
    apply in_or_app. left. apply filter_In. split; [exact Hin|].
    now apply purge_keeps_open. }
  split; [exact Hkeep | split].
  - destruct (sweep_reminders w) as [E | (added & E & Hall)];
      fold before after in E; rewrite E.
    + exists []. now rewrite app_nil_r.
    + exists added. rewrite filter_app, filter_open_purged.
      f_equal. apply filter_open_all. eapply added_all_open; exact Hall.
  - intros r Hin Hout.
    destruct (Reminders.is_closed r) eqn:Hc; [reflexivity|].
    exfalso. apply Hout. now apply Hkeep.
Qed.

Lemma sweep_keeps_open_reminders_witness :
  In Sample.old_open (reminders (db Sample.flaky_pantry))
  /\ Reminders.is_closed Sample.old_open = false
  /\ In Sample.old_open
        (reminders
           (db (snd (checkExpirationAndGenerateReminders Sample.flaky_pantry)))).
Proof.
  split; [simpl; auto | split; [reflexivity|]].
  apply (proj1 (sweep_keeps_open_reminders Sample.flaky_pantry)).
  - simpl; auto.
  - reflexivity.
Defined.

(* ------------------------------------------------------------------ *)
(** ** A sweep in which nothing throws *)

Lemma sweep_db_shape (now : Calendar.moment) (d : database) :
  let keep := fun r => negb (Sql.purge_cond (Calendar.set_month_back now) r) in
  items (sweep_db now d) = items d
  /\ price_history (sweep_db now d) = price_history d
  /\ exists added,
       reminders (sweep_db now d) = filter keep (reminders d) ++ added
       /\ Forall (added_for now (expiring now d) (filter keep (reminders d))) added.
Proof.
  simpl. unfold sweep_db.
  pose proof (partial_reminds_all now (expiring now d)
                (purge_db (Calendar.set_month_back now) d)) as H.
  apply partial_reminds_shape in H.
  destruct H as (Hi & Hp & added & Hr & Hall).
  repeat split; auto. exists added. split; assumption.
Qed.

Lemma sweep_result (w : world) :
  faults w = [] ->
  db (snd (checkExpirationAndGenerateReminders w)) = sweep_db (clock w) (db w).
Proof. intros Hf. rewrite (sweep_no_fault w Hf). reflexivity. Qed.

Lemma set_month_back_one_month (now : Calendar.moment) :
  Calendar.day_fits_previous_month now = true ->
  Calendar.set_month_back now = Calendar.one_month_before now.
Proof.
  unfold Calendar.day_fits_previous_month, Calendar.set_month_back,
    Calendar.one_month_before, Calendar.date_sub_months, Calendar.curdate.
  destruct (Calendar.civil_from_days _) as [[y m] d].
  intros H. apply Z.leb_le in H. rewrite Z.min_l by exact H. reflexivity.
Qed.

(** C7. At noon on 2024-05-31 the purge does not stop at one month before
    now.  One calendar month before is 2024-04-30 12:00, but [setMonth]
    turns May 31 into an April 31, which is 2024-05-01 12:00, and the
    purge deletes every closed reminder created before that: the one
    created on 2024-04-30 at 18:00, later than one month before now, is
    gone after the sweep, and so is the one created on 2024-05-01 at
    11:59:59; only the one created on 2024-05-01 at 12:00:00 is left. *)
Theorem sweep_purges_within_month_at_month_end :
  let w := Sample.month_end in
  let after := reminders (db (snd (checkExpirationAndGenerateReminders w))) in
  Calendar.instant (clock w) = Sample.utc 2024 5 31 12 0 0
  /\ Calendar.one_month_before (clock w) = Sample.utc 2024 4 30 12 0 0
  /\ Calendar.set_month_back (clock w) = Sample.utc 2024 5 1 12 0 0
  /\ In Sample.closed_april (reminders (db w))
  /\ Reminders.is_closed Sample.closed_april = true
  /\ Calendar.one_month_before (clock w)
     < Reminders.created_at Sample.closed_april
  /\ ~ In Sample.closed_april after
  /\ after = [Sample.closed_may_noon].
Proof.
  cbv zeta.
  assert (E : reminders
                (db (snd (checkExpirationAndGenerateReminders Sample.month_end)))
              = [Sample.closed_may_noon]) by (vm_compute; reflexivity).
  rewrite E.
  split; [reflexivity|].
  split; [vm_compute; reflexivity|].
  split; [vm_compute; reflexivity|].
  split; [left; reflexivity|].
  split; [reflexivity|].
  split; [vm_compute; reflexivity|].
  split; [|reflexivity].
  intros [H | []]. discriminate H.
Qed.

(** In a sweep whose store calls succeed, on a day of the month that
    the month before has too, the purge removes exactly the closed reminders
    created strictly before the instant one calendar month before now: such
    a row is gone afterwards, a closed row created at that instant or later
    is still there, and so is every open row whatever its age. *)
Theorem sweep_purges_older_than_one_month :
  forall (w : world),
    faults w = [] ->
    Calendar.day_fits_previous_month (clock w) = true ->
    let ONE_MONTH_AGO := Calendar.one_month_before (clock w) in
    let before := reminders (db w) in
    let after := reminders (db (snd (checkExpirationAndGenerateReminders w))) in
    forall r, In r before ->
      (Reminders.is_closed r = true -> Reminders.created_at r < ONE_MONTH_AGO ->
       ~ In r after)
      /\ (Reminders.is_closed r = true -> ONE_MONTH_AGO <= Reminders.created_at r ->
          In r after)
      /\ (Reminders.is_closed r = false -> In r after).
Proof.
  intros w Hf Hday bound before after r Hin.
  subst after. rewrite (sweep_result w Hf).
  destruct (sweep_db_shape (clock w) (db w)) as (_ & _ & added & Hr & Hall).
  rewrite Hr, (set_month_back_one_month _ Hday). fold bound before.
  repeat split.
  - intros Hc Hlt Hafter.
    apply in_app_or in Hafter. destruct Hafter as [Hk | Ha].
    + apply filter_In in Hk. destruct Hk as [_ Hk].
      unfold Sql.purge_cond in Hk. rewrite Hc in Hk.
      apply Z.ltb_lt in Hlt. rewrite Hlt in Hk. discriminate.
    + rewrite Forall_forall in Hall. destruct (Hall r Ha) as [Hopen _].
      congruence.
  - intros Hc Hge. apply in_or_app. left. apply filter_In.
    split; [exact Hin|].
    unfold Sql.purge_cond. rewrite Hc.
    apply Z.ltb_ge in Hge. rewrite Hge. reflexivity.
  - intros Hopen. apply in_or_app. left. apply filter_In.
    split; [exact Hin | now apply purge_keeps_open].
Qed.

Lemma sweep_purges_older_than_one_month_witness :
  Calendar.one_month_before (clock Sample.pantry) = Sample.utc 2024 5 10 1 0 0
  /\ Reminders.created_at Sample.old_closed = Sample.utc 2024 5 10 0 59 59
  /\ Reminders.created_at Sample.boundary_closed = Sample.utc 2024 5 10 1 0 0
  /\ ~ In Sample.old_closed
         (reminders (db (snd (checkExpirationAndGenerateReminders Sample.pantry))))
  /\ In Sample.boundary_closed
        (reminders (db (snd (checkExpirationAndGenerateReminders Sample.pantry))))
  /\ In Sample.old_open
        (reminders (db (snd (checkExpirationAndGenerateReminders Sample.pantry)))).
Proof.
  assert (Hf : faults Sample.pantry = []) by reflexivity.
  assert (Hd : Calendar.day_fits_previous_month (clock Sample.pantry) = true)
    by (vm_compute; reflexivity).
  pose proof (sweep_purges_older_than_one_month Sample.pantry Hf Hd) as H.
  cbv zeta in H.
  split; [vm_compute; reflexivity|].
  split; [vm_compute; reflexivity|].
  split; [vm_compute; reflexivity|].
  split; [|split].
  - refine (proj1 (H Sample.old_closed _) _ _).
    + left; reflexivity.
    + reflexivity.
    + vm_compute; reflexivity.
  - refine (proj1 (proj2 (H Sample.boundary_closed _)) _ _).
    + right; left; reflexivity.
    + reflexivity.
    + vm_compute; discriminate.
  - refine (proj2 (proj2 (H Sample.old_open _)) _).
    + right; right; left; reflexivity.
    + reflexivity.
Defined.

Lemma ceil_div_shift (x k y : Z) :
  0 < y -> Calendar.ceil_div (k * y - x) y = k - x / y.
Proof.
  intros Hy. unfold Calendar.ceil_div.
  replace (- (k * y - x)) with (x + (- k) * y) by ring.
  rewrite Z.div_add by lia. ring.
Qed.

(** In a zone at a fixed offset from UTC, the route's [diffDays] is the
    difference in days between the best-by date and today's date. *)
Lemma diffDays_fixed_zone (off best_by_date t : Z) :
  diffDays (Calendar.date_to_instant (Calendar.fixed_zone off) best_by_date) t
  = best_by_date
    - Calendar.curdate (Calendar.at_zone t (Calendar.fixed_zone off)).
Proof.
  unfold diffDays, Calendar.date_to_instant, Calendar.curdate. simpl.
  replace (best_by_date * Calendar.msPerDay - off - t)
    with (best_by_date * Calendar.msPerDay - (t + off)) by ring.
  apply ceil_div_shift. reflexivity.
Qed.

(** At UTC or west of it by less than a day, local midnight of a date falls
    on that date in UTC. *)
Lemma utc_date_fixed_zone (off d : Z) :
  - Calendar.msPerDay < off <= 0 ->
  Calendar.utc_date (Calendar.date_to_instant (Calendar.fixed_zone off) d)
  = Calendar.iso_date d.
Proof.
  intros H. unfold Calendar.utc_date, Calendar.date_to_instant. simpl.
  f_equal. symmetry.
  apply (Z.div_unique _ _ d (- off)); [left; lia | ring].
Qed.

Lemma reminder_message_fixed_zone (it : Items.row) (t off : Z) :
  - Calendar.msPerDay < off <= 0 ->
  reminder_message it (Calendar.at_zone t (Calendar.fixed_zone off))
  = day_difference_message
      it (Items.best_by_date it
          - Calendar.curdate (Calendar.at_zone t (Calendar.fixed_zone off))).
Proof.
  intros H. unfold reminder_message. cbv zeta. simpl Calendar.tz.
  simpl Calendar.instant.
  rewrite diffDays_fixed_zone.
  unfold message_of, day_difference_message.
  now rewrite (utc_date_fixed_zone off _ H).
Qed.

Lemma expiring_In (now : Calendar.moment) (d : database) (it : Items.row) :
  In it (expiring now d)
  <-> In it (items d) /\ Items.best_by_date it - Calendar.curdate now <= 3.
Proof.
  unfold expiring, Sql.expiring_cond, DAYS_THRESHOLD.
  rewrite filter_In, Z.leb_le. reflexivity.
Qed.

Lemma open_match_true (item : Z) (msg : string) (r : Reminders.row) :
  Sql.open_match item msg r = true
  <-> Reminders.item_id r = Some item
      /\ Reminders.message r = msg
      /\ Reminders.is_closed r = false.
Proof.
  unfold Sql.open_match.
  rewrite !andb_true_iff, String.eqb_eq, negb_true_iff.
  destruct (Reminders.item_id r) as [i|].
  - rewrite Z.eqb_eq. split.
    + intros [[-> ->] ->]. auto.
    + intros (H & -> & ->). inversion H. auto.
  - split; [intros [[H _] _]; discriminate | intros [H _]; discriminate].
Qed.

Lemma remind_db_monotone (now : Calendar.moment) (d : database) (it : Items.row)
  (f : Reminders.row -> bool) :
  existsb f (reminders d) = true ->
  existsb f (reminders (remind_db now d it)) = true.
Proof.
  intros H. unfold remind_db.
  destruct (existsb (Sql.open_match _ _) (reminders d)); [exact H|].
  simpl. rewrite existsb_app, H. reflexivity.
Qed.

Lemma fold_remind_monotone (now : Calendar.moment) (its : list Items.row)
  (f : Reminders.row -> bool) :
  forall d,
    existsb f (reminders d) = true ->
    existsb f (reminders (fold_left (remind_db now) its d)) = true.
Proof.
  induction its as [|it its IH]; intros d H; simpl; [exact H|].
  apply IH. now apply remind_db_monotone.
Qed.

Lemma remind_db_reminded (now : Calendar.moment) (d : database) (it : Items.row) :
  existsb (Sql.open_match (Items.id it) (reminder_message it now))
          (reminders (remind_db now d it)) = true.
Proof.
  unfold remind_db.
  destruct (existsb _ (reminders d)) eqn:E; [exact E|].
  simpl. rewrite existsb_app. apply orb_true_iff. right.
  simpl. unfold Sql.open_match. simpl.
  now rewrite Z.eqb_refl, String.eqb_refl.
Qed.

Lemma fold_remind_reminded (now : Calendar.moment) (its : list Items.row) (it : Items.row) :
  forall d,
    In it its ->
    existsb (Sql.open_match (Items.id it) (reminder_message it now))
            (reminders (fold_left (remind_db now) its d)) = true.
Proof.
  induction its as [|i its IH]; intros d Hin; simpl; [destruct Hin|].
  destruct Hin as [-> | Hin].
  - apply fold_remind_monotone, remind_db_reminded.
  - now apply IH.
Qed.

Lemma sweep_db_reminded (now : Calendar.moment) (d : database) (it : Items.row) :
  In it (expiring now d) ->
  exists r,
    In r (reminders (sweep_db now d))
    /\ Reminders.item_id r = Some (Items.id it)
    /\ Reminders.message r = reminder_message it now
    /\ Reminders.is_closed r = false.
Proof.
  intros Hin. unfold sweep_db.
  pose proof (fold_remind_reminded now (expiring now d) it
                (purge_db (Calendar.set_month_back now) d) Hin) as H.
  apply existsb_exists in H. destruct H as (r & Hr & Hm).
  exists r. split; [exact Hr | now apply open_match_true].
Qed.

(** C4. The message does not follow the day difference in every time zone.
    In Tokyo, on 2024-06-10, Eggs with best-by date 2024-06-09 has day
    difference -1 and gets the past-due alert, but the alert quotes
    2024-06-08: the date is printed in UTC from local midnight.  In New
    York, at 00:30 on 2024-11-01, Cider with best-by date 2024-11-04 has
    day difference 3 and is taken up, but the warning says 4 days: the
    clocks go back in between and the route counts days of 24 hours. *)
Theorem sweep_message_depends_on_time_zone :
  let sweep := fun w =>
    map (fun r => (Reminders.item_id r, Reminders.message r))
        (reminders (db (snd (checkExpirationAndGenerateReminders w)))) in
  let today := fun w => Calendar.curdate (clock w) in
  Calendar.iso_date (Items.best_by_date Sample.eggs) = "2024-06-09"
  /\ Calendar.iso_date (today Sample.tokyo_pantry) = "2024-06-10"
  /\ Items.best_by_date Sample.eggs - today Sample.tokyo_pantry = -1
  /\ day_difference_message Sample.eggs (-1)
     = (ALERT ++ "Eggs is PAST its best-by date (2024-06-09).")%string
  /\ sweep Sample.tokyo_pantry
     = [ (Some 1, (WARNING ++ "Milk expires in 2 day(s).")%string);
         (Some 2, (ALERT ++ "Eggs is PAST its best-by date (2024-06-08).")%string);
         (Some 4, (WARNING ++ "Soup expires TODAY!")%string) ]
  /\ Calendar.iso_date (Items.best_by_date Sample.cider) = "2024-11-04"
  /\ Calendar.iso_date (today Sample.autumn_pantry) = "2024-11-01"
  /\ Items.best_by_date Sample.cider - today Sample.autumn_pantry = 3
  /\ day_difference_message Sample.cider 3
     = (WARNING ++ "Cider expires in 3 day(s).")%string
  /\ sweep Sample.autumn_pantry
     = [ (Some 1, (WARNING ++ "Cider expires in 4 day(s).")%string) ].
Proof.
  cbv zeta.
  repeat (split; [vm_compute; reflexivity|]).
  vm_compute; reflexivity.
Qed.

(** In a sweep whose store calls succeed, in any time zone, the items
    taken up are exactly those whose best-by date minus today's date is at
    most 3 days, expired ones included: each of them has, after the sweep,
    an open reminder with the route's message for it, and every reminder
    the sweep added is for such an item with that message.  The message
    follows the sign of the route's [diffDays]: negative gives the past-due
    alert quoting the UTC date of the best-by [Date], zero gives the
    expires-today warning, positive N gives the expires-in-N-day(s)
    warning. *)
Theorem sweep_reminds_expiring_items :
  forall (w : world),
    faults w = [] ->
    let today := Calendar.curdate (clock w) in
    let before := reminders (db w) in
    let after := reminders (db (snd (checkExpirationAndGenerateReminders w))) in
    (forall it,
        In it (items (db w)) ->
        Items.best_by_date it - today <= 3 ->
        exists r,
          In r after
          /\ Reminders.item_id r = Some (Items.id it)
          /\ Reminders.is_closed r = false
          /\ Reminders.message r = reminder_message it (clock w))
    /\ (forall r,
           In r after -> ~ In r before ->
           exists it,
             In it (items (db w))
             /\ Items.best_by_date it - today <= 3
             /\ Reminders.item_id r = Some (Items.id it)
             /\ Reminders.is_closed r = false
             /\ Reminders.message r = reminder_message it (clock w))
    /\ (forall it bestBy n,
           (n < 0 ->
            message_of it bestBy n
            = (ALERT ++ Items.name it ++ " is PAST its best-by date ("
                 ++ Calendar.utc_date bestBy ++ ").")%string)
           /\ (n = 0 ->
               message_of it bestBy n
               = (WARNING ++ Items.name it ++ " expires TODAY!")%string)
           /\ (0 < n ->
               message_of it bestBy n
               = (WARNING ++ Items.name it ++ " expires in "
                    ++ Calendar.digits n ++ " day(s).")%string)).
Proof.
  intros w Hf today before after.
  subst after. rewrite (sweep_result w Hf).
  repeat split.
  - intros it Hin Hle.
    destruct (sweep_db_reminded (clock w) (db w) it) as (r & Hr & Hid & Hm & Ho).
    { apply expiring_In. split; assumption. }
    exists r. repeat split; auto.
  - intros r Hafter Hnew.
    destruct (sweep_db_shape (clock w) (db w)) as (_ & _ & added & Hr & Hall).
    rewrite Hr in Hafter. apply in_app_or in Hafter.
    destruct Hafter as [Hk | Ha].
    + apply filter_In in Hk. destruct Hk as [Hk _]. contradiction.
    + rewrite Forall_forall in Hall.
      destruct (Hall r Ha) as [Ho (it & Hin & Hid & _ & Hm & _)].
      apply expiring_In in Hin. destruct Hin as [Hin Hle].
      exists it. repeat split; auto.
  - intros Hn. unfold message_of.
    apply Z.ltb_lt in Hn. now rewrite Hn.
  - intros ->. reflexivity.
  - intros Hn. unfold message_of.
    assert (H1 : (n <? 0) = false) by (apply Z.ltb_ge; lia).
    assert (H2 : (n =? 0) = false) by (apply Z.eqb_neq; lia).
    now rewrite H1, H2.
Qed.

Lemma sweep_reminds_expiring_items_witness :
  faults Sample.tokyo_pantry = []
  /\ (exists r,
         In r (reminders
                 (db (snd (checkExpirationAndGenerateReminders
                             Sample.tokyo_pantry))))
         /\ Reminders.item_id r = Some 1
         /\ Reminders.is_closed r = false
         /\ Reminders.message r = (WARNING ++ "Milk expires in 2 day(s).")%string)
  /\ (exists r,
         In r (reminders
                 (db (snd (checkExpirationAndGenerateReminders
                             Sample.tokyo_pantry))))
         /\ Reminders.item_id r = Some 2
         /\ Reminders.is_closed r = false
         /\ Reminders.message r
            = (ALERT ++ "Eggs is PAST its best-by date (2024-06-08).")%string).
Proof.
  assert (Hf : faults Sample.tokyo_pantry = []) by reflexivity.
  pose proof (proj1 (sweep_reminds_expiring_items Sample.tokyo_pantry Hf)) as H.
  split; [exact Hf | split].
  - refine (H Sample.milk _ _).
    + left; reflexivity.
    + vm_compute; intro E; discriminate E.
  - refine (H Sample.eggs _ _).
    + right; left; reflexivity.
    + vm_compute; intro E; discriminate E.
Defined.

(** In a sweep whose store calls succeed, in a time zone at a fixed
    offset at UTC or west of it by less than a day, each item whose best-by
    date minus today's date is at most 3 days has an open reminder with the
    message of that day difference, and every reminder the sweep added is
    for such an item with that message: negative gives the past-due alert
    quoting the best-by date, zero gives the expires-today warning,
    positive N gives the expires-in-N-day(s) warning. *)
Theorem sweep_reminds_by_day_difference_west_of_utc :
  forall (w : world) (off : Z),
    faults w = [] ->
    Calendar.tz (clock w) = Calendar.fixed_zone off ->
    - Calendar.msPerDay < off <= 0 ->
    let today := Calendar.curdate (clock w) in
    let before := reminders (db w) in
    let after := reminders (db (snd (checkExpirationAndGenerateReminders w))) in
    (forall it,
        In it (items (db w)) ->
        Items.best_by_date it - today <= 3 ->
        exists r,
          In r after
          /\ Reminders.item_id r = Some (Items.id it)
          /\ Reminders.is_closed r = false
          /\ Reminders.message r
             = day_difference_message it (Items.best_by_date it - today))
    /\ (forall r,
           In r after -> ~ In r before ->
           exists it,
             In it (items (db w))
             /\ Items.best_by_date it - today <= 3
             /\ Reminders.item_id r = Some (Items.id it)
             /\ Reminders.is_closed r = false
             /\ Reminders.message r
                = day_difference_message it (Items.best_by_date it - today)).
Proof.
  intros w off Hf Hz Hoff today before after.
  assert (Hmsg : forall it,
             reminder_message it (clock w)
             = day_difference_message it (Items.best_by_date it - today)).
  { intros it. subst today. destruct (clock w) as [t z]. simpl in Hz. subst z.
    now apply reminder_message_fixed_zone. }
  subst after. rewrite (sweep_result w Hf).
  split.
  - intros it Hin Hle.
    destruct (sweep_db_reminded (clock w) (db w) it) as (r & Hr & Hid & Hm & Ho).
    { apply expiring_In. split; assumption. }
    exists r. repeat split; auto.
    now rewrite Hm.
  - intros r Hafter Hnew.
    destruct (sweep_db_shape (clock w) (db w)) as (_ & _ & added & Hr & Hall).
    rewrite Hr in Hafter. apply in_app_or in Hafter.
    destruct Hafter as [Hk | Ha].
    + apply filter_In in Hk. destruct Hk as [Hk _]. contradiction.
    + rewrite Forall_forall in Hall.
      destruct (Hall r Ha) as [Ho (it & Hin & Hid & _ & Hm & _)].
      apply expiring_In in Hin. destruct Hin as [Hin Hle].
      exists it. repeat split; auto.
      now rewrite Hm.
Qed.

Lemma sweep_reminds_by_day_difference_west_of_utc_witness :
  faults Sample.lima_pantry = []
  /\ Calendar.tz (clock Sample.lima_pantry)
     = Calendar.fixed_zone (- (5 * 3600000))
  /\ - Calendar.msPerDay < - (5 * 3600000) <= 0
  /\ Calendar.iso_date (Calendar.curdate (clock Sample.lima_pantry))
     = "2024-06-10"
  /\ (exists r,
         In r (reminders
                 (db (snd (checkExpirationAndGenerateReminders
                             Sample.lima_pantry))))
         /\ Reminders.item_id r = Some 1
         /\ Reminders.is_closed r = false
         /\ Reminders.message r = (WARNING ++ "Milk expires in 2 day(s).")%string)
  /\ (exists r,
         In r (reminders
                 (db (snd (checkExpirationAndGenerateReminders
                             Sample.lima_pantry))))
         /\ Reminders.item_id r = Some 2
         /\ Reminders.is_closed r = false
         /\ Reminders.message r
            = (ALERT ++ "Eggs is PAST its best-by date (2024-06-09).")%string).
Proof.
  assert (Hf : faults Sample.lima_pantry = []) by reflexivity.
  assert (Hz : Calendar.tz (clock Sample.lima_pantry)
               = Calendar.fixed_zone (- (5 * 3600000))) by reflexivity.
  assert (Ho : - Calendar.msPerDay < - (5 * 3600000) <= 0)
    by (split; [reflexivity | vm_compute; intro E; discriminate E]).
  pose proof (proj1 (sweep_reminds_by_day_difference_west_of_utc
                       Sample.lima_pantry (- (5 * 3600000)) Hf Hz Ho)) as H.
  split; [exact Hf | split; [exact Hz | split; [exact Ho | split]]].
  - vm_compute; reflexivity.
  - split.
    + refine (H Sample.milk _ _).
      * left; reflexivity.
      * vm_compute; intro E; discriminate E.
    + refine (H Sample.eggs _ _).
      * right; left; reflexivity.
      * vm_compute; intro E; discriminate E.
Defined.

Lemma filter_all {A : Type} (f : A -> bool) (l : list A) :
  Forall (fun x => f x = true) l -> filter f l = l.
Proof.
  induction 1 as [|x l Hx _ IH]; simpl; [reflexivity|].
  now rewrite Hx, IH.
Qed.

Lemma filter_twice {A : Type} (f : A -> bool) (l : list A) :
  filter f (filter f l) = filter f l.
Proof.
  apply filter_all. apply Forall_forall.
  intros x Hx. apply filter_In in Hx. tauto.
Qed.

(** Purging again right after a sweep removes nothing. *)
Lemma purge_after_sweep (now : Calendar.moment) (d : database) :
  purge_db (Calendar.set_month_back now) (sweep_db now d) = sweep_db now d.
Proof.
  destruct (sweep_db_shape now d) as (_ & _ & added & Hr & Hall).
  unfold purge_db, set_reminders. rewrite Hr.
  rewrite filter_app, filter_twice.
  rewrite (filter_all _ added).
  - rewrite <- Hr. destruct (sweep_db now d); reflexivity.
  - eapply Forall_impl; [|exact Hall].
    intros r [Ho _]. now apply purge_keeps_open.
Qed.

(** When every item already has its open reminder, handling any of them
    changes nothing. *)
Lemma partial_reminds_saturated (now : Calendar.moment) (its : list Items.row)
  (d d' : database) :
  partial_reminds now its d d' ->
  (forall it, In it its ->
              existsb (Sql.open_match (Items.id it) (reminder_message it now))
                      (reminders d) = true) ->
  d' = d.
Proof.
  induction 1 as [d | it its d d' _ IH | it its d d' _ IH]; intros Hsat.
  - reflexivity.
  - apply IH. intros i Hi. apply Hsat. now right.
  - assert (E : remind_db now d it = d).
    { unfold remind_db. now rewrite (Hsat it (in_eq it its)). }
    rewrite E in IH. apply IH. intros i Hi. apply Hsat. now right.
Qed.

Lemma sweep_db_saturated (now : Calendar.moment) (d : database) (it : Items.row) :
  In it (expiring now (sweep_db now d)) ->
  existsb (Sql.open_match (Items.id it) (reminder_message it now))
          (reminders (sweep_db now d)) = true.
Proof.
  intros Hin.
  assert (Hi : In it (expiring now d)).
  { unfold expiring in *.
    now rewrite (proj1 (sweep_db_shape now d)) in Hin. }
  unfold sweep_db. now apply fold_remind_reminded.
Qed.

(** C5. In a sweep whose store calls succeed, a reminder is added for an
    (item, message) pair only if no open reminder with that item and exactly
    that message was there before; reminders that are closed do not stand in
    the way, so an expiring item whose reminders with that message are all
    closed gets a fresh open one; and a second sweep run at once on the
    resulting state, whatever throws in it, leaves the database as the first
    sweep left it: it adds no reminder. *)
Theorem sweep_dedup_idempotent :
  forall (w : world),
    faults w = [] ->
    let now := clock w in
    let before := reminders (db w) in
    let w1 := snd (checkExpirationAndGenerateReminders w) in
    let after := reminders (db w1) in
    (forall r,
        In r after -> ~ In r before ->
        Reminders.is_closed r = false
        /\ exists it,
             In it (items (db w))
             /\ Reminders.item_id r = Some (Items.id it)
             /\ Reminders.message r = reminder_message it now
             /\ forall r0,
                  In r0 before ->
                  Reminders.item_id r0 = Some (Items.id it) ->
                  Reminders.message r0 = Reminders.message r ->
                  Reminders.is_closed r0 = true)
    /\ (forall it,
           In it (items (db w)) ->
           Items.best_by_date it - Calendar.curdate now <= 3 ->
           (forall r0,
               In r0 before ->
               Reminders.item_id r0 = Some (Items.id it) ->
               Reminders.message r0 = reminder_message it now ->
               Reminders.is_closed r0 = true) ->
           exists r,
             In r after /\ ~ In r before
             /\ Reminders.is_closed r = false
             /\ Reminders.item_id r = Some (Items.id it)
             /\ Reminders.message r = reminder_message it now)
    /\ (forall fs,
           db (snd (checkExpirationAndGenerateReminders
                      (mkWorld (db w1) (clock w1) (files w1) (console w1) fs)))
           = db w1).
Proof.
  intros w Hf now before w1 after.
  assert (Hdb : db w1 = sweep_db now (db w)) by apply (sweep_result w Hf).
  assert (Hck : clock w1 = now).
  { unfold w1. rewrite (sweep_no_fault w Hf). reflexivity. }
  destruct (sweep_db_shape now (db w)) as (_ & _ & added & Hr & Hall).
  fold before in Hr, Hall.
  assert (Hafter : after = filter (fun r => negb (Sql.purge_cond
                                       (Calendar.set_month_back now) r)) before
                           ++ added)
    by (unfold after; now rewrite Hdb).
  split; [|split].
  - intros r Hin Hnew. rewrite Hafter in Hin.
    apply in_app_or in Hin. destruct Hin as [Hk | Ha].
    { apply filter_In in Hk. destruct Hk as [Hk _]. contradiction. }
    rewrite Forall_forall in Hall.
    destruct (Hall r Ha) as [Ho (it & Hin & Hid & _ & Hm & Hnone)].
    split; [exact Ho|].
    exists it. apply expiring_In in Hin. destruct Hin as [Hin _].
    repeat split; auto.
    intros r0 Hr0 Hid0 Hm0.
    destruct (Reminders.is_closed r0) eqn:Hc0; [reflexivity|].
    exfalso.
    assert (Hex : existsb (Sql.open_match (Items.id it) (reminder_message it now))
                          (filter (fun r => negb (Sql.purge_cond
                                      (Calendar.set_month_back now) r)) before)
                  = true).
    { apply existsb_exists. exists r0. split.
      - apply filter_In. split; [exact Hr0 | now apply purge_keeps_open].
      - apply open_match_true. repeat split; congruence. }
    congruence.
  - intros it Hin Hle Hclosed.
    destruct (sweep_db_reminded now (db w) it) as (r & Hr' & Hid & Hm & Ho).
    { apply expiring_In. split; assumption. }
    exists r. unfold after. rewrite Hdb.
    repeat split; auto.
    intros Hin0. specialize (Hclosed r Hin0 Hid Hm). congruence.
  - intros fs.
    destruct (sweep_outcome (mkWorld (db w1) (clock w1) (files w1) (console w1) fs))
      as (w2 & E & _ & D).
    rewrite E. simpl in *. destruct D as [D | D]; [exact D|].
    rewrite Hck, Hdb in D. rewrite purge_after_sweep in D.
    rewrite Hdb.
    apply (partial_reminds_saturated _ _ _ _ D).
    intros it Hin. now apply sweep_db_saturated.
Qed.

Lemma sweep_dedup_idempotent_witness :
  faults Sample.pantry = []
  /\ (exists r,
         In r (reminders
                 (db (snd (checkExpirationAndGenerateReminders Sample.pantry))))
         /\ ~ In r (reminders (db Sample.pantry))
         /\ Reminders.is_closed r = false
         /\ Reminders.item_id r = Some 4
         /\ Reminders.message r = Reminders.message Sample.closed_same_text)
  /\ db (snd (checkExpirationAndGenerateReminders
                (mkWorld
                   (db (snd (checkExpirationAndGenerateReminders Sample.pantry)))
                   Sample.now [] [] [false; false; true])))
     = db (snd (checkExpirationAndGenerateReminders Sample.pantry)).
Proof.
  assert (Hf : faults Sample.pantry = []) by reflexivity.
  pose proof (sweep_dedup_idempotent Sample.pantry Hf) as H.
  cbv zeta in H. destruct H as (_ & Hfresh & Hidem).
  split; [exact Hf | split].
  - refine (Hfresh Sample.soup _ _ _).
    + right; right; right; left; reflexivity.
    + vm_compute; intro E; discriminate E.
    + intros r0 [<- | [<- | [<- | [<- | []]]]] Hid Hm;
        try reflexivity; vm_compute in Hid; discriminate Hid.
  - exact (Hidem [false; false; true]).
Defined.

(* ------------------------------------------------------------------ *)
(** ** Spending statistics *)

Lemma or_zero_SUM (l : list Z) : or_zero (Sql.SUM l) = Sql.sum_prices l.
Proof. destruct l; reflexivity. Qed.

(** C3 (as stated, fails). With a ledger row dated tomorrow, the week total
    is 7.50: it includes the 5.00 of that row, while the rows recorded in
    the closed window from seven days ago to today sum to 2.50. *)
Lemma week_total_counts_later_days :
  fst (get_spending (JStr "week") Sample.preorder)
  = Normal (Spending 750 0 0 0)
  /\ week_window_total Sample.preorder = 250.
Proof. split; vm_compute; reflexivity. Qed.

(** C3 (amended). For the period 'week', when the store calls succeed, the
    route answers with totalSpent equal to the sum of the prices of exactly
    the ledger rows recorded on or after today minus 7 days: rows recorded
    earlier do not contribute, and there is no upper bound, so that the
    total is the sum over the closed window up to today whenever no row is
    dated after today. *)
Theorem week_total_since_seven_days :
  forall (w : world),
    faults w = [] ->
    (exists pantrySpent fridgeSpent freezerSpent,
        get_spending (JStr "week") w
        = (Normal (Spending (week_since_total w)
                            pantrySpent fridgeSpent freezerSpent), w))
    /\ ((forall r, In r (price_history (db w)) ->
                   PriceHistory.recorded_at r <= Calendar.curdate (clock w)) ->
        week_since_total w = week_window_total w).
Proof.
  intros w Hf. split.
  - unfold get_spending.
    change (dateFilterClause (JStr "week"))
      with (Since (Some (fun today => today - 7))).
    unfold try_catch, bind.
    rewrite (execute_no_fault _ w Hf).
    unfold Sql.select_total_spent at 1. cbv beta iota zeta.
    rewrite set_db_same.
    rewrite (execute_no_fault _ w Hf).
    unfold Sql.select_location_spent at 1. cbv beta iota zeta.
    rewrite set_db_same. unfold ret.
    rewrite or_zero_SUM.
    do 3 eexists. reflexivity.
  - intros Hpast. unfold week_since_total, week_window_total.
    do 2 f_equal. apply filter_ext_in.
    intros r Hr. specialize (Hpast r Hr).
    apply Z.leb_le in Hpast. rewrite Hpast. now rewrite andb_true_r.
Qed.

Lemma week_total_since_seven_days_witness :
  faults Sample.pantry = []
  /\ exists pantrySpent fridgeSpent freezerSpent,
       get_spending (JStr "week") Sample.pantry
       = (Normal (Spending (week_since_total Sample.pantry)
                           pantrySpent fridgeSpent freezerSpent),
          Sample.pantry).
Proof.
  split; [reflexivity|].
  exact (proj1 (week_total_since_seven_days Sample.pantry eq_refl)).
Defined.

(* ------------------------------------------------------------------ *)
(** ** Price difference lookup *)

Lemma null_safe_eqb_eq (a b : sqlstr) : null_safe_eqb a b = true <-> a = b.
Proof.
  destruct a as [s|], b as [t|]; simpl.
  - rewrite String.eqb_eq. split; [now intros -> | now intros [= ->]].
  - split; discriminate.
  - split; discriminate.
  - tauto.
Qed.

Lemma closest_cond_true (ledger : list PriceHistory.row) (name : string)
  (brand : sqlstr) (target : Z) (r : PriceHistory.row) :
  In r (filter (Sql.closest_cond name brand target) ledger)
  <-> entry_on_or_before ledger name brand target r.
Proof.
  unfold entry_on_or_before, Sql.closest_cond.
  rewrite filter_In, !andb_true_iff, String.eqb_eq, null_safe_eqb_eq, Z.leb_le.
  tauto.
Qed.

Lemma latest_spec (l : list PriceHistory.row) :
  forall best,
    let r := Sql.latest best l in
    In r (best :: l)
    /\ forall x, In x (best :: l) ->
                 PriceHistory.recorded_at x <= PriceHistory.recorded_at r.
Proof.
  induction l as [|y l IH]; intros best; simpl.
  - split; [now left | intros x [<- | []]; lia].
  - destruct (PriceHistory.recorded_at best <? PriceHistory.recorded_at y) eqn:E.
    + apply Z.ltb_lt in E. destruct (IH y) as [Hin Hmax]. split.
      * right. exact Hin.
      * intros x [<- | Hx]; [|now apply Hmax].
        specialize (Hmax y (in_eq y l)). lia.
    + apply Z.ltb_ge in E. destruct (IH best) as [Hin Hmax]. split.
      * destruct Hin as [Hin | Hin]; [now left | now right; right].
      * intros x [<- | [<- | Hx]].
        -- apply Hmax. now left.
        -- specialize (Hmax best (in_eq best l)). lia.
        -- apply Hmax. now right.
Qed.

Lemma closest_none (ledger : list PriceHistory.row) (name : string)
  (brand : sqlstr) (target : Z) :
  closest name brand target ledger = None
  <-> forall r, ~ entry_on_or_before ledger name brand target r.
Proof.
  unfold closest. split.
  - destruct (filter _ ledger) as [|r rest] eqn:E; [|discriminate].
    intros _ r Hr. apply closest_cond_true in Hr. rewrite E in Hr. exact Hr.
  - intros Hnone.
    destruct (filter _ ledger) as [|r rest] eqn:E; [reflexivity|].
    exfalso. apply (Hnone r). apply closest_cond_true. rewrite E. now left.
Qed.

Lemma closest_some (ledger : list PriceHistory.row) (name : string)
  (brand : sqlstr) (target : Z) (r : PriceHistory.row) :
  closest name brand target ledger = Some r ->
  entry_on_or_before ledger name brand target r
  /\ forall x, entry_on_or_before ledger name brand target x ->
               PriceHistory.recorded_at x <= PriceHistory.recorded_at r.
Proof.
  unfold closest.
  destruct (filter _ ledger) as [|r0 rest] eqn:E; [discriminate|].
  intros [= <-]. destruct (latest_spec rest r0) as [Hin Hmax]. split.
  - apply closest_cond_true. rewrite E. exact Hin.
  - intros x Hx. apply closest_cond_true in Hx. rewrite E in Hx.
    now apply Hmax.
Qed.

Lemma null_if_blank_param (q : string) :
  bind_param (null_if_blank (null_if_blank (JStr q)))
  = ret (to_sql (null_if_blank (JStr q))).
Proof.
  unfold null_if_blank. simpl.
  destruct (String.eqb q "null") eqn:E1; simpl; [reflexivity|].
  destruct (String.eqb q "") eqn:E2; simpl; [reflexivity|].
  now rewrite E1, E2.
Qed.

Lemma findClosestPrice_no_fault (w : world) (name q : string) (target : Z) :
  faults w = [] ->
  findClosestPrice name (null_if_blank (JStr q)) target w
  = (Normal (closest name (to_sql (null_if_blank (JStr q))) target
                     (price_history (db w))), w).
Proof.
  intros Hf. unfold findClosestPrice.
  rewrite null_if_blank_param. unfold bind, ret.
  rewrite (execute_no_fault _ w Hf).
  unfold Sql.select_closest, closest. rewrite set_db_same.
  destruct (filter _ (price_history (db w))); reflexivity.
Qed.

Lemma get_difference_no_fault (w : world) (name q : string)
  (startDate endDate : Z) :
  faults w = [] ->
  name <> "" ->
  let brand := null_if_blank (JStr q) in
  let ledger := price_history (db w) in
  get_difference (JStr name) (JStr q) (Some startDate) (Some endDate) w
  = (Normal
       match closest name (to_sql brand) startDate ledger,
             closest name (to_sql brand) endDate ledger with
       | None, _ => not_found name "start" startDate
       | Some _, None => not_found name "end" endDate
       | Some priceStart, Some priceEnd =>
           Difference name brand
                      (PriceHistory.recorded_at priceStart)
                      (PriceHistory.recorded_at priceEnd)
                      (PriceHistory.price priceStart)
                      (PriceHistory.price priceEnd)
                      (PriceHistory.price priceEnd - PriceHistory.price priceStart)
       end, w).
Proof.
  intros Hf Hname brand ledger. unfold get_difference.
  apply String.eqb_neq in Hname. rewrite Hname.
  unfold try_catch. unfold bind at 1.
  rewrite (findClosestPrice_no_fault w name q startDate Hf).
  unfold bind at 1.
  rewrite (findClosestPrice_no_fault w name q endDate Hf).
  fold brand ledger.
  destruct (closest name (to_sql brand) startDate ledger);
    destruct (closest name (to_sql brand) endDate ledger); reflexivity.
Qed.




(* ------------------------------------------------------------------ *)
(** ** Brand normalization: logger against lookup *)

Lemma no_conflict_without_brand (name : string) (day : Z)
  (l : list PriceHistory.row) :
  existsb (Sql.unique_conflict name None day) l = false.
Proof.
  induction l as [|r l IH]; simpl; [reflexivity|].
  rewrite IH. unfold Sql.unique_conflict, sql_eqb.
  destruct (PriceHistory.item_brand r);
    now rewrite andb_false_r.
Qed.

(** Logging a positive price without a brand appends a row with a NULL
    brand. *)
Lemma logPriceHistory_without_brand (w : world) (name : string) (brand : jsval)
  (price day : Z) :
  faults w = [] ->
  0 < price ->
  brand = JUndefined \/ brand = JStr "" ->
  logPriceHistory name brand price day w
  = (Normal tt,
     set_db (set_price_history
               (fun l => l ++ [PriceHistory.mk (next_price (db w)) name None
                                               price day])
               Z.succ (db w)) w).
Proof.
  intros Hf Hpos Hb. unfold logPriceHistory.
  assert (E : (price <=? 0) = false) by (apply Z.leb_gt; exact Hpos).
  rewrite E.
  assert (Hn : dbBrand_of brand = JNull) by (destruct Hb; subst; reflexivity).
  rewrite Hn. unfold try_catch, bind, bind_param, ret.
  rewrite (execute_no_fault _ w Hf).
  unfold Sql.upsert_price. now rewrite no_conflict_without_brand.
Qed.

(** C2 (as stated, fails for an absent brand). The logger turns an absent
    brand into the no-brand marker, the lookup leaves it [undefined]: a
    difference request without a brand parameter is answered with a server
    error although the ledger holds rows of that item without brand. *)
Lemma lookup_keeps_absent_brand :
  dbBrand_of JUndefined = JNull
  /\ null_if_blank JUndefined = JUndefined
  /\ null_if_blank JUndefined <> JNull
  /\ fst (get_difference (JStr "Milk") JUndefined (Some Sample.today)
                         (Some Sample.today) Sample.pantry)
     = Normal (Error 500 "Failed to calculate price difference due to a server error.").
Proof.
  split; [reflexivity | split; [reflexivity | split; [discriminate|]]].
  vm_compute. reflexivity.
Qed.

(** C2 (amended). The logger maps an absent or empty brand to the no-brand
    marker; the lookup maps the empty string and the literal "null" to the
    same marker; the lookup compares brands with the NULL-safe equality,
    under which no-brand equals no-brand.  Hence, when the store calls
    succeed, after an item is logged with an absent or empty brand at a
    positive price, its row is in the ledger, and a lookup with brand "null"
    or "" and a target date on or after the logged day finds a row of that
    name without brand recorded from that day on. *)
Theorem brand_normalization_agrees :
  forall (w : world) (name : string) (brand : jsval) (q : string)
         (price day target : Z),
    faults w = [] ->
    0 < price ->
    brand = JUndefined \/ brand = JStr "" ->
    q = "null" \/ q = "" ->
    day <= target ->
    let w1 := snd (logPriceHistory name brand price day w) in
    dbBrand_of brand = JNull
    /\ null_if_blank (JStr q) = JNull
    /\ null_safe_eqb (to_sql (dbBrand_of brand)) (to_sql (null_if_blank (JStr q)))
       = true
    /\ In (PriceHistory.mk (next_price (db w)) name None price day)
          (price_history (db w1))
    /\ Sql.closest_cond name (to_sql (null_if_blank (JStr q))) target
                        (PriceHistory.mk (next_price (db w)) name None price day)
       = true
    /\ exists found,
         fst (findClosestPrice name (null_if_blank (JStr q)) target w1)
         = Normal (Some found)
         /\ In found (price_history (db w1))
         /\ PriceHistory.item_name found = name
         /\ PriceHistory.item_brand found = None
         /\ day <= PriceHistory.recorded_at found <= target.
Proof.
  intros w name brand q price day target Hf Hpos Hb Hq Hle w1.
  assert (Hlog : dbBrand_of brand = JNull) by (destruct Hb; subst; reflexivity).
  assert (Hlook : null_if_blank (JStr q) = JNull)
    by (destruct Hq; subst; reflexivity).
  subst w1. rewrite (logPriceHistory_without_brand w name brand price day Hf Hpos Hb).
  cbv beta iota delta [snd].
  set (row := PriceHistory.mk (next_price (db w)) name None price day).
  set (w1 := set_db _ w).
  assert (Hf1 : faults w1 = []) by (destruct w; exact Hf).
  assert (Hin : In row (price_history (db w1))).
  { destruct w; simpl. apply in_or_app. right. now left. }
  assert (Hcond : Sql.closest_cond name None target row = true).
  { unfold Sql.closest_cond, row. simpl.
    rewrite String.eqb_refl. simpl. now apply Z.leb_le. }
  split; [exact Hlog | split; [exact Hlook | split; [now rewrite Hlog, Hlook|]]].
  split; [exact Hin | split; [now rewrite Hlook|]].
  rewrite (findClosestPrice_no_fault w1 name q target Hf1).
  rewrite Hlook. simpl to_sql. cbv beta iota delta [fst].
  assert (Hrow : entry_on_or_before (price_history (db w1)) name None target row).
  { unfold entry_on_or_before. auto. }
  destruct (closest name None target (price_history (db w1))) as [found|] eqn:E.
  - apply closest_some in E. destruct E as [(Hfin & Hn & Hbr & Ht) Hmax].
    exists found.
    split; [reflexivity|]. split; [exact Hfin|]. split; [exact Hn|].
    split; [exact Hbr|]. split; [|exact Ht]. exact (Hmax row Hrow).
  - exfalso. exact (proj1 (closest_none _ _ _ _) E row Hrow).
Qed.

Lemma brand_normalization_agrees_witness :
  faults Sample.pantry = []
  /\ 0 < 310
  /\ exists found,
       fst (findClosestPrice "Soup" (null_if_blank (JStr "null")) (Sample.today + 5)
              (snd (logPriceHistory "Soup" JUndefined 310 Sample.today
                                    Sample.pantry)))
       = Normal (Some found)
       /\ In found
             (price_history
                (db (snd (logPriceHistory "Soup" JUndefined 310 Sample.today
                                          Sample.pantry))))
       /\ PriceHistory.item_name found = "Soup"
       /\ PriceHistory.item_brand found = None
       /\ Sample.today <= PriceHistory.recorded_at found <= Sample.today + 5.
Proof.
  assert (Hf : faults Sample.pantry = []) by reflexivity.
  assert (Hp : 0 < 310) by reflexivity.
  split; [exact Hf | split; [exact Hp|]].
  refine (proj2 (proj2 (proj2 (proj2 (proj2
            (brand_normalization_agrees Sample.pantry "Soup" JUndefined "null"
               310 Sample.today (Sample.today + 5) Hf Hp _ _ _)))))).
  - left; reflexivity.
  - left; reflexivity.
  - vm_compute; intro E; discriminate E.
Defined.

(* ------------------------------------------------------------------ *)
(** ** Item mutations and their side effects *)

Lemma bind_ret_l {A B : Type} (a : A) (k : A -> js B) (w : world) :
  bind (ret a) k w = k a w.
Proof. reflexivity. Qed.

Lemma bind_run {A B : Type} (m : js A) (k : A -> js B) (w : world) :
  bind m k w
  = match m w with
    | (Normal a, w') => k a w'
    | (Throw e, w') => (Throw e, w')
    end.
Proof. reflexivity. Qed.

Lemma logPriceHistory_returns (name : string) (brand : jsval) (price day : Z)
  (w : world) :
  exists w', logPriceHistory name brand price day w = (Normal tt, w').
Proof.
  unfold logPriceHistory.
  destruct (price <=? 0); [now exists w|].
  unfold try_catch.
  destruct ((b <- bind_param (dbBrand_of brand);;
             execute (Sql.upsert_price name b price day)) w) as [[[]|e] w'].
  - now exists w'.
  - unfold console_error. eexists. reflexivity.
Qed.

Lemma bind_param_dbBrand (brand : jsval) :
  bind_param (dbBrand_of brand) = ret (to_sql (dbBrand_of brand)).
Proof.
  unfold dbBrand_of. destruct brand as [| |s]; simpl; try reflexivity.
  destruct (String.eqb s ""); reflexivity.
Qed.









(* ------------------------------------------------------------------ *)
(** ** The ledger key when the brand is present *)

(** For a brand that is present the unique key does its work. *)

Lemma key_rows_update_first (name b : string) (day price : Z)
  (l : list PriceHistory.row) :
  key_rows name (Some b) day (Sql.update_first name (Some b) day price l)
  = match key_rows name (Some b) day l with
    | [] => []
    | r :: rest => PriceHistory.with_price price r :: rest
    end.
Proof.
  unfold key_rows.
  induction l as [|r l IH]; simpl; [reflexivity|].
  destruct (Sql.unique_conflict name (Some b) day r) eqn:E; simpl.
  - assert (E' : Sql.unique_conflict name (Some b) day
                   (PriceHistory.with_price price r) = true) by exact E.
    now rewrite E'.
  - now rewrite E, IH.
Qed.

Lemma key_rows_nil (name : string) (brand : sqlstr) (day : Z)
  (l : list PriceHistory.row) :
  existsb (Sql.unique_conflict name brand day) l = false ->
  key_rows name brand day l = [].
Proof.
  unfold key_rows. induction l as [|r l IH]; simpl; [reflexivity|].
  destruct (Sql.unique_conflict name brand day r); simpl;
    [discriminate | exact IH].
Qed.

Lemma key_rows_cons (name : string) (brand : sqlstr) (day : Z)
  (l : list PriceHistory.row) :
  existsb (Sql.unique_conflict name brand day) l = true ->
  exists r rest, key_rows name brand day l = r :: rest.
Proof.
  unfold key_rows. induction l as [|r l IH]; simpl; [discriminate|].
  destruct (Sql.unique_conflict name brand day r); simpl; eauto.
Qed.

Lemma logPriceHistory_named_brand (w : world) (name b : string)
  (price day : Z) :
  faults w = [] ->
  0 < price ->
  b <> "" ->
  (List.length (key_rows name (Some b) day (price_history (db w))) <= 1)%nat ->
  let w' := snd (logPriceHistory name (JStr b) price day w) in
  faults w' = []
  /\ exists r,
       key_rows name (Some b) day (price_history (db w')) = [r]
       /\ PriceHistory.price r = price.
Proof.
  intros Hf Hpos Hb Hone. simpl.
  unfold logPriceHistory.
  assert (E : (price <=? 0) = false) by (apply Z.leb_gt; exact Hpos).
  rewrite E.
  assert (Hn : dbBrand_of (JStr b) = JStr b).
  { unfold dbBrand_of. simpl. apply String.eqb_neq in Hb. now rewrite Hb. }
  rewrite Hn. unfold try_catch, bind, bind_param, ret.
  rewrite (execute_no_fault _ w Hf).
  unfold Sql.upsert_price.
  destruct (existsb _ (price_history (db w))) eqn:Hex.
  - split; [destruct w; exact Hf|].
    destruct (key_rows_cons _ _ _ _ Hex) as (r & rest & Hk).
    destruct w as [d c fl co fs]; simpl in *.
    rewrite key_rows_update_first, Hk.
    rewrite Hk in Hone. destruct rest; [|simpl in Hone; lia].
    eexists. split; reflexivity.
  - split; [destruct w; exact Hf|].
    pose proof (key_rows_nil _ _ _ _ Hex) as Hk.
    destruct w as [d c fl co fs]; simpl in *.
    unfold key_rows in *. rewrite filter_app, Hk. simpl.
    unfold Sql.unique_conflict. simpl.
    rewrite !String.eqb_refl, Z.eqb_refl. simpl.
    eexists. split; reflexivity.
Qed.

(** With a brand, two calls for the same key leave exactly one row for that
    key, at the second price (given that the key had at most one row). *)
Lemma logPriceHistory_twice_named_brand (w : world) (name b : string)
  (first second day : Z) :
  faults w = [] ->
  0 < first ->
  0 < second ->
  b <> "" ->
  (List.length (key_rows name (Some b) day (price_history (db w))) <= 1)%nat ->
  exists r,
    key_rows name (Some b) day
      (price_history
         (db (snd ((logPriceHistory name (JStr b) first day ;;;
                    logPriceHistory name (JStr b) second day) w))))
    = [r]
    /\ PriceHistory.price r = second.
Proof.
  intros Hf H1 H2 Hb Hone.
  destruct (logPriceHistory_named_brand w name b first day Hf H1 Hb Hone)
    as (Hf1 & r1 & Hk1 & _).
  unfold bind.
  destruct (logPriceHistory_returns name (JStr b) first day w) as (w1 & E1).
  rewrite E1 in *. simpl in Hf1, Hk1.
  apply (logPriceHistory_named_brand w1 name b second day Hf1 H2 Hb).
  rewrite Hk1. simpl. lia.
Qed.

(* ================================================================== *)
(** * Further properties of the server *)

(* ------------------------------------------------------------------ *)
(** ** What a sweep leaves alone *)

Lemma partial_reminds_count (now : Calendar.moment) (its : list Items.row) (d d' : database) :
  partial_reminds now its d d' ->
  (List.length (reminders d') <= List.length (reminders d) + List.length its)%nat.
Proof.
  induction 1 as [d | it its d d' _ IH | it its d d' _ IH]; simpl.
  - lia.
  - lia.
  - assert (H : (List.length (reminders (remind_db now d it))
                 <= S (List.length (reminders d)))%nat).
    { unfold remind_db. destruct (existsb _ (reminders d)); simpl.
      - lia.
      - rewrite length_app. simpl. lia. }
    lia.
Qed.

Lemma filter_length_le {A : Type} (f : A -> bool) (l : list A) :
  (List.length (filter f l) <= List.length l)%nat.
Proof.
  induction l as [|x l IH]; simpl; [lia|].
  destruct (f x); simpl; lia.
Qed.

(** A sweep, whatever throws in it, touches nothing but the reminders table:
    the items, the price ledger and the clock are as before. *)
Theorem sweep_touches_reminders_only :
  forall (w : world),
    let w' := snd (checkExpirationAndGenerateReminders w) in
    items (db w') = items (db w)
    /\ price_history (db w') = price_history (db w)
    /\ clock w' = clock w.
Proof.
  intros w. simpl.
  destruct (sweep_outcome w) as (w' & E & C & D).
  rewrite E. simpl.
  destruct D as [D | D].
  - rewrite D. auto.
  - apply partial_reminds_shape in D. destruct D as (Hi & Hp & _).
    auto.
Qed.

(** A sweep, whatever throws in it, adds at most one reminder per item that
    the scan selects: the table never grows by more than the number of items
    whose best-by date is at most three days ahead. *)
Theorem sweep_adds_at_most_one_per_item :
  forall (w : world),
    let w' := snd (checkExpirationAndGenerateReminders w) in
    (List.length (reminders (db w'))
     <= List.length (reminders (db w))
        + List.length (expiring (clock w) (db w)))%nat.
Proof.
  intros w. simpl.
  destruct (sweep_outcome w) as (w' & E & C & D).
  rewrite E. simpl.
  destruct D as [D | D].
  - rewrite D. lia.
  - apply partial_reminds_count in D.
    pose proof (filter_length_le
                  (fun r => negb (Sql.purge_cond
                                    (Calendar.set_month_back (clock w)) r))
                  (reminders (db w))) as Hle.
    unfold purge_db in D. simpl in D. lia.
Qed.

(* ------------------------------------------------------------------ *)
(** ** The price logger as a ledger operation *)

Lemma logPriceHistory_effect (name : string) (brand : jsval) (price day : Z)
  (w : world) :
  let w' := snd (logPriceHistory name brand price day w) in
  db w' = db w
  \/ db w' = log_db name (to_sql (dbBrand_of brand)) price day (db w).
Proof.
  simpl. unfold logPriceHistory, log_db.
  destruct (price <=? 0); [now left|].
  rewrite bind_param_dbBrand.
  unfold try_catch. rewrite bind_ret_l.
  unfold execute, next_fault, console_error, Sql.upsert_price.
  destruct w as [d c fl co fs]. simpl.
  destruct fs as [|[|] fs]; simpl;
    try (now left);
    destruct (existsb _ (price_history d)); simpl; now right.
Qed.

Lemma logPriceHistory_no_fault (name : string) (brand : jsval) (price day : Z)
  (w : world) :
  faults w = [] ->
  logPriceHistory name brand price day w
  = (Normal tt,
     set_db (log_db name (to_sql (dbBrand_of brand)) price day (db w)) w).
Proof.
  intros Hf. unfold logPriceHistory, log_db.
  destruct (price <=? 0); [unfold ret; now rewrite set_db_same|].
  rewrite bind_param_dbBrand.
  unfold try_catch. rewrite bind_ret_l.
  rewrite (execute_no_fault _ w Hf). unfold Sql.upsert_price.
  destruct (existsb _ (price_history (db w))); reflexivity.
Qed.

Lemma conflict_with_price (name : string) (brand : sqlstr) (day p : Z)
  (r : PriceHistory.row) :
  Sql.unique_conflict name brand day (PriceHistory.with_price p r)
  = Sql.unique_conflict name brand day r.
Proof. reflexivity. Qed.

Lemma key_rows_update_length (name name' : string) (brand brand' : sqlstr)
  (day day' price : Z) (l : list PriceHistory.row) :
  List.length (key_rows name' brand' day'
                 (Sql.update_first name brand day price l))
  = List.length (key_rows name' brand' day' l).
Proof.
  unfold key_rows. induction l as [|r l IH]; simpl; [reflexivity|].
  destruct (Sql.unique_conflict name brand day r); simpl.
  - rewrite conflict_with_price.
    destruct (Sql.unique_conflict name' brand' day' r); reflexivity.
  - destruct (Sql.unique_conflict name' brand' day' r); simpl; now rewrite IH.
Qed.

Lemma conflict_same_key (name name' b' : string) (brand : sqlstr)
  (day day' price id : Z) :
  Sql.unique_conflict name' (Some b') day'
                      (PriceHistory.mk id name brand price day) = true ->
  name = name' /\ brand = Some b' /\ day = day'.
Proof.
  unfold Sql.unique_conflict. simpl.
  rewrite !andb_true_iff, String.eqb_eq, Z.eqb_eq.
  intros [[Hn Hb] Hd]. destruct brand as [b|]; simpl in Hb; [|discriminate].
  apply String.eqb_eq in Hb. subst. auto.
Qed.

Lemma log_db_keeps_keyed (name : string) (brand : sqlstr) (price day : Z)
  (d : database) :
  ledger_keyed (price_history d) ->
  ledger_keyed (price_history (log_db name brand price day d)).
Proof.
  intros Hk. unfold log_db.
  destruct (price <=? 0); [exact Hk|].
  destruct (existsb _ (price_history d)) eqn:Hex; simpl.
  - intros name' b' day'. rewrite key_rows_update_length. apply Hk.
  - intros name' b' day'. unfold key_rows. rewrite filter_app, length_app.
    simpl.
    destruct (Sql.unique_conflict name' (Some b') day' _) eqn:Hc; simpl.
    + apply conflict_same_key in Hc. destruct Hc as (-> & -> & ->).
      fold (key_rows name' (Some b') day' (price_history d)).
      rewrite (key_rows_nil _ _ _ _ Hex). simpl. lia.
    + specialize (Hk name' b' day'). unfold key_rows in Hk. lia.
Qed.

(** The ledger's uniqueness invariant for branded keys: if no two rows share
    a key (name, brand, day) with a brand present, the same holds after any
    call of [logPriceHistory], whatever its arguments and whatever throws. *)
Theorem logPriceHistory_keeps_ledger_keyed :
  forall (name : string) (brand : jsval) (price day : Z) (w : world),
    ledger_keyed (price_history (db w)) ->
    ledger_keyed
      (price_history (db (snd (logPriceHistory name brand price day w)))).
Proof.
  intros name brand price day w Hk.
  destruct (logPriceHistory_effect name brand price day w) as [E | E];
    rewrite E; [exact Hk | now apply log_db_keeps_keyed].
Qed.

Lemma sample_ledger_keyed : ledger_keyed Sample.ledger.
Proof.
  intros name b day. unfold key_rows, Sample.ledger, Sql.unique_conflict.
  cbn [filter PriceHistory.item_name PriceHistory.item_brand
       PriceHistory.recorded_at sql_eqb].
  rewrite !andb_false_r. cbn [andb].
  destruct (String.eqb "Eggs" name && String.eqb "Acme" b); cbn [andb];
    [|cbn [List.length]; lia].
  unfold Sample.today.
  destruct (Z.eqb_spec (19884 - 30) day) as [E1 | _];
    destruct (Z.eqb_spec (19884 - 9) day) as [E2 | _];
    cbn [List.length]; lia.
Qed.

Lemma logPriceHistory_keeps_ledger_keyed_witness :
  ledger_keyed Sample.ledger
  /\ price_history
       (db (snd (logPriceHistory "Eggs" (JStr "Acme") 425 (Sample.today - 9)
                                 Sample.pantry)))
     = [ PriceHistory.mk 1 "Eggs" (Some "Acme") 350 (Sample.today - 30);
         PriceHistory.mk 2 "Eggs" (Some "Acme") 425 (Sample.today - 9);
         PriceHistory.mk 3 "Milk" None 250 (Sample.today - 2);
         PriceHistory.mk 4 "Rice" None 120 (Sample.today - 40) ]
  /\ ledger_keyed
       (price_history
          (db (snd (logPriceHistory "Eggs" (JStr "Acme") 425 (Sample.today - 9)
                                    Sample.pantry)))).
Proof.
  split; [exact sample_ledger_keyed|].
  split; [vm_compute; reflexivity|].
  apply (logPriceHistory_keeps_ledger_keyed "Eggs" (JStr "Acme") 425
           (Sample.today - 9) Sample.pantry).
  exact sample_ledger_keyed.
Defined.

Lemma update_first_In (name : string) (brand : sqlstr) (day price : Z)
  (l : list PriceHistory.row) (r : PriceHistory.row) :
  In r (Sql.update_first name brand day price l) ->
  In r l \/ PriceHistory.price r = price.
Proof.
  induction l as [|x l IH]; simpl; [tauto|].
  destruct (Sql.unique_conflict name brand day x).
  - intros [<- | H]; [right; reflexivity | left; now right].
  - intros [<- | H]; [left; now left|].
    destruct (IH H) as [H' | H']; [left; now right | now right].
Qed.

(** No negative price enters the ledger: if no ledger row has a negative
    price, none has after any call of [logPriceHistory], whatever its
    arguments and whatever throws. *)
Theorem logPriceHistory_keeps_prices_nonnegative :
  forall (name : string) (brand : jsval) (price day : Z) (w : world),
    ledger_nonnegative (price_history (db w)) ->
    ledger_nonnegative
      (price_history (db (snd (logPriceHistory name brand price day w)))).
Proof.
  intros name brand price day w Hp.
  destruct (logPriceHistory_effect name brand price day w) as [E | E];
    rewrite E; [exact Hp|].
  unfold log_db.
  destruct (price <=? 0) eqn:Hle; [exact Hp|].
  apply Z.leb_gt in Hle.
  destruct (existsb _ (price_history (db w))); simpl; intros r Hr.
  - apply update_first_In in Hr.
    destruct Hr as [Hr | ->]; [now apply Hp | lia].
  - apply in_app_or in Hr. destruct Hr as [Hr | [<- | []]];
      [now apply Hp | simpl; lia].
Qed.

Lemma logPriceHistory_keeps_prices_nonnegative_witness :
  price_history
    (db (snd (logPriceHistory "Eggs" (JStr "Acme") 360 (Sample.today - 30)
                              Sample.pantry)))
  = [ PriceHistory.mk 1 "Eggs" (Some "Acme") 360 (Sample.today - 30);
      PriceHistory.mk 2 "Eggs" (Some "Acme") 399 (Sample.today - 9);
      PriceHistory.mk 3 "Milk" None 250 (Sample.today - 2);
      PriceHistory.mk 4 "Rice" None 120 (Sample.today - 40) ]
  /\ ledger_nonnegative
       (price_history
          (db (snd (logPriceHistory "Eggs" (JStr "Acme") 360 (Sample.today - 30)
                                    Sample.pantry)))).
Proof.
  split; [vm_compute; reflexivity|].
  apply (logPriceHistory_keeps_prices_nonnegative "Eggs" (JStr "Acme") 360
           (Sample.today - 30) Sample.pantry).
  intros r [<- | [<- | [<- | [<- | []]]]]; vm_compute; intro E; discriminate E.
Defined.

Lemma update_first_length (name : string) (brand : sqlstr) (day price : Z)
  (l : list PriceHistory.row) :
  List.length (Sql.update_first name brand day price l) = List.length l.
Proof.
  induction l as [|x l IH]; simpl; [reflexivity|].
  destruct (Sql.unique_conflict name brand day x); simpl; congruence.
Qed.

(** [logPriceHistory], whatever throws, touches nothing but the ledger, and
    never removes a ledger row: the items and the reminders are as before
    and the ledger has the same number of rows or one more. *)
Theorem logPriceHistory_touches_ledger_only :
  forall (name : string) (brand : jsval) (price day : Z) (w : world),
    let w' := snd (logPriceHistory name brand price day w) in
    items (db w') = items (db w)
    /\ reminders (db w') = reminders (db w)
    /\ (List.length (price_history (db w')) = List.length (price_history (db w))
        \/ List.length (price_history (db w'))
           = S (List.length (price_history (db w)))).
Proof.
  intros name brand price day w. simpl.
  destruct (logPriceHistory_effect name brand price day w) as [E | E];
    rewrite E; [auto|].
  unfold log_db.
  destruct (price <=? 0); [auto|].
  destruct (existsb _ (price_history (db w))); simpl.
  - rewrite update_first_length. auto.
  - rewrite length_app. simpl. repeat split. right. lia.
Qed.

(** Round trip through the ledger.  With a brand that is neither empty nor
    the literal "null", and a ledger without duplicate branded keys, a
    positive price of whole hundredths (the unit of [price], which the
    DECIMAL(10,2) column stores as given) logged for (name, brand, day) is
    what the lookup of the difference route finds for that name and brand at
    that day, whether the call added the row or rewrote one. *)
Theorem logged_price_is_found :
  forall (w : world) (name b : string) (price day : Z),
    faults w = [] ->
    0 < price ->
    b <> "" ->
    b <> "null" ->
    ledger_keyed (price_history (db w)) ->
    let w1 := snd (logPriceHistory name (JStr b) price day w) in
    exists r,
      fst (findClosestPrice name (null_if_blank (JStr b)) day w1)
      = Normal (Some r)
      /\ PriceHistory.item_name r = name
      /\ PriceHistory.item_brand r = Some b
      /\ PriceHistory.recorded_at r = day
      /\ PriceHistory.price r = price.
Proof.
  intros w name b price day Hf Hpos Hb Hnull Hk w1.
  destruct (logPriceHistory_named_brand w name b price day Hf Hpos Hb
              (Hk name b day)) as (Hf1 & r & Hrows & Hprice).
  fold w1 in Hf1, Hrows.
  assert (Hbrand : null_if_blank (JStr b) = JStr b).
  { unfold null_if_blank. simpl.
    apply String.eqb_neq in Hb. apply String.eqb_neq in Hnull.
    now rewrite Hb, Hnull. }
  rewrite (findClosestPrice_no_fault w1 name b day Hf1).
  rewrite Hbrand. simpl to_sql. cbv beta iota delta [fst].
  assert (Hin : In r (key_rows name (Some b) day (price_history (db w1))))
    by (rewrite Hrows; now left).
  unfold key_rows in Hin. apply filter_In in Hin. destruct Hin as [Hin Hc].
  pose proof Hc as Hkey. destruct r as [rid rn rb rp rd].
  apply conflict_same_key in Hkey. destruct Hkey as (-> & -> & ->).
  assert (Hentry : entry_on_or_before (price_history (db w1)) name (Some b) day
                     (PriceHistory.mk rid name (Some b) rp day)).
  { unfold entry_on_or_before. simpl. repeat split; auto. lia. }
  destruct (closest name (Some b) day (price_history (db w1))) as [x|] eqn:E.
  - apply closest_some in E. destruct E as [(Hxin & Hxn & Hxb & Hxd) Hmax].
    specialize (Hmax _ Hentry). simpl in Hmax.
    assert (Hxday : PriceHistory.recorded_at x = day) by lia.
    assert (Hx : In x (key_rows name (Some b) day (price_history (db w1)))).
    { unfold key_rows. apply filter_In. split; [exact Hxin|].
      unfold Sql.unique_conflict. rewrite Hxn, Hxb, Hxday. simpl.
      now rewrite !String.eqb_refl, Z.eqb_refl. }
    rewrite Hrows in Hx. destruct Hx as [<- | []].
    eexists. split; [reflexivity|]. simpl in *. auto.
  - exfalso. exact (proj1 (closest_none _ _ _ _) E _ Hentry).
Qed.

Lemma logged_price_is_found_witness :
  In (PriceHistory.mk 2 "Eggs" (Some "Acme") 399 (Sample.today - 9))
     (price_history (db Sample.pantry))
  /\ exists r,
       fst (findClosestPrice "Eggs" (null_if_blank (JStr "Acme"))
              (Sample.today - 9)
              (snd (logPriceHistory "Eggs" (JStr "Acme") 425 (Sample.today - 9)
                                    Sample.pantry)))
       = Normal (Some r)
       /\ PriceHistory.item_name r = "Eggs"
       /\ PriceHistory.item_brand r = Some "Acme"
       /\ PriceHistory.recorded_at r = Sample.today - 9
       /\ PriceHistory.price r = 425.
Proof.
  split; [right; left; reflexivity|].
  apply (logged_price_is_found Sample.pantry "Eggs" "Acme" 425
           (Sample.today - 9)).
  - reflexivity.
  - reflexivity.
  - discriminate.
  - discriminate.
  - exact sample_ledger_keyed.
Defined.

(* ------------------------------------------------------------------ *)
(** ** Spending statistics: the other periods *)

Lemma location_clause (period : jsval) (clause : option (Z -> Z)) :
  dateFilterClause period = Since clause ->
  (if negb (jsval_eqb period (JStr "all")) then clause else None) = clause.
Proof.
  intros H. destruct (jsval_eqb period (JStr "all")) eqn:E; [|reflexivity].
  simpl. destruct period as [| |p]; try discriminate.
  simpl in E. apply String.eqb_eq in E. subst p.
  simpl in H. now inversion H.
Qed.

Lemma get_spending_since (period : jsval) (clause : option (Z -> Z))
  (w : world) :
  faults w = [] ->
  dateFilterClause period = Since clause ->
  let bound := option_map (fun f => f (Calendar.curdate (clock w))) clause in
  let rows := filter (fun it => (0 <? Items.price it)
                                && Sql.in_window bound (Items.purchase_date it))
                     (items (db w)) in
  get_spending period w
  = (Normal
       (Spending
          (Sql.sum_prices
             (map PriceHistory.price
                  (filter (fun r => Sql.in_window bound (PriceHistory.recorded_at r))
                          (price_history (db w)))))
          (Sql.sum_prices (map (Sql.case_location Pantry) rows))
          (Sql.sum_prices (map (Sql.case_location Fridge) rows))
          (Sql.sum_prices (map (Sql.case_location Freezer) rows))), w).
Proof.
  intros Hf Hc. simpl. unfold get_spending. rewrite Hc.
  rewrite (location_clause period clause Hc).
  unfold try_catch. rewrite bind_run.
  rewrite (execute_no_fault _ w Hf).
  unfold Sql.select_total_spent at 1. cbv beta iota zeta.
  rewrite set_db_same. rewrite bind_run.
  rewrite (execute_no_fault _ w Hf).
  unfold Sql.select_location_spent at 1. cbv beta iota zeta.
  rewrite set_db_same. unfold ret.
  now rewrite !or_zero_SUM.
Qed.

Lemma location_cases_sum (rows : list Items.row) :
  Sql.sum_prices (map (Sql.case_location Pantry) rows)
  + Sql.sum_prices (map (Sql.case_location Fridge) rows)
  + Sql.sum_prices (map (Sql.case_location Freezer) rows)
  = Sql.sum_prices (map Items.price rows).
Proof.
  induction rows as [|it rows IH]; simpl; [reflexivity|].
  unfold Sql.case_location at 1 3 5.
  destruct (Items.location it); simpl; lia.
Qed.

Lemma location_case_nonneg (l : location) (rows : list Items.row) :
  (forall it, In it rows -> 0 < Items.price it) ->
  0 <= Sql.sum_prices (map (Sql.case_location l) rows).
Proof.
  induction rows as [|it rows IH]; intros H; simpl; [lia|].
  assert (0 < Items.price it) by (apply H; now left).
  assert (0 <= Sql.sum_prices (map (Sql.case_location l) rows))
    by (apply IH; intros i Hi; apply H; now right).
  unfold Sql.case_location at 1.
  destruct (location_eqb (Items.location it) l); lia.
Qed.

(** For every period other than 'annual', when the store calls succeed, the
    three location totals of the statistics route are non-negative and add
    up to the prices of the items currently held with a positive price and a
    purchase date inside the period's window; the total spent is the sum of
    the ledger rows recorded inside that window. *)
Theorem spending_location_breakdown :
  forall (period : jsval) (clause : option (Z -> Z)) (w : world),
    faults w = [] ->
    dateFilterClause period = Since clause ->
    let bound := option_map (fun f => f (Calendar.curdate (clock w))) clause in
    exists totalSpent pantrySpent fridgeSpent freezerSpent,
      get_spending period w
      = (Normal (Spending totalSpent pantrySpent fridgeSpent freezerSpent), w)
      /\ totalSpent
         = Sql.sum_prices
             (map PriceHistory.price
                  (filter (fun r => Sql.in_window bound (PriceHistory.recorded_at r))
                          (price_history (db w))))
      /\ pantrySpent + fridgeSpent + freezerSpent
         = Sql.sum_prices
             (map Items.price
                  (filter (fun it => (0 <? Items.price it)
                                     && Sql.in_window bound (Items.purchase_date it))
                          (items (db w))))
      /\ 0 <= pantrySpent /\ 0 <= fridgeSpent /\ 0 <= freezerSpent.
Proof.
  intros period clause w Hf Hc bound.
  do 4 eexists. split; [apply (get_spending_since period clause w Hf Hc)|].
  fold bound.
  assert (Hpos : forall it,
             In it (filter (fun it => (0 <? Items.price it)
                                      && Sql.in_window bound (Items.purchase_date it))
                           (items (db w))) ->
             0 < Items.price it).
  { intros it Hin. apply filter_In in Hin. destruct Hin as [_ Hin].
    apply andb_true_iff in Hin. now apply Z.ltb_lt. }
  split; [reflexivity|].
  split; [apply location_cases_sum|].
  repeat split; now apply location_case_nonneg.
Qed.

Lemma spending_location_breakdown_witness :
  exists totalSpent pantrySpent fridgeSpent freezerSpent,
    get_spending (JStr "month") Sample.pantry
    = (Normal (Spending totalSpent pantrySpent fridgeSpent freezerSpent),
       Sample.pantry)
    /\ pantrySpent + fridgeSpent + freezerSpent = 848.
Proof.
  destruct (spending_location_breakdown (JStr "month")
              (Some (fun today => Calendar.date_sub_months today 1))
              Sample.pantry eq_refl eq_refl)
    as (t & p & f & z & E & _ & Hsum & _).
  exists t, p, f, z. split; [exact E|].
  rewrite Hsum. vm_compute. reflexivity.
Defined.

(** A period that is none of 'week', 'month', 'year' and 'annual' (missing,
    unknown, or 'all') is served as 'all': the same response in every state,
    which, when the store calls succeed, carries the sum of all ledger
    prices as total spent. *)
Theorem spending_unknown_period_is_all :
  forall (period : jsval) (w : world),
    period <> JStr "week" ->
    period <> JStr "month" ->
    period <> JStr "year" ->
    period <> JStr "annual" ->
    get_spending period w = get_spending (JStr "all") w
    /\ (faults w = [] ->
        exists pantrySpent fridgeSpent freezerSpent,
          get_spending period w
          = (Normal (Spending
                       (Sql.sum_prices
                          (map PriceHistory.price (price_history (db w))))
                       pantrySpent fridgeSpent freezerSpent), w)).
Proof.
  intros period w Hw Hm Hy Ha.
  assert (Hc : dateFilterClause period = Since None).
  { destruct period as [| |p]; try reflexivity. simpl.
    destruct (String.eqb_spec p "week"); [subst; contradiction|].
    destruct (String.eqb_spec p "month"); [subst; contradiction|].
    destruct (String.eqb_spec p "year"); [subst; contradiction|].
    destruct (String.eqb_spec p "annual"); [subst; contradiction|].
    reflexivity. }
  split.
  - unfold get_spending. rewrite Hc.
    change (dateFilterClause (JStr "all")) with (Since None).
    now destruct (negb (jsval_eqb period (JStr "all"))).
  - intros Hf. rewrite (get_spending_since period None w Hf Hc).
    simpl option_map. unfold Sql.in_window.
    do 3 eexists. f_equal. f_equal. f_equal. f_equal.
    induction (price_history (db w)) as [|r l IH]; simpl; congruence.
Qed.

Lemma spending_unknown_period_is_all_witness :
  get_spending JUndefined Sample.flaky_pantry
  = get_spending (JStr "all") Sample.flaky_pantry.
Proof.
  apply (spending_unknown_period_is_all JUndefined Sample.flaky_pantry);
    discriminate.
Defined.

Lemma insert_desc_In (y x : Z) (l : list Z) :
  In x (Sql.insert_desc y l) <-> x = y \/ In x l.
Proof.
  induction l as [|z l IH]; simpl.
  - intuition.
  - destruct (z <? y); simpl; [intuition|].
    destruct (Z.eqb_spec z y); simpl.
    + subst. intuition.
    + rewrite IH. intuition.
Qed.

Lemma insert_desc_sorted (y : Z) (l : list Z) :
  strictly_descending l -> strictly_descending (Sql.insert_desc y l).
Proof.
  induction l as [|z l IH]; simpl; intros H.
  - split; [intros ? []|exact I].
  - destruct H as [Hz Hl].
    destruct (z <? y) eqn:E1; simpl.
    + apply Z.ltb_lt in E1. split.
      * intros x [<- | Hx]; [exact E1 | specialize (Hz x Hx); lia].
      * split; assumption.
    + destruct (Z.eqb_spec z y); simpl; [split; assumption|].
      apply Z.ltb_ge in E1. split.
      * intros x Hx. apply insert_desc_In in Hx.
        destruct Hx as [-> | Hx]; [lia | now apply Hz].
      * now apply IH.
Qed.

Lemma years_sorted (ys : list Z) :
  strictly_descending (fold_right Sql.insert_desc [] ys).
Proof.
  induction ys as [|y ys IH]; simpl; [exact I | now apply insert_desc_sorted].
Qed.

Lemma years_In (ys : list Z) (x : Z) :
  In x (fold_right Sql.insert_desc [] ys) <-> In x ys.
Proof.
  induction ys as [|y ys IH]; simpl; [tauto|].
  rewrite insert_desc_In, IH. intuition.
Qed.

Lemma indicator_sum (k c : Z) (ys : list Z) :
  strictly_descending ys ->
  In k ys ->
  Sql.sum_prices (map (fun y => if k =? y then c else 0) ys) = c.
Proof.
  induction ys as [|y ys IH]; simpl; intros Hs Hin; [destruct Hin|].
  destruct Hs as [Hy Hs].
  assert (Hzero : forall l, (forall x, In x l -> x <> k) ->
                    Sql.sum_prices (map (fun y => if k =? y then c else 0) l) = 0).
  { induction l as [|x l IHl]; simpl; intros H; [reflexivity|].
    assert (Hx : (k =? x) = false).
    { apply Z.eqb_neq. intros ->. apply (H x); [now left | reflexivity]. }
    rewrite Hx, IHl; [reflexivity|]. intros z Hz. apply H. now right. }
  destruct Hin as [-> | Hin].
  - rewrite Z.eqb_refl, Hzero; [lia|].
    intros x Hx. specialize (Hy x Hx). lia.
  - assert (Hk : (k =? y) = false)
      by (apply Z.eqb_neq; specialize (Hy k Hin); lia).
    rewrite Hk, IH; auto.
Qed.

Lemma sum_prices_add (f g : Z -> Z) (ys : list Z) :
  Sql.sum_prices (map (fun y => f y + g y) ys)
  = Sql.sum_prices (map f ys) + Sql.sum_prices (map g ys).
Proof. induction ys as [|y ys IH]; simpl; lia. Qed.

Lemma yearly_totals_sum (year : PriceHistory.row -> Z) (ys : list Z)
  (l : list PriceHistory.row) :
  strictly_descending ys ->
  (forall r, In r l -> In (year r) ys) ->
  Sql.sum_prices
    (map (fun y => Sql.sum_prices
                     (map PriceHistory.price (filter (fun r => year r =? y) l)))
         ys)
  = Sql.sum_prices (map PriceHistory.price l).
Proof.
  intros Hs. induction l as [|r l IH]; intros Hin; simpl.
  - induction ys as [|y ys IHy]; simpl; [reflexivity|].
    destruct Hs as [_ Hs]. now rewrite IHy.
  - rewrite (map_ext _
               (fun y => (if year r =? y then PriceHistory.price r else 0)
                         + Sql.sum_prices
                             (map PriceHistory.price
                                  (filter (fun x => year x =? y) l)))).
    + rewrite sum_prices_add, (indicator_sum _ _ ys Hs), IH.
      * reflexivity.
      * intros x Hx. apply Hin. now right.
      * apply Hin. now left.
    + intros y. destruct (year r =? y); reflexivity.
Qed.

(** The annual summary, when the store call succeeds: its years are strictly
    decreasing (most recent first, none twice), they are exactly the years
    in which the ledger has a row, each total is the sum of the prices
    recorded in that year, and the totals add up to the sum of all ledger
    prices. *)
Theorem annual_summary_by_year :
  forall (w : world),
    faults w = [] ->
    exists annualSummary,
      get_spending (JStr "annual") w = (Normal (AnnualSummary annualSummary), w)
      /\ strictly_descending (map fst annualSummary)
      /\ (forall y, In y (map fst annualSummary)
                    <-> exists r, In r (price_history (db w))
                                  /\ Calendar.year_of (PriceHistory.recorded_at r) = y)
      /\ (forall y total,
             In (y, total) annualSummary ->
             total
             = Sql.sum_prices
                 (map PriceHistory.price
                      (filter (fun r => Calendar.year_of (PriceHistory.recorded_at r)
                                        =? y)
                              (price_history (db w)))))
      /\ Sql.sum_prices (map snd annualSummary)
         = Sql.sum_prices (map PriceHistory.price (price_history (db w))).
Proof.
  intros w Hf.
  unfold get_spending.
  change (dateFilterClause (JStr "annual")) with Annual.
  unfold try_catch. rewrite bind_run, (execute_no_fault _ w Hf).
  unfold Sql.select_annual. cbv beta iota zeta. rewrite set_db_same.
  set (year := fun r => Calendar.year_of (PriceHistory.recorded_at r)).
  set (ledger := price_history (db w)).
  set (years := fold_right Sql.insert_desc [] (map year ledger)).
  eexists. split; [reflexivity|].
  rewrite !map_map. simpl.
  split; [rewrite map_id; apply years_sorted|].
  split; [|split].
  - intros y. rewrite map_id. unfold years. rewrite years_In, in_map_iff.
    split; intros (r & H1 & H2); exists r; auto.
  - intros y total Hin. apply in_map_iff in Hin.
    destruct Hin as (y' & [= <- <-] & _). reflexivity.
  - apply yearly_totals_sum; [apply years_sorted|].
    intros r Hr. unfold years. apply years_In.
    exact (in_map year ledger r Hr).
Qed.

Lemma annual_summary_by_year_witness :
  exists annualSummary,
    get_spending (JStr "annual") Sample.pantry
    = (Normal (AnnualSummary annualSummary), Sample.pantry)
    /\ Sql.sum_prices (map snd annualSummary) = 1119.
Proof.
  destruct (annual_summary_by_year Sample.pantry eq_refl)
    as (rows & E & _ & _ & _ & Hsum).
  exists rows. split; [exact E|]. rewrite Hsum. reflexivity.
Defined.

(* ------------------------------------------------------------------ *)
(** ** The query routes never write and never raise *)

(** The statistics route, for every period and whatever throws, answers
    normally and leaves the database as it was; when its first store call
    throws the answer is a 500. *)
Theorem spending_never_writes :
  forall (period : jsval) (w : world),
    exists resp w',
      get_spending period w = (Normal resp, w')
      /\ db w' = db w
      /\ (forall fs, faults w = true :: fs -> exists e, resp = Error 500 e).
Proof.
  intros period [d c fl co fs].
  unfold get_spending.
  destruct (dateFilterClause period) as [clause|];
    unfold try_catch, bind, execute, next_fault, ret, console_error, set_db;
    simpl.
  - destruct fs as [|[|] fs]; simpl.
    + do 2 eexists. split; [reflexivity|]. split; [reflexivity|].
      intros fs0 H. discriminate H.
    + do 2 eexists. split; [reflexivity|]. split; [reflexivity|].
      intros fs0 _. eexists. reflexivity.
    + destruct fs as [|[|] fs]; simpl;
        do 2 eexists; (split; [reflexivity|]); (split; [reflexivity|]);
        intros fs0 H; discriminate H.
  - destruct fs as [|[|] fs]; simpl;
      do 2 eexists; (split; [reflexivity|]); (split; [reflexivity|]);
      intros fs0 H; try discriminate H.
    eexists. reflexivity.
Qed.

Lemma js_not_true (v : jsval) :
  js_not v = true <-> v = JUndefined \/ v = JNull \/ v = JStr "".
Proof.
  destruct v as [| |s]; simpl.
  - intuition.
  - intuition.
  - rewrite String.eqb_eq. split.
    + intros ->. auto.
    + intros [H | [H | H]]; try discriminate. now inversion H.
Qed.

(** The difference route answers 400 when the name, the start date or the
    end date is missing or empty, before any store call: the state of the
    process, pending faults included, is untouched. *)
Theorem difference_missing_parameters :
  forall (name brand : jsval) (startDate endDate : option Z) (w : world),
    js_not name = true \/ startDate = None \/ endDate = None ->
    get_difference name brand startDate endDate w
    = (Normal (Error 400 "Missing required parameters (Item, Start Date, End Date)."),
       w).
Proof.
  intros name brand startDate endDate w H.
  unfold get_difference.
  destruct name as [| |n]; try reflexivity.
  destruct startDate as [s|]; [|reflexivity].
  destruct endDate as [e|]; [|reflexivity].
  destruct H as [H | [H | H]]; try discriminate.
  simpl in H. now rewrite H.
Qed.

Lemma difference_missing_parameters_witness :
  get_difference (JStr "") (JStr "Acme") (Some 1) (Some 2) Sample.flaky_pantry
  = (Normal (Error 400 "Missing required parameters (Item, Start Date, End Date)."),
     Sample.flaky_pantry).
Proof.
  apply (difference_missing_parameters (JStr "") (JStr "Acme") (Some 1) (Some 2)
           Sample.flaky_pantry).
  left. reflexivity.
Defined.

Lemma findClosestPrice_reads (name : string) (brand : jsval) (target : Z)
  (w : world) :
  exists r w', findClosestPrice name brand target w = (r, w') /\ db w' = db w.
Proof.
  destruct w as [d c fl co fs].
  unfold findClosestPrice.
  destruct (null_if_blank brand) as [| |q];
    unfold bind_param, bind, throw, ret, execute, next_fault, set_db,
      Sql.select_closest; simpl.
  - do 2 eexists. split; reflexivity.
  - destruct fs as [|[|] fs]; simpl; do 2 eexists; split; reflexivity.
  - destruct fs as [|[|] fs]; simpl; do 2 eexists; split; reflexivity.
Qed.

(** The difference route, for every request and whatever throws, answers
    normally and leaves the database as it was. *)
Theorem difference_never_writes :
  forall (name brand : jsval) (startDate endDate : option Z) (w : world),
    exists resp w',
      get_difference name brand startDate endDate w = (Normal resp, w')
      /\ db w' = db w.
Proof.
  intros name brand startDate endDate w.
  unfold get_difference.
  destruct name as [| |n]; try (do 2 eexists; split; reflexivity).
  destruct startDate as [s|]; [|do 2 eexists; split; reflexivity].
  destruct endDate as [e|]; [|do 2 eexists; split; reflexivity].
  destruct (String.eqb n ""); [do 2 eexists; split; reflexivity|].
  unfold try_catch. rewrite bind_run.
  destruct (findClosestPrice_reads n (null_if_blank brand) s w)
    as (r1 & w1 & E1 & D1).
  rewrite E1. destruct r1 as [ps|err].
  - rewrite bind_run.
    destruct (findClosestPrice_reads n (null_if_blank brand) e w1)
      as (r2 & w2 & E2 & D2).
    rewrite E2. destruct r2 as [pe|err].
    + destruct ps, pe; unfold ret; do 2 eexists; (split; [reflexivity|]);
        congruence.
    + unfold bind, console_error, ret. do 2 eexists.
      split; [reflexivity|]. simpl. congruence.
  - unfold bind, console_error, ret. do 2 eexists.
    split; [reflexivity|]. simpl. congruence.
Qed.

(* ------------------------------------------------------------------ *)
(** ** Creating and updating items *)

(** The create route answers 400 for a form without name, location,
    purchase date or best-by date.  Without an upload nothing at all
    happens; with one, when the file calls succeed, the uploaded file is
    removed and the database is untouched. *)
Theorem post_item_rejects_incomplete_form :
  forall (f : item_form) (w : world),
    required_fields f = None ->
    (file f = None ->
     post_item f w
     = (Normal (Error 400 "Missing required fields (Name, Location, Dates)."), w))
    /\ (forall filename,
           file f = Some filename ->
           faults w = [] ->
           In (uploaded filename) (files w) ->
           post_item f w
           = (Normal (Error 400 "Missing required fields (Name, Location, Dates)."),
              mkWorld (db w) (clock w)
                      (remove_file (uploaded filename) (files w))
                      (console w) [])).
Proof.
  intros f w Hreq. unfold post_item. rewrite Hreq. split.
  - intros Hfile. unfold unlink_upload. rewrite Hfile. reflexivity.
  - intros filename Hfile Hf Hin.
    unfold unlink_upload. rewrite Hfile.
    unfold try_catch, bind, unlink, next_fault, ret. rewrite Hf.
    assert (Hex : existsb (String.eqb (uploaded filename)) (files w) = true).
    { apply existsb_exists. exists (uploaded filename).
      split; [exact Hin | apply String.eqb_refl]. }
    rewrite Hex. rewrite Hf. reflexivity.
Qed.

Lemma post_item_rejects_incomplete_form_witness :
  post_item (mkForm (JStr "Milk") JUndefined (JStr "Fridge") None
                    (Some Sample.today) (Some 250) JUndefined None)
            Sample.flaky_pantry
  = (Normal (Error 400 "Missing required fields (Name, Location, Dates)."),
     Sample.flaky_pantry).
Proof.
  refine (proj1 (post_item_rejects_incomplete_form
                   (mkForm (JStr "Milk") JUndefined (JStr "Fridge") None
                           (Some Sample.today) (Some 250) JUndefined None)
                   Sample.flaky_pantry _) _); reflexivity.
Defined.

Lemma log_db_frame (name : string) (brand : sqlstr) (price day : Z)
  (d : database) :
  items (log_db name brand price day d) = items d
  /\ reminders (log_db name brand price day d) = reminders d.
Proof.
  unfold log_db. destruct (price <=? 0); [auto|].
  destruct (existsb _ (price_history d)); auto.
Qed.

Lemma update_first_hit (name : string) (brand : sqlstr) (day price : Z)
  (l : list PriceHistory.row) :
  existsb (Sql.unique_conflict name brand day) l = true ->
  exists x,
    Sql.unique_conflict name brand day x = true
    /\ In (PriceHistory.with_price price x)
          (Sql.update_first name brand day price l).
Proof.
  induction l as [|r l IH]; simpl; [discriminate|].
  destruct (Sql.unique_conflict name brand day r) eqn:E; simpl.
  - intros _. exists r. split; [exact E | now left].
  - intros H. destruct (IH H) as (x & Hx & Hin). exists x. auto.
Qed.

Lemma sql_eqb_eq (a b : sqlstr) : sql_eqb a b = true -> a = b.
Proof.
  destruct a, b; simpl; try discriminate.
  intros H. apply String.eqb_eq in H. now subst.
Qed.

Lemma log_db_records (name : string) (brand : sqlstr) (price day : Z)
  (d : database) :
  0 < price ->
  exists r,
    In r (price_history (log_db name brand price day d))
    /\ PriceHistory.item_name r = name
    /\ PriceHistory.item_brand r = brand
    /\ PriceHistory.recorded_at r = day
    /\ PriceHistory.price r = price.
Proof.
  intros Hpos. unfold log_db.
  assert (E : (price <=? 0) = false) by (apply Z.leb_gt; exact Hpos).
  rewrite E.
  destruct (existsb _ (price_history d)) eqn:Hex; simpl.
  - destruct (update_first_hit name brand day price _ Hex) as (x & Hc & Hin).
    exists (PriceHistory.with_price price x). split; [exact Hin|].
    unfold Sql.unique_conflict in Hc.
    apply andb_true_iff in Hc. destruct Hc as [Hc Hd].
    apply andb_true_iff in Hc. destruct Hc as [Hn Hb].
    apply String.eqb_eq in Hn. apply sql_eqb_eq in Hb. apply Z.eqb_eq in Hd.
    simpl. auto.
  - eexists. split; [apply in_or_app; right; now left|]. simpl. auto.
Qed.

Lemma dbBrand_of_twice (brand : jsval) :
  dbBrand_of (dbBrand_of brand) = dbBrand_of brand.
Proof.
  unfold dbBrand_of. destruct brand as [| |b]; simpl; try reflexivity.
  destruct (String.eqb b "") eqn:E; simpl; [reflexivity|].
  now rewrite E.
Qed.

Lemma post_item_no_fault (f : item_form) (w : world)
  (name loc : string) (purchase_date best_by_date : Z) (l : location) :
  faults w = [] ->
  required_fields f = Some (name, loc, purchase_date, best_by_date) ->
  location_of_string loc = Some l ->
  let brand := to_sql (dbBrand_of (body_brand f)) in
  let row := Items.mk (next_item (db w)) name brand l purchase_date best_by_date
                      (price_of f) (to_sql (post_image_path f)) false
                      (current_timestamp (clock w)) in
  post_item f w
  = (Normal (ItemAdded (next_item (db w)) (post_image_path f)),
     set_db (sweep_db (clock w)
               (log_db name brand (price_of f) purchase_date
                  (set_items (fun its => its ++ [row]) Z.succ (db w))))
            w).
Proof.
  intros Hf Hreq Hloc brand row. unfold post_item. rewrite Hreq.
  fold (post_image_path f).
  rewrite bind_param_dbBrand.
  assert (Himg : bind_param (post_image_path f) = ret (to_sql (post_image_path f)))
    by (unfold post_image_path; destruct (file f); reflexivity).
  rewrite Himg.
  unfold try_catch. rewrite !bind_ret_l, bind_run.
  rewrite (execute_no_fault _ w Hf). unfold Sql.insert_item. rewrite Hloc.
  fold brand. fold row.
  set (w1 := set_db _ w).
  assert (Hf1 : faults w1 = []) by exact Hf.
  rewrite bind_run, (logPriceHistory_no_fault _ _ _ _ w1 Hf1).
  rewrite dbBrand_of_twice. fold brand.
  set (w2 := set_db _ w1).
  assert (Hf2 : faults w2 = []) by exact Hf.
  rewrite bind_run, (sweep_no_fault w2 Hf2).
  reflexivity.
Qed.

(** Creating an item, when every store call succeeds and the location is one
    of the three allowed: the route answers 201 with the new id; the item is
    appended with the submitted fields and the normalized brand; every other
    item is as before; a positive price leaves a ledger row under the item's
    name, brand and purchase date; and an item whose best-by date is at most
    three days ahead has its open reminder, with the sweep's message for it
    at that moment, before the response is sent. *)
Theorem post_item_adds_item :
  forall (f : item_form) (w : world) (name loc : string)
         (purchase_date best_by_date : Z) (l : location),
    faults w = [] ->
    required_fields f = Some (name, loc, purchase_date, best_by_date) ->
    location_of_string loc = Some l ->
    let brand := to_sql (dbBrand_of (body_brand f)) in
    let insertId := next_item (db w) in
    let row := Items.mk insertId name brand l purchase_date best_by_date
                        (price_of f) (to_sql (post_image_path f)) false
                        (current_timestamp (clock w)) in
    let w' := snd (post_item f w) in
    fst (post_item f w) = Normal (ItemAdded insertId (post_image_path f))
    /\ items (db w') = items (db w) ++ [row]
    /\ (0 < price_of f ->
        exists r,
          In r (price_history (db w'))
          /\ PriceHistory.item_name r = name
          /\ PriceHistory.item_brand r = brand
          /\ PriceHistory.recorded_at r = purchase_date)
    /\ (best_by_date - Calendar.curdate (clock w) <= 3 ->
        exists r,
          In r (reminders (db w'))
          /\ Reminders.item_id r = Some insertId
          /\ Reminders.is_closed r = false
          /\ Reminders.message r = reminder_message row (clock w)).
Proof.
  intros f w name loc purchase_date best_by_date l Hf Hreq Hloc
         brand insertId row w'.
  subst w'. rewrite (post_item_no_fault f w name loc _ _ l Hf Hreq Hloc).
  fold brand insertId row. cbv beta iota delta [fst snd].
  set (d1 := set_items (fun its => its ++ [row]) Z.succ (db w)).
  set (d2 := log_db name brand (price_of f) purchase_date d1).
  destruct (sweep_db_shape (clock w) d2) as (Hi & Hp & _).
  destruct (log_db_frame name brand (price_of f) purchase_date d1) as [Hi2 _].
  assert (Hitems : items (sweep_db (clock w) d2) = items (db w) ++ [row]).
  { destruct w as [d c fl co fs]. simpl in *. rewrite Hi. fold d2 in Hi2.
    rewrite Hi2. reflexivity. }
  destruct w as [d c fl co fs]. simpl db. simpl clock in *.
  split; [reflexivity|]. split; [exact Hitems|]. split.
  - intros Hpos. rewrite Hp.
    destruct (log_db_records name brand (price_of f) purchase_date d1 Hpos)
      as (r & Hr & Hn & Hb & Hd & _).
    exists r. auto.
  - intros Hexp.
    destruct (sweep_db_reminded c d2 row) as (r & Hr & Hid & Hm & Ho).
    { apply expiring_In. split.
      - fold d2 in Hi2. rewrite Hi2. simpl. apply in_or_app. right. now left.
      - exact Hexp. }
    exists r. repeat split; auto.
Qed.

Lemma post_item_adds_item_witness :
  fst (post_item Sample.form Sample.pantry) = Normal (ItemAdded 5 JNull)
  /\ exists r,
       In r (reminders (db (snd (post_item Sample.form Sample.pantry))))
       /\ Reminders.item_id r = Some 5
       /\ Reminders.is_closed r = false
       /\ Reminders.message r = (WARNING ++ "Milk expires in 2 day(s).")%string.
Proof.
  pose proof (post_item_adds_item Sample.form Sample.pantry "Milk" "Fridge"
                Sample.today (Sample.today + 2) Fridge eq_refl eq_refl eq_refl)
    as H.
  cbv zeta in H. destruct H as (Hresp & _ & _ & Hrem).
  split; [exact Hresp|].
  apply Hrem. vm_compute. intro E. discriminate E.
Defined.

Lemma put_item_no_fault (itemId : Z) (f : item_form) (w : world)
  (name loc p : string) (purchase_date best_by_date : Z) (l : location) :
  faults w = [] ->
  required_fields f = Some (name, loc, purchase_date, best_by_date) ->
  location_of_string loc = Some l ->
  file f = None ->
  current_image_path f = JStr p ->
  p <> "DELETE_FLAG" ->
  let brand := to_sql (dbBrand_of (body_brand f)) in
  let rewrite_row := fun it =>
    if Items.id it =? itemId
    then Items.mk (Items.id it) name brand l purchase_date best_by_date
                  (price_of f) (Some p) (Items.is_spoiled it)
                  (Items.created_at it)
    else it in
  put_item itemId f w
  = (Normal (ItemUpdated (JStr p)),
     set_db (sweep_db (clock w)
               (log_db name brand (price_of f) purchase_date
                  (set_items (map rewrite_row) (fun n => n) (db w))))
            w).
Proof.
  intros Hf Hreq Hloc Hfile Hcur Hflag brand rewrite_row.
  unfold put_item, image_change. rewrite Hfile, Hcur.
  assert (E : jsval_eqb (JStr p) (JStr "DELETE_FLAG") = false)
    by (simpl; now apply String.eqb_neq).
  rewrite E. unfold try_catch. rewrite bind_ret_l, Hreq.
  rewrite bind_param_dbBrand, bind_ret_l.
  unfold bind_param at 1. rewrite bind_ret_l, bind_run.
  rewrite (execute_no_fault _ w Hf). unfold Sql.update_item. rewrite Hloc.
  fold brand. simpl to_sql. fold rewrite_row.
  set (w1 := set_db _ w).
  assert (Hf1 : faults w1 = []) by exact Hf.
  unfold unlink_old. rewrite bind_ret_l.
  rewrite bind_run, (logPriceHistory_no_fault _ _ _ _ w1 Hf1).
  rewrite dbBrand_of_twice. fold brand.
  set (w2 := set_db _ w1).
  assert (Hf2 : faults w2 = []) by exact Hf.
  rewrite bind_run, (sweep_no_fault w2 Hf2).
  reflexivity.
Qed.

Lemma map_untouched {A : Type} (f : A -> A) (l : list A) :
  (forall x, In x l -> f x = x) -> map f l = l.
Proof.
  induction l as [|x l IH]; simpl; intros H; [reflexivity|].
  rewrite (H x) by now left. rewrite IH; [reflexivity|].
  intros y Hy. apply H. now right.
Qed.

(** Updating an item, when every store call succeeds, the location is
    allowed and the image is kept: the route answers 200 whether or not a row
    has the id; the rows with that id take the submitted fields and keep
    their id, spoiled flag and creation time; every other row is as before,
    so that an id no row has leaves the items table unchanged; and in every
    case a positive price leaves a ledger row under the submitted name,
    brand and purchase date. *)
Theorem put_item_rewrites_matching_rows :
  forall (itemId : Z) (f : item_form) (w : world) (name loc p : string)
         (purchase_date best_by_date : Z) (l : location),
    faults w = [] ->
    required_fields f = Some (name, loc, purchase_date, best_by_date) ->
    location_of_string loc = Some l ->
    file f = None ->
    current_image_path f = JStr p ->
    p <> "DELETE_FLAG" ->
    let brand := to_sql (dbBrand_of (body_brand f)) in
    let w' := snd (put_item itemId f w) in
    fst (put_item itemId f w) = Normal (ItemUpdated (JStr p))
    /\ items (db w')
       = map (fun it =>
                if Items.id it =? itemId
                then Items.mk (Items.id it) name brand l purchase_date
                              best_by_date (price_of f) (Some p)
                              (Items.is_spoiled it) (Items.created_at it)
                else it)
             (items (db w))
    /\ ((forall it, In it (items (db w)) -> Items.id it <> itemId) ->
        items (db w') = items (db w))
    /\ (0 < price_of f ->
        exists r,
          In r (price_history (db w'))
          /\ PriceHistory.item_name r = name
          /\ PriceHistory.item_brand r = brand
          /\ PriceHistory.recorded_at r = purchase_date).
Proof.
  intros itemId f w name loc p purchase_date best_by_date l
         Hf Hreq Hloc Hfile Hcur Hflag brand w'.
  subst w'.
  rewrite (put_item_no_fault itemId f w name loc p _ _ l
             Hf Hreq Hloc Hfile Hcur Hflag).
  fold brand. cbv beta iota delta [fst snd].
  set (rewrite_row := fun it : Items.row => if Items.id it =? itemId then _ else it).
  set (d1 := set_items (map rewrite_row) (fun n => n) (db w)).
  set (d2 := log_db name brand (price_of f) purchase_date d1).
  assert (Hitems : items (sweep_db (clock w) d2) = map rewrite_row (items (db w))).
  { rewrite (proj1 (sweep_db_shape (clock w) d2)).
    unfold d2. rewrite (proj1 (log_db_frame _ _ _ _ d1)). reflexivity. }
  split; [reflexivity|]. split; [exact Hitems|]. split.
  - intros Habsent. simpl db. rewrite Hitems.
    apply map_untouched. intros it Hin. unfold rewrite_row.
    specialize (Habsent it Hin). apply Z.eqb_neq in Habsent.
    now rewrite Habsent.
  - intros Hpos. simpl db.
    rewrite (proj1 (proj2 (sweep_db_shape (clock w) d2))).
    destruct (log_db_records name brand (price_of f) purchase_date d1 Hpos)
      as (r & Hr & Hn & Hb & Hd & _).
    exists r. auto.
Qed.

Lemma put_item_rewrites_matching_rows_witness :
  fst (put_item 2 Sample.form Sample.pantry) = Normal (ItemUpdated (JStr ""))
  /\ items (db (snd (put_item 2 Sample.form Sample.pantry)))
     = [ Sample.milk;
         Items.mk 2 "Milk" None Fridge Sample.today (Sample.today + 2) 275
                  (Some "") false 0;
         Sample.rice; Sample.soup ]
  /\ exists r,
       In r (price_history (db (snd (put_item 2 Sample.form Sample.pantry))))
       /\ PriceHistory.item_name r = "Milk"
       /\ PriceHistory.item_brand r = None
       /\ PriceHistory.recorded_at r = Sample.today.
Proof.
  assert (Hflag : "" <> "DELETE_FLAG") by discriminate.
  pose proof (put_item_rewrites_matching_rows 2 Sample.form Sample.pantry
                "Milk" "Fridge" "" Sample.today (Sample.today + 2) Fridge
                eq_refl eq_refl eq_refl eq_refl eq_refl Hflag) as H.
  cbv zeta in H. destruct H as (Hresp & Hitems & _ & Hledger).
  split; [exact Hresp|]. split; [exact Hitems|].
  apply Hledger. reflexivity.
Defined.

(* ------------------------------------------------------------------ *)
(** ** Deleting items *)

Lemma unlink_image_returns (imagePath : sqlstr) (w : world) :
  exists w', unlink_image imagePath w = (Normal tt, w') /\ db w' = db w.
Proof.
  destruct w as [d c fl co fs].
  destruct imagePath as [p|]; simpl; [|eexists; split; reflexivity].
  destruct (String.eqb p ""); [eexists; split; reflexivity|].
  unfold try_catch, unlink, next_fault, console_error. simpl.
  destruct fs as [|[|] fs]; simpl;
    try (eexists; split; reflexivity);
    destruct (existsb (String.eqb p) fl); eexists; split; reflexivity.
Qed.

Lemma hit_count_nonzero {A : Type} (hit : A -> bool) (l : list A) :
  existsb hit l = true ->
  (Z.of_nat (List.length (filter hit l)) =? 0) = false.
Proof.
  intros H. apply Z.eqb_neq.
  apply existsb_exists in H. destruct H as (x & Hin & Hx).
  assert (In x (filter hit l)) by (apply filter_In; auto).
  destruct (filter hit l); [contradiction | simpl; lia].
Qed.

Lemma hit_absent {A : Type} (hit : A -> bool) (l : list A) :
  (forall x, In x l -> hit x = false) -> existsb hit l = false.
Proof.
  induction l as [|x l IH]; simpl; intros H; [reflexivity|].
  rewrite (H x) by now left. apply IH. intros y Hy. apply H. now right.
Qed.

Lemma delete_item_present (itemId : Z) (w : world) :
  faults w = [] ->
  existsb (fun it => Items.id it =? itemId) (items (db w)) = true ->
  exists w',
    delete_item itemId w = (Normal (Done "Item deleted successfully"), w')
    /\ clock w' = clock w
    /\ db w'
       = mkDatabase
           (filter (fun it => negb (Items.id it =? itemId)) (items (db w)))
           (filter (fun r => negb (Crud.references itemId r)) (reminders (db w)))
           (price_history (db w))
           (next_item (db w)) (next_reminder (db w)) (next_price (db w)).
Proof.
  intros Hf Hex. unfold delete_item.
  unfold try_catch. rewrite bind_run, (execute_no_fault _ w Hf).
  unfold Sql.select_image_path at 1. rewrite set_db_same.
  rewrite bind_run, (execute_no_fault _ w Hf).
  unfold Crud.delete_item. rewrite Hex.
  rewrite (hit_count_nonzero _ _ Hex).
  rewrite bind_run.
  match goal with
  | |- context [unlink_image ?p ?w0] =>
      destruct (unlink_image_returns p w0) as (w' & E & D); rewrite E
  end.
  unfold ret. exists w'. split; [reflexivity|].
  split; [|rewrite D; reflexivity].
  clear - E. destruct w as [d c fl co fs].
  match type of E with
  | unlink_image ?p _ = _ => destruct p as [q|]
  end; simpl in E.
  - destruct (String.eqb q ""); [now inversion E|].
    unfold try_catch, unlink, next_fault, console_error in E. simpl in E.
    destruct fs as [|[|] fs]; simpl in E;
      try (now inversion E);
      destruct (existsb (String.eqb q) fl); now inversion E.
  - now inversion E.
Qed.

Lemma references_true (itemId : Z) (r : Reminders.row) :
  Crud.references itemId r = true <-> Reminders.item_id r = Some itemId.
Proof.
  unfold Crud.references. destruct (Reminders.item_id r) as [i|].
  - rewrite Z.eqb_eq. split; [now intros -> | now intros [= ->]].
  - split; discriminate.
Qed.

(** Deleting an item, when the store calls succeed.  An id no item has gives
    404 and changes nothing.  Otherwise the route answers success, the item
    is gone, every reminder that referenced it is gone with it, no other
    reminder is touched, and the price ledger is exactly as before. *)
Theorem delete_item_cascades :
  forall (itemId : Z) (w : world),
    faults w = [] ->
    let w' := snd (delete_item itemId w) in
    ((forall it, In it (items (db w)) -> Items.id it <> itemId) ->
     delete_item itemId w = (Normal (Failed 404 "Item not found"), w))
    /\ ((exists it, In it (items (db w)) /\ Items.id it = itemId) ->
        fst (delete_item itemId w) = Normal (Done "Item deleted successfully")
        /\ (forall it, In it (items (db w')) <->
                       In it (items (db w)) /\ Items.id it <> itemId)
        /\ (forall r, In r (reminders (db w')) <->
                      In r (reminders (db w))
                      /\ Reminders.item_id r <> Some itemId)
        /\ price_history (db w') = price_history (db w)).
Proof.
  intros itemId w Hf w'. split.
  - intros Habsent. unfold delete_item.
    unfold try_catch. rewrite bind_run, (execute_no_fault _ w Hf).
    unfold Sql.select_image_path at 1. rewrite set_db_same.
    rewrite bind_run, (execute_no_fault _ w Hf).
    unfold Crud.delete_item.
    rewrite hit_absent; [now rewrite set_db_same|].
    intros it Hin. apply Z.eqb_neq. now apply Habsent.
  - intros (it & Hin & Hid).
    assert (Hex : existsb (fun it => Items.id it =? itemId) (items (db w)) = true).
    { apply existsb_exists. exists it. split; [exact Hin | now apply Z.eqb_eq]. }
    destruct (delete_item_present itemId w Hf Hex) as (w1 & E & _ & D).
    subst w'. rewrite E. cbv beta iota delta [fst snd]. rewrite D. simpl.
    split; [reflexivity|]. split; [|split; [|reflexivity]].
    + intros x. rewrite filter_In, negb_true_iff, Z.eqb_neq. reflexivity.
    + intros r. rewrite filter_In, negb_true_iff.
      rewrite <- not_true_iff_false, references_true. reflexivity.
Qed.

Lemma delete_item_cascades_witness :
  fst (delete_item 2 Sample.pantry) = Normal (Done "Item deleted successfully")
  /\ ~ In Sample.boundary_closed
          (reminders (db (snd (delete_item 2 Sample.pantry))))
  /\ price_history (db (snd (delete_item 2 Sample.pantry))) = Sample.ledger.
Proof.
  pose proof (delete_item_cascades 2 Sample.pantry eq_refl) as H.
  cbv zeta in H. destruct H as [_ H].
  destruct H as (Hresp & _ & Hrem & Hledger).
  { exists Sample.eggs. split; [right; left; reflexivity | reflexivity]. }
  split; [exact Hresp | split; [|exact Hledger]].
  intros Hin. apply Hrem in Hin. destruct Hin as [_ Hne].
  apply Hne. reflexivity.
Defined.

(** Once an item is deleted, no sweep brings a reminder for it back: after
    the deletion (store calls succeeding), a sweep, whatever throws in it,
    leaves no reminder that references the deleted id. *)
Theorem deleted_item_gets_no_reminder :
  forall (itemId : Z) (w : world) (fs : list bool),
    faults w = [] ->
    (exists it, In it (items (db w)) /\ Items.id it = itemId) ->
    let w1 := snd (delete_item itemId w) in
    let w2 := snd (checkExpirationAndGenerateReminders
                     (mkWorld (db w1) (clock w1) (files w1) (console w1) fs)) in
    forall r, In r (reminders (db w2)) -> Reminders.item_id r <> Some itemId.
Proof.
  intros itemId w fs Hf (it & Hin & Hid) w1 w2 r Hr.
  assert (Hex : existsb (fun it => Items.id it =? itemId) (items (db w)) = true).
  { apply existsb_exists. exists it. split; [exact Hin | now apply Z.eqb_eq]. }
  destruct (delete_item_present itemId w Hf Hex) as (w' & E & C & D).
  subst w2 w1. rewrite E in Hr.
  change (snd (Normal (Done "Item deleted successfully"), w')) with w' in Hr.
  set (w0 := mkWorld (db w') (clock w') (files w') (console w') fs) in Hr.
  assert (Hbefore : forall x, In x (reminders (db w0)) ->
                              Reminders.item_id x <> Some itemId).
  { intros x Hx. simpl in Hx. rewrite D in Hx. simpl in Hx.
    apply filter_In in Hx. destruct Hx as [_ Hx].
    apply negb_true_iff in Hx. rewrite <- not_true_iff_false in Hx.
    now rewrite references_true in Hx. }
  destruct (sweep_reminders w0) as [Heq | (added & Heq & Hall)];
    cbv zeta in Heq; rewrite Heq in Hr.
  - now apply Hbefore.
  - apply in_app_or in Hr. destruct Hr as [Hr | Hr].
    + apply filter_In in Hr. now apply Hbefore.
    + rewrite Forall_forall in Hall.
      destruct (Hall r Hr) as [_ (i & Hi & Hrid & _)].
      apply expiring_In in Hi. destruct Hi as [Hi _].
      simpl in Hi. rewrite D in Hi. simpl in Hi.
      apply filter_In in Hi. destruct Hi as [_ Hi].
      apply negb_true_iff, Z.eqb_neq in Hi.
      rewrite Hrid. intros [= H]. now apply Hi.
Qed.

Lemma deleted_item_gets_no_reminder_witness :
  Forall (fun r => Reminders.item_id r <> Some 1)
         (reminders
            (db (snd (checkExpirationAndGenerateReminders
                        (mkWorld (db (snd (delete_item 1 Sample.pantry)))
                                 (clock (snd (delete_item 1 Sample.pantry)))
                                 (files (snd (delete_item 1 Sample.pantry)))
                                 (console (snd (delete_item 1 Sample.pantry)))
                                 [false; false; true]))))).
Proof.
  apply Forall_forall.
  apply (deleted_item_gets_no_reminder 1 Sample.pantry [false; false; true]).
  - reflexivity.
  - exists Sample.milk. split; [left; reflexivity | reflexivity].
Defined.

(* ------------------------------------------------------------------ *)
(** ** Listings *)

Lemma insert_by_perm {A : Type} (key : A -> Z) (x : A) (l : list A) :
  Permutation (insert_by key x l) (x :: l).
Proof.
  induction l as [|y l IH]; simpl; [apply Permutation_refl|].
  destruct (key x <=? key y); [apply Permutation_refl|].
  eapply Permutation_trans; [apply perm_skip, IH | apply perm_swap].
Qed.

Lemma order_asc_perm {A : Type} (key : A -> Z) (l : list A) :
  Permutation (order_asc key l) l.
Proof.
  induction l as [|x l IH]; simpl; [apply Permutation_refl|].
  eapply Permutation_trans; [apply insert_by_perm | now apply perm_skip].
Qed.

Lemma insert_by_ascending {A : Type} (key : A -> Z) (x : A) (l : list A) :
  ascending (map key l) -> ascending (map key (insert_by key x l)).
Proof.
  induction l as [|y l IH]; simpl; intros H.
  - split; [intros ? [] | exact I].
  - destruct H as [Hy Hl].
    destruct (key x <=? key y) eqn:E; simpl.
    + apply Z.leb_le in E. split.
      * intros k [<- | Hk]; [exact E | specialize (Hy k Hk); lia].
      * split; assumption.
    + apply Z.leb_gt in E. split.
      * intros k Hk. apply in_map_iff in Hk. destruct Hk as (z & <- & Hz).
        apply (Permutation_in _ (insert_by_perm key x l)) in Hz.
        destruct Hz as [<- | Hz]; [lia|].
        apply Hy. now apply in_map.
      * now apply IH.
Qed.

Lemma order_asc_ascending {A : Type} (key : A -> Z) (l : list A) :
  ascending (map key (order_asc key l)).
Proof.
  induction l as [|x l IH]; simpl; [exact I | now apply insert_by_ascending].
Qed.

Lemma ascending_negated {A : Type} (key : A -> Z) (l : list A) :
  ascending (map (fun x => - key x) l) -> descending (map key l).
Proof.
  induction l as [|x l IH]; simpl; [auto|].
  intros [Hx Hl]. split; [|now apply IH].
  intros k Hk. apply in_map_iff in Hk. destruct Hk as (z & <- & Hz).
  assert (- key x <= - key z)
    by (apply Hx; apply (in_map (fun x => - key x)); exact Hz).
  lia.
Qed.

Lemma order_desc_descending {A : Type} (key : A -> Z) (l : list A) :
  descending (map key (order_desc key l)).
Proof. apply ascending_negated, order_asc_ascending. Qed.

Lemma partition_perm {A : Type} (f : A -> bool) (l : list A) :
  Permutation (filter (fun x => negb (f x)) l ++ filter f l) l.
Proof.
  induction l as [|x l IH]; simpl; [apply Permutation_refl|].
  destruct (f x); simpl.
  - apply Permutation_sym, Permutation_cons_app, Permutation_sym, IH.
  - now apply perm_skip.
Qed.

Lemma perm_Forall {A : Type} (P : A -> Prop) (l l' : list A) :
  Permutation l l' -> Forall P l' -> Forall P l.
Proof.
  intros Hp H. apply Forall_forall. intros x Hx.
  rewrite Forall_forall in H. apply H. now apply (Permutation_in _ Hp).
Qed.

Lemma filter_Forall {A : Type} (f : A -> bool) (l : list A) :
  Forall (fun x => f x = true) (filter f l).
Proof.
  apply Forall_forall. intros x Hx. apply filter_In in Hx. tauto.
Qed.

Lemma get_reminders_no_fault (w : world) :
  faults w = [] ->
  get_reminders w
  = (Normal (ReminderRows
               (order_asc Reminders.created_at
                  (filter (fun r => negb (Reminders.is_closed r))
                          (reminders (db w))))
               (order_desc Reminders.created_at
                  (filter Reminders.is_closed (reminders (db w))))), w).
Proof.
  intros Hf. unfold get_reminders, try_catch.
  rewrite bind_run, (execute_no_fault _ w Hf).
  unfold Crud.select_active at 1. rewrite set_db_same.
  rewrite bind_run, (execute_no_fault _ w Hf).
  unfold Crud.select_closed at 1. rewrite set_db_same.
  reflexivity.
Qed.

(** The reminders listing, when the store calls succeed: the active and the
    closed list together hold every row of the table exactly once, the
    active list has the open rows in ascending order of creation, the closed
    list the closed rows in descending order of creation, and nothing is
    written. *)
Theorem get_reminders_partitions_table :
  forall (w : world),
    faults w = [] ->
    exists active closed,
      get_reminders w = (Normal (ReminderRows active closed), w)
      /\ Permutation (active ++ closed) (reminders (db w))
      /\ Forall (fun r => Reminders.is_closed r = false) active
      /\ Forall (fun r => Reminders.is_closed r = true) closed
      /\ ascending (map Reminders.created_at active)
      /\ descending (map Reminders.created_at closed).
Proof.
  intros w Hf. do 2 eexists.
  split; [apply (get_reminders_no_fault w Hf)|].
  split; [|split; [|split; [|split]]].
  - eapply Permutation_trans; [|apply (partition_perm Reminders.is_closed)].
    apply Permutation_app; apply order_asc_perm.
  - eapply perm_Forall; [apply order_asc_perm|].
    eapply Forall_impl; [|apply filter_Forall].
    intros r Hr. now apply negb_true_iff.
  - eapply perm_Forall; [apply order_asc_perm | apply filter_Forall].
  - apply order_asc_ascending.
  - apply order_desc_descending.
Qed.

Lemma get_reminders_partitions_table_witness :
  exists active closed,
    get_reminders Sample.pantry = (Normal (ReminderRows active closed), Sample.pantry)
    /\ Permutation (active ++ closed) (reminders (db Sample.pantry)).
Proof.
  destruct (get_reminders_partitions_table Sample.pantry eq_refl)
    as (active & closed & E & Hp & _).
  exists active, closed. split; assumption.
Defined.

(** The items listing, when the store call succeeds, holds every item
    exactly once, highest id first, and nothing is written. *)
Theorem get_items_newest_first :
  forall (w : world),
    faults w = [] ->
    exists rows,
      get_items w = (Normal (ItemRows rows), w)
      /\ Permutation rows (items (db w))
      /\ descending (map Items.id rows).
Proof.
  intros w Hf. eexists. split; [|split].
  - unfold get_items, try_catch.
    rewrite bind_run, (execute_no_fault _ w Hf).
    unfold Crud.select_items. rewrite set_db_same. reflexivity.
  - apply order_asc_perm.
  - apply order_desc_descending.
Qed.

Lemma get_items_newest_first_witness :
  exists rows,
    get_items Sample.pantry = (Normal (ItemRows rows), Sample.pantry)
    /\ Permutation rows (items (db Sample.pantry))
    /\ descending (map Items.id rows).
Proof. exact (get_items_newest_first Sample.pantry eq_refl). Defined.

(* ------------------------------------------------------------------ *)
(** ** Closing and deleting reminders *)

Lemma set_reminders_same (l : list Reminders.row) (d : database) :
  l = reminders d ->
  set_reminders (fun _ => l) (fun n => n) d = d.
Proof. intros ->. destruct d; reflexivity. Qed.

Lemma put_reminder_close_no_fault (reminderId : Z) (w : world) :
  faults w = [] ->
  exists resp,
    put_reminder_close reminderId w
    = (Normal resp,
       set_db (set_reminders
                 (map (fun r => if Reminders.id r =? reminderId
                                then Crud.closed_copy r else r))
                 (fun n => n) (db w)) w)
    /\ (existsb (fun r => Reminders.id r =? reminderId) (reminders (db w)) = true ->
        resp = Done "Reminder closed successfully")
    /\ (existsb (fun r => Reminders.id r =? reminderId) (reminders (db w)) = false ->
        resp = Failed 404 "Reminder not found").
Proof.
  intros Hf. unfold put_reminder_close, try_catch.
  rewrite bind_run, (execute_no_fault _ w Hf).
  unfold Crud.close_reminder. cbv beta iota zeta.
  destruct (existsb (fun r => Reminders.id r =? reminderId) (reminders (db w)))
    eqn:Hex.
  - rewrite (hit_count_nonzero _ _ Hex). eexists.
    split; [reflexivity|]. split; [reflexivity | discriminate].
  - assert (Hnone : filter (fun r => Reminders.id r =? reminderId)
                           (reminders (db w)) = []).
    { clear - Hex. induction (reminders (db w)) as [|r l IH]; simpl in *;
        [reflexivity|].
      destruct (Reminders.id r =? reminderId); simpl in *;
        [discriminate | now apply IH]. }
    rewrite Hnone. simpl. eexists.
    split; [reflexivity|]. split; [discriminate | reflexivity].
Qed.

(** Closing a reminder, when the store call succeeds.  An id no reminder has
    gives 404 and changes nothing.  When an open reminder has the id, the
    route answers success; afterwards every reminder with that id is closed
    and otherwise as it was, every other reminder is untouched, and so are
    the items and the ledger. *)
Theorem put_reminder_close_closes :
  forall (reminderId : Z) (w : world),
    faults w = [] ->
    let w' := snd (put_reminder_close reminderId w) in
    ((forall r, In r (reminders (db w)) -> Reminders.id r <> reminderId) ->
     fst (put_reminder_close reminderId w)
     = Normal (Failed 404 "Reminder not found")
     /\ db w' = db w)
    /\ ((exists r, In r (reminders (db w))
                   /\ Reminders.id r = reminderId
                   /\ Reminders.is_closed r = false) ->
        fst (put_reminder_close reminderId w)
        = Normal (Done "Reminder closed successfully")
        /\ reminders (db w')
           = map (fun r => if Reminders.id r =? reminderId
                           then Crud.closed_copy r else r)
                 (reminders (db w))
        /\ (forall r, In r (reminders (db w')) ->
                      Reminders.id r = reminderId ->
                      Reminders.is_closed r = true)
        /\ (forall r, In r (reminders (db w)) ->
                      Reminders.id r <> reminderId ->
                      In r (reminders (db w')))
        /\ items (db w') = items (db w)
        /\ price_history (db w') = price_history (db w)).
Proof.
  intros reminderId w Hf w'.
  destruct (put_reminder_close_no_fault reminderId w Hf)
    as (resp & E & Hfound & Hmissing).
  subst w'. rewrite E. cbv beta iota delta [fst snd]. split.
  - intros Habsent.
    assert (Hex : existsb (fun r => Reminders.id r =? reminderId)
                          (reminders (db w)) = false).
    { apply hit_absent. intros r Hr. apply Z.eqb_neq. now apply Habsent. }
    split; [now rewrite (Hmissing Hex)|].
    simpl. unfold set_reminders. rewrite map_untouched.
    + destruct (db w); reflexivity.
    + intros r Hr. specialize (Habsent r Hr).
      apply Z.eqb_neq in Habsent. now rewrite Habsent.
  - intros (r0 & Hin0 & Hid0 & _).
    assert (Hex : existsb (fun r => Reminders.id r =? reminderId)
                          (reminders (db w)) = true).
    { apply existsb_exists. exists r0. split; [exact Hin0 | now apply Z.eqb_eq]. }
    split; [now rewrite (Hfound Hex)|]. simpl.
    split; [reflexivity|]. split; [|split; [|split; reflexivity]].
    + intros r Hr Hid. apply in_map_iff in Hr. destruct Hr as (x & Hx & _).
      destruct (Z.eqb_spec (Reminders.id x) reminderId) as [Hxid | Hxid].
      * subst r. reflexivity.
      * subst r. contradiction.
    + intros r Hr Hid. apply in_map_iff. exists r. split; [|exact Hr].
      apply Z.eqb_neq in Hid. now rewrite Hid.
Qed.

Lemma put_reminder_close_closes_witness :
  fst (put_reminder_close 3 Sample.pantry)
  = Normal (Done "Reminder closed successfully")
  /\ In (Crud.closed_copy Sample.old_open)
        (reminders (db (snd (put_reminder_close 3 Sample.pantry)))).
Proof.
  pose proof (put_reminder_close_closes 3 Sample.pantry eq_refl) as H.
  cbv zeta in H. destruct H as [_ H].
  destruct H as (Hresp & Hrows & _).
  { exists Sample.old_open.
    split; [right; right; left; reflexivity | split; reflexivity]. }
  split; [exact Hresp|].
  rewrite Hrows. right; right; left; reflexivity.
Defined.

(** Deleting an active reminder, when the store call succeeds.  If every
    reminder with the id is closed, or none has it, the route answers 404
    and changes nothing: a closed reminder cannot be deleted this way.  If
    an open reminder has the id the route answers success and exactly the
    open reminders with that id are gone. *)
Theorem delete_reminder_active_only_open :
  forall (reminderId : Z) (w : world),
    faults w = [] ->
    let w' := snd (delete_reminder_active reminderId w) in
    ((forall r, In r (reminders (db w)) ->
                Reminders.id r = reminderId ->
                Reminders.is_closed r = true) ->
     fst (delete_reminder_active reminderId w)
     = Normal (Failed 404 "Active reminder not found")
     /\ db w' = db w)
    /\ ((exists r, In r (reminders (db w))
                   /\ Reminders.id r = reminderId
                   /\ Reminders.is_closed r = false) ->
        fst (delete_reminder_active reminderId w)
        = Normal (Done "Active reminder deleted successfully")
        /\ (forall r, In r (reminders (db w')) <->
                      In r (reminders (db w))
                      /\ ~ (Reminders.id r = reminderId
                            /\ Reminders.is_closed r = false))
        /\ items (db w') = items (db w)
        /\ price_history (db w') = price_history (db w)).
Proof.
  intros reminderId w Hf w'. subst w'.
  unfold delete_reminder_active, try_catch.
  rewrite bind_run, (execute_no_fault _ w Hf).
  unfold Crud.delete_active. cbv beta iota zeta.
  set (hit := fun r => (Reminders.id r =? reminderId)
                       && negb (Reminders.is_closed r)).
  assert (Hhit : forall r, hit r = true
                           <-> Reminders.id r = reminderId
                               /\ Reminders.is_closed r = false).
  { intros r. unfold hit.
    now rewrite andb_true_iff, Z.eqb_eq, negb_true_iff. }
  split.
  - intros Hclosed.
    assert (Hnone : forall r, In r (reminders (db w)) -> hit r = false).
    { intros r Hr. apply not_true_iff_false. intros H.
      apply Hhit in H. destruct H as [Hid Ho].
      specialize (Hclosed r Hr Hid). congruence. }
    assert (Hf0 : filter hit (reminders (db w)) = []).
    { clear - Hnone. induction (reminders (db w)) as [|r l IH]; simpl;
        [reflexivity|].
      rewrite (Hnone r) by now left.
      apply IH. intros x Hx. apply Hnone. now right. }
    rewrite Hf0. simpl. split; [reflexivity|].
    unfold set_reminders. rewrite filter_all.
    + destruct (db w); reflexivity.
    + apply Forall_forall. intros r Hr.
      apply negb_true_iff. exact (Hnone r Hr).
  - intros (r0 & Hin0 & Hid0 & Ho0).
    assert (Hex : existsb hit (reminders (db w)) = true).
    { apply existsb_exists. exists r0. split; [exact Hin0 | now apply Hhit]. }
    rewrite (hit_count_nonzero _ _ Hex). simpl.
    split; [reflexivity|]. split; [|split; reflexivity].
    intros r. rewrite filter_In, negb_true_iff.
    split; intros [H1 H2]; (split; [exact H1|]).
    + change (hit r = false) in H2. intros H.
      apply (proj2 (Hhit r)) in H. congruence.
    + change (hit r = false). apply not_true_iff_false.
      intros H. apply H2. now apply Hhit.
Qed.

Lemma delete_reminder_active_only_open_witness :
  fst (delete_reminder_active 1 Sample.pantry)
  = Normal (Failed 404 "Active reminder not found")
  /\ db (snd (delete_reminder_active 1 Sample.pantry)) = db Sample.pantry.
Proof.
  refine (proj1 (delete_reminder_active_only_open 1 Sample.pantry eq_refl) _).
  intros r [<- | [<- | [<- | [<- | []]]]] Hid;
    try reflexivity; discriminate Hid.
Defined.

Lemma filter_none {A : Type} (f g : A -> bool) (l : list A) :
  (forall x, g x = true -> f x = false) -> filter f (filter g l) = [].
Proof.
  intros H. induction l as [|x l IH]; simpl; [reflexivity|].
  destruct (g x) eqn:E; simpl; [|exact IH].
  now rewrite (H x E).
Qed.

(** Clearing the closed history, when the store calls succeed, removes the
    closed reminders and nothing else: the listing taken afterwards shows no
    closed reminder and the same active list as the listing taken before. *)
Theorem cleared_history_lists_empty :
  forall (w : world),
    faults w = [] ->
    let w' := snd (delete_reminders_closed w) in
    exists active closed,
      get_reminders w = (Normal (ReminderRows active closed), w)
      /\ fst (delete_reminders_closed w)
         = Normal (Done "Closed reminder history cleared successfully")
      /\ get_reminders w' = (Normal (ReminderRows active []), w')
      /\ items (db w') = items (db w)
      /\ price_history (db w') = price_history (db w).
Proof.
  intros w Hf w'. subst w'.
  assert (E : delete_reminders_closed w
              = (Normal (Done "Closed reminder history cleared successfully"),
                 set_db (set_reminders
                           (filter (fun r => negb (Reminders.is_closed r)))
                           (fun n => n) (db w)) w)).
  { unfold delete_reminders_closed, try_catch.
    rewrite bind_run, (execute_no_fault _ w Hf). reflexivity. }
  rewrite E. cbv beta iota delta [fst snd].
  do 2 eexists. split; [apply (get_reminders_no_fault w Hf)|].
  split; [reflexivity|]. split; [|split; reflexivity].
  rewrite get_reminders_no_fault by exact Hf.
  simpl db. simpl reminders.
  rewrite filter_twice.
  rewrite (filter_none Reminders.is_closed
             (fun r => negb (Reminders.is_closed r))).
  - reflexivity.
  - intros r Hr. now apply negb_true_iff.
Qed.

Lemma cleared_history_lists_empty_witness :
  exists active closed,
    get_reminders Sample.pantry
    = (Normal (ReminderRows active closed), Sample.pantry)
    /\ get_reminders (snd (delete_reminders_closed Sample.pantry))
       = (Normal (ReminderRows active []),
          snd (delete_reminders_closed Sample.pantry)).
Proof.
  destruct (cleared_history_lists_empty Sample.pantry eq_refl)
    as (active & closed & E1 & _ & E2 & _).
  exists active, closed. split; assumption.
Defined.

(** A reminder that was closed comes back: when an item is still within
    three days of its best-by date and its only open reminder with the
    current message is closed by the user, then (store calls succeeding) no
    open reminder with that message is left, and the next sweep adds a fresh
    open one with the same message. *)
Theorem closed_reminder_is_recreated :
  forall (w : world) (reminderId : Z) (it : Items.row),
    faults w = [] ->
    In it (items (db w)) ->
    Items.best_by_date it - Calendar.curdate (clock w) <= 3 ->
    (forall r, In r (reminders (db w)) ->
               Reminders.item_id r = Some (Items.id it) ->
               Reminders.message r = reminder_message it (clock w) ->
               Reminders.is_closed r = false ->
               Reminders.id r = reminderId) ->
    let closed := snd (put_reminder_close reminderId w) in
    let swept := snd (checkExpirationAndGenerateReminders closed) in
    (forall r, In r (reminders (db closed)) ->
               Reminders.item_id r = Some (Items.id it) ->
               Reminders.message r = reminder_message it (clock w) ->
               Reminders.is_closed r = true)
    /\ exists fresh,
         In fresh (reminders (db swept))
         /\ ~ In fresh (reminders (db closed))
         /\ Reminders.is_closed fresh = false
         /\ Reminders.item_id fresh = Some (Items.id it)
         /\ Reminders.message fresh = reminder_message it (clock w).
Proof.
  intros w reminderId it Hf Hin Hexp Honly closed swept.
  destruct (put_reminder_close_no_fault reminderId w Hf) as (resp & E & _).
  assert (Hc : closed
               = set_db (set_reminders
                           (map (fun r => if Reminders.id r =? reminderId
                                          then Crud.closed_copy r else r))
                           (fun n => n) (db w)) w)
    by (unfold closed; now rewrite E).
  assert (Hfc : faults closed = []) by (rewrite Hc; exact Hf).
  assert (Hclock : clock closed = clock w) by (now rewrite Hc).
  assert (Hitems : items (db closed) = items (db w)) by (now rewrite Hc).
  assert (Hall : forall r, In r (reminders (db closed)) ->
                           Reminders.item_id r = Some (Items.id it) ->
                           Reminders.message r = reminder_message it (clock w) ->
                           Reminders.is_closed r = true).
  { intros r Hr Hid Hm. rewrite Hc in Hr. simpl in Hr.
    apply in_map_iff in Hr. destruct Hr as (x & Hx & Hxin).
    destruct (Z.eqb_spec (Reminders.id x) reminderId) as [Hxid | Hxid].
    - subst r. reflexivity.
    - subst r. destruct (Reminders.is_closed x) eqn:Hcl; [reflexivity|].
      exfalso. apply Hxid. now apply Honly. }
  split; [exact Hall|].
  destruct (sweep_db_reminded (clock closed) (db closed) it)
    as (r & Hr & Hid & Hm & Ho).
  { apply expiring_In. rewrite Hitems, Hclock. split; assumption. }
  exists r. unfold swept. rewrite (sweep_result closed Hfc).
  rewrite Hclock in Hm.
  split; [exact Hr|]. split; [|auto].
  intros Hold. specialize (Hall r Hold Hid Hm). congruence.
Qed.

Lemma closed_reminder_is_recreated_witness :
  In Sample.soup_open (reminders (db Sample.reminded_pantry))
  /\ Reminders.is_closed Sample.soup_open = false
  /\ Reminders.message Sample.soup_open
     = (WARNING ++ "Soup expires TODAY!")%string
  /\ reminders (db (snd (put_reminder_close 5 Sample.reminded_pantry)))
     = [Sample.old_open; Crud.closed_copy Sample.soup_open]
  /\ exists fresh,
       In fresh
          (reminders
             (db (snd (checkExpirationAndGenerateReminders
                         (snd (put_reminder_close 5 Sample.reminded_pantry))))))
       /\ ~ In fresh
              (reminders (db (snd (put_reminder_close 5 Sample.reminded_pantry))))
       /\ Reminders.is_closed fresh = false
       /\ Reminders.item_id fresh = Some 4
       /\ Reminders.message fresh = reminder_message Sample.soup Sample.now.
Proof.
  split; [right; left; reflexivity|].
  split; [reflexivity|].
  split; [vm_compute; reflexivity|].
  split; [vm_compute; reflexivity|].
  refine (proj2 (closed_reminder_is_recreated Sample.reminded_pantry 5
                   Sample.soup eq_refl _ _ _)).
  - right; right; right; left; reflexivity.
  - vm_compute; intro E; discriminate E.
  - intros r [<- | [<- | []]] Hid Hm Ho.
    + discriminate Hid.
    + reflexivity.
Defined.

(* ------------------------------------------------------------------ *)
(** ** A failed item write, and ordered boundary dates *)

(** When the INSERT or UPDATE of an item throws, nothing else is attempted:
    the route answers 500, the error is written to the console, the
    database is untouched (no price is logged, no sweep runs) and the rest
    of the fault schedule is not consumed.  Stated for a request without an
    upload that keeps its image. *)
Theorem failed_item_write_leaves_no_trace :
  forall (itemId : Z) (f : item_form) (w : world) (fs : list bool)
         (name loc p : string) (purchase_date best_by_date : Z),
    faults w = true :: fs ->
    required_fields f = Some (name, loc, purchase_date, best_by_date) ->
    file f = None ->
    current_image_path f = JStr p ->
    p <> "DELETE_FLAG" ->
    post_item f w
    = (Normal (Error 500 "Failed to add item to database."),
       mkWorld (db w) (clock w) (files w)
               ("Error adding item: ER_STORE" :: console w) fs)
    /\ put_item itemId f w
       = (Normal (Error 500 "Failed to update item in database."),
          mkWorld (db w) (clock w) (files w)
                  ("Error updating item: ER_STORE" :: console w) fs).
Proof.
  intros itemId f w fs name loc p purchase_date best_by_date
         Hf Hreq Hfile Hcur Hflag.
  split.
  - unfold post_item. rewrite Hreq, Hfile.
    rewrite bind_param_dbBrand.
    unfold try_catch. rewrite !bind_ret_l.
    unfold bind_param at 1. rewrite bind_ret_l, bind_run.
    unfold execute, next_fault. rewrite Hf.
    unfold unlink_upload. rewrite Hfile. reflexivity.
  - unfold put_item, image_change. rewrite Hfile, Hcur.
    assert (E : jsval_eqb (JStr p) (JStr "DELETE_FLAG") = false)
      by (simpl; now apply String.eqb_neq).
    rewrite E. unfold try_catch. rewrite bind_ret_l, Hreq.
    rewrite bind_param_dbBrand, bind_ret_l.
    unfold bind_param at 1. rewrite bind_ret_l, bind_run.
    unfold execute, next_fault. rewrite Hf.
    unfold unlink_upload. rewrite Hfile. reflexivity.
Qed.

Lemma failed_item_write_leaves_no_trace_witness :
  post_item Sample.form
            (mkWorld Sample.pantry_db Sample.now [] [] [true; false])
  = (Normal (Error 500 "Failed to add item to database."),
     mkWorld Sample.pantry_db Sample.now [] ["Error adding item: ER_STORE"]
             [false]).
Proof.
  assert (Hflag : "" <> "DELETE_FLAG") by discriminate.
  exact (proj1 (failed_item_write_leaves_no_trace 1 Sample.form
                  (mkWorld Sample.pantry_db Sample.now [] [] [true; false])
                  [false] "Milk" "Fridge" "" Sample.today (Sample.today + 2)
                  eq_refl eq_refl eq_refl eq_refl Hflag)).
Defined.

(** With a start date that is not after the end date, and the store calls
    succeeding, the difference route never reports a missing end boundary:
    it answers either the 404 for the start date or a difference, and in a
    difference the two recorded days are ordered like the requested ones,
    each on or before the date that was asked for. *)
Theorem difference_dates_ordered :
  forall (w : world) (name q : string) (startDate endDate : Z),
    faults w = [] ->
    name <> "" ->
    startDate <= endDate ->
    let response :=
      fst (get_difference (JStr name) (JStr q) (Some startDate) (Some endDate) w) in
    response
    = Normal (Error 404 ("No price history found for '" ++ name
                           ++ "' on or before start date ("
                           ++ Calendar.iso_date startDate ++ ").")%string)
    \/ exists brand startDay endDay startPrice endPrice,
         response
         = Normal (Difference name brand startDay endDay startPrice endPrice
                              (endPrice - startPrice))
         /\ startDay <= endDay
         /\ startDay <= startDate
         /\ endDay <= endDate.
Proof.
  intros w name q startDate endDate Hf Hname Hle response.
  subst response.
  rewrite (get_difference_no_fault w name q startDate endDate Hf Hname).
  cbv zeta. simpl fst.
  set (brand := null_if_blank (JStr q)).
  destruct (closest name (to_sql brand) startDate (price_history (db w)))
    as [ps|] eqn:Es; [|now left].
  apply closest_some in Es. destruct Es as [Hs _].
  assert (Hs' : entry_on_or_before (price_history (db w)) name (to_sql brand)
                  endDate ps).
  { destruct Hs as (H1 & H2 & H3 & H4). repeat split; auto. lia. }
  destruct (closest name (to_sql brand) endDate (price_history (db w)))
    as [pe|] eqn:Ee.
  - apply closest_some in Ee. destruct Ee as [He Hmax].
    right. do 5 eexists. split; [reflexivity|].
    destruct Hs as (_ & _ & _ & H4). destruct He as (_ & _ & _ & H5).
    split; [now apply Hmax | split; assumption].
  - exfalso. exact (proj1 (closest_none _ _ _ _) Ee ps Hs').
Qed.

Lemma difference_dates_ordered_witness :
  fst (get_difference (JStr "Eggs") (JStr "Acme") (Some (Sample.today - 20))
                      (Some Sample.today) Sample.pantry)
  = Normal (Error 404 ("No price history found for 'Eggs' on or before "
                         ++ "start date (2024-05-21).")%string)
  \/ exists brand startDay endDay startPrice endPrice,
       fst (get_difference (JStr "Eggs") (JStr "Acme") (Some (Sample.today - 20))
                           (Some Sample.today) Sample.pantry)
       = Normal (Difference "Eggs" brand startDay endDay startPrice endPrice
                            (endPrice - startPrice))
       /\ startDay <= endDay
       /\ startDay <= Sample.today - 20
       /\ endDay <= Sample.today.
Proof.
  assert (Hn : "Eggs" <> "") by discriminate.
  refine (difference_dates_ordered Sample.pantry "Eggs" "Acme"
            (Sample.today - 20) Sample.today eq_refl Hn _).
  vm_compute. intro E. discriminate E.
Defined.

(* ------------------------------------------------------------------ *)
(** ** Replacing an item's image *)

Lemma image_change_upload (itemId : Z) (f : item_form) (filename p : string) :
  file f = Some filename ->
  current_image_path f = JStr p ->
  p <> "" ->
  p <> "DELETE_FLAG" ->
  image_change itemId f = ret (JStr (uploaded filename), Some p).
Proof.
  intros Hfile Hcur Hp Hflag. unfold image_change. rewrite Hfile, Hcur.
  simpl. apply String.eqb_neq in Hp. apply String.eqb_neq in Hflag.
  now rewrite Hp, Hflag.
Qed.

Lemma existsb_eqb_In (p : string) (l : list string) :
  In p l -> existsb (String.eqb p) l = true.
Proof.
  intros H. apply existsb_exists. exists p.
  split; [exact H | apply String.eqb_refl].
Qed.

(** An update that uploads a new image deletes the old image file only
    after the UPDATE went through.  When every call succeeds the route
    answers 200 with the new path and the old file is removed; when the
    UPDATE throws, the route answers 500, the database is untouched, and it
    is the new upload that is removed, the old file staying in place. *)
Theorem put_item_replaces_image_after_commit :
  forall (itemId : Z) (f : item_form) (w : world)
         (name loc filename p : string) (purchase_date best_by_date : Z)
         (l : location),
    required_fields f = Some (name, loc, purchase_date, best_by_date) ->
    location_of_string loc = Some l ->
    file f = Some filename ->
    current_image_path f = JStr p ->
    p <> "" ->
    p <> "DELETE_FLAG" ->
    In p (files w) ->
    In (uploaded filename) (files w) ->
    (faults w = [] ->
     fst (put_item itemId f w) = Normal (ItemUpdated (JStr (uploaded filename)))
     /\ files (snd (put_item itemId f w)) = remove_file p (files w))
    /\ (faults w = [true] ->
        fst (put_item itemId f w)
        = Normal (Error 500 "Failed to update item in database.")
        /\ db (snd (put_item itemId f w)) = db w
        /\ files (snd (put_item itemId f w))
           = remove_file (uploaded filename) (files w)).
Proof.
  intros itemId f w name loc filename p purchase_date best_by_date l
         Hreq Hloc Hfile Hcur Hp Hflag Hold Hnew.
  split; intros Hf.
  - assert (E : exists d,
               put_item itemId f w
               = (Normal (ItemUpdated (JStr (uploaded filename))),
                  mkWorld d (clock w) (remove_file p (files w)) (console w) [])).
    { unfold put_item.
      rewrite (image_change_upload itemId f filename p Hfile Hcur Hp Hflag).
      unfold try_catch. rewrite bind_ret_l, Hreq.
      rewrite bind_param_dbBrand, bind_ret_l.
      unfold bind_param at 1. rewrite bind_ret_l, bind_run.
      rewrite (execute_no_fault _ w Hf). unfold Sql.update_item. rewrite Hloc.
      set (w1 := set_db _ w).
      rewrite bind_run. unfold unlink_old, try_catch, unlink, next_fault.
      assert (Hf1 : faults w1 = []) by exact Hf.
      rewrite Hf1.
      assert (Hex : existsb (String.eqb p) (files w1) = true)
        by (apply existsb_eqb_In; exact Hold).
      rewrite Hex.
      set (w2 := mkWorld _ _ _ _ _).
      assert (Hf2 : faults w2 = []) by exact Hf.
      rewrite bind_run, (logPriceHistory_no_fault _ _ _ _ w2 Hf2).
      set (w3 := set_db _ w2).
      assert (Hf3 : faults w3 = []) by exact Hf.
      rewrite bind_run, (sweep_no_fault w3 Hf3).
      eexists. unfold ret, set_db. simpl.
      rewrite Hf. reflexivity. }
    destruct E as (d & E). rewrite E. split; reflexivity.
  - assert (E : put_item itemId f w
               = (Normal (Error 500 "Failed to update item in database."),
                  mkWorld (db w) (clock w)
                          (remove_file (uploaded filename) (files w))
                          ("Error updating item: ER_STORE" :: console w) [])).
    { unfold put_item.
      rewrite (image_change_upload itemId f filename p Hfile Hcur Hp Hflag).
      unfold try_catch. rewrite bind_ret_l, Hreq.
      rewrite bind_param_dbBrand, bind_ret_l.
      unfold bind_param at 1. rewrite bind_ret_l, bind_run.
      unfold execute, next_fault. rewrite Hf.
      unfold bind, console_error, unlink_upload. rewrite Hfile.
      unfold unlink, next_fault. simpl faults.
      cbv beta iota zeta. simpl files.
      rewrite (existsb_eqb_In _ _ Hnew). reflexivity. }
    rewrite E. repeat split.
Qed.

Lemma put_item_replaces_image_after_commit_witness :
  fst (put_item 1
         (mkForm (JStr "Milk") (JStr "") (JStr "Fridge") (Some Sample.today)
                 (Some (Sample.today + 2)) (Some 275) (JStr "/uploads/old.jpg")
                 (Some "new.jpg"))
         (mkWorld Sample.pantry_db Sample.now
                  ["/uploads/old.jpg"; "/uploads/new.jpg"] [] [true]))
  = Normal (Error 500 "Failed to update item in database.")
  /\ files (snd (put_item 1
         (mkForm (JStr "Milk") (JStr "") (JStr "Fridge") (Some Sample.today)
                 (Some (Sample.today + 2)) (Some 275) (JStr "/uploads/old.jpg")
                 (Some "new.jpg"))
         (mkWorld Sample.pantry_db Sample.now
                  ["/uploads/old.jpg"; "/uploads/new.jpg"] [] [true])))
     = ["/uploads/old.jpg"].
Proof.
  assert (H1 : "/uploads/old.jpg" <> "") by discriminate.
  assert (H2 : "/uploads/old.jpg" <> "DELETE_FLAG") by discriminate.
  pose proof (put_item_replaces_image_after_commit 1
                (mkForm (JStr "Milk") (JStr "") (JStr "Fridge") (Some Sample.today)
                        (Some (Sample.today + 2)) (Some 275)
                        (JStr "/uploads/old.jpg") (Some "new.jpg"))
                (mkWorld Sample.pantry_db Sample.now
                         ["/uploads/old.jpg"; "/uploads/new.jpg"] [] [true])
                "Milk" "Fridge" "new.jpg" "/uploads/old.jpg"
                Sample.today (Sample.today + 2) Fridge
                eq_refl eq_refl eq_refl eq_refl H1 H2) as H.
  destruct H as [_ H].
  - left; reflexivity.
  - right; left; reflexivity.
  - destruct (H eq_refl) as (Hresp & _ & Hfiles).
    split; [exact Hresp | exact Hfiles].
Defined.
